(** * Lognalizer: ingestion, classification and query core

    A shallow embedding of the Python sources ([src/models.py],
    [src/ingest.py], [src/parser_linux.py], [src/parser_zabbix_server.py],
    [src/parser_zabbix_proxy.py], [src/analyzer.py], [src/cli.py],
    [web_app.py]) together with the properties of the specification that
    are checked against them, and further properties of the code.

    Conventions of the embedding.
    - Python [str] values are Rocq [string]s.  The character functions
      ([isspace], [upper], [lower], the classes [\d], [\w], [\s]) are the
      ASCII ones: the model is exact on ASCII text, and characters above
      127 are opaque symbols (no case, not a digit, not a word character,
      not white space).
    - [Optional[str]] is [option string]; Python truthiness of such a value
      is [truthy].
    - Regular expressions are terms of [Re.regex], run by a backtracking
      matcher with the search order of Python's [re] (greedy quantifiers,
      leftmost alternative first).
    - The clock is an explicit argument: a parser receives the instant a
      call to [datetime.now()] / [datetime.utcnow()] would return.
    - The table [logs] is the list of its rows in insertion order.
    - An exception is a value of [result]. *)

From Stdlib Require Import String Ascii List NArith ZArith Lia Bool Arith.
From Stdlib Require Import Sorted Permutation.
Import ListNotations.

Local Open Scope list_scope.
Local Open Scope string_scope.
Local Open Scope nat_scope.

(* ================================================================== *)
(** ** Characters and strings (Python [str] methods used by the code) *)
(* ================================================================== *)

Module Str.

Definition code (c : ascii) : nat := nat_of_ascii c.

Definition in_range (lo hi : nat) (c : ascii) : bool :=
  (lo <=? code c) && (code c <=? hi).

(** [str.isspace] on one ASCII character: TAB, LF, VT, FF, CR, the four
    separators 0x1C..0x1F, and the space. *)
Definition is_space (c : ascii) : bool :=
  in_range 9 13 c || in_range 28 32 c.

Definition is_digit (c : ascii) : bool := in_range 48 57 c.
Definition is_upper (c : ascii) : bool := in_range 65 90 c.
Definition is_lower (c : ascii) : bool := in_range 97 122 c.
Definition is_alpha (c : ascii) : bool := is_upper c || is_lower c.

(** The class [\w]. *)
Definition is_word (c : ascii) : bool :=
  is_alpha c || is_digit c || Ascii.eqb c "_".

Definition upper_char (c : ascii) : ascii :=
  if is_lower c then ascii_of_nat (code c - 32) else c.

Definition lower_char (c : ascii) : ascii :=
  if is_upper c then ascii_of_nat (code c + 32) else c.

Fixpoint map (f : ascii -> ascii) (s : string) : string :=
  match s with
  | EmptyString => EmptyString
  | String c t => String (f c) (map f t)
  end.

Definition upper : string -> string := map upper_char.
Definition lower : string -> string := map lower_char.

Definition is_empty (s : string) : bool :=
  match s with EmptyString => true | _ => false end.

(** [s.lstrip()] *)
Fixpoint lstrip (s : string) : string :=
  match s with
  | String c t => if is_space c then lstrip t else s
  | EmptyString => EmptyString
  end.

(** [s.rstrip()] *)
Fixpoint rstrip (s : string) : string :=
  match s with
  | EmptyString => EmptyString
  | String c t =>
      let t' := rstrip t in
      if is_space c && is_empty t' then EmptyString else String c t'
  end.

(** [s.strip()] *)
Definition strip (s : string) : string := lstrip (rstrip s).

(** [s.rstrip("\n")]: every trailing line feed is removed. *)
Fixpoint rstrip_nl (s : string) : string :=
  match s with
  | EmptyString => EmptyString
  | String c t =>
      let t' := rstrip_nl t in
      if Ascii.eqb c "010" && is_empty t' then EmptyString else String c t'
  end.

(** [s.startswith(p)] *)
Fixpoint startswith (p s : string) : bool :=
  match p, s with
  | EmptyString, _ => true
  | String a p', String b s' => Ascii.eqb a b && startswith p' s'
  | String _ _, EmptyString => false
  end.

(** [sub in s] *)
Fixpoint contains (sub s : string) : bool :=
  startswith sub s ||
  match s with
  | EmptyString => false
  | String _ t => contains sub t
  end.

(** [s.find(sub)], counted from offset [i]: the least index of an
    occurrence, [-1] when there is none. *)
Fixpoint find_from (i : Z) (sub s : string) : Z :=
  if startswith sub s then i
  else match s with
       | EmptyString => (-1)%Z
       | String _ t => find_from (i + 1) sub t
       end.

Definition find (sub s : string) : Z := find_from 0 sub s.

(** [s[:i]] for [i >= 0] *)
Definition take (i : Z) (s : string) : string :=
  substring 0 (Z.to_nat i) s.

(** [s[n:]] *)
Fixpoint drop (n : nat) (s : string) : string :=
  match n, s with
  | O, _ => s
  | S n', String _ t => drop n' t
  | S _, EmptyString => EmptyString
  end.

(** [s[a:b]] for [0 <= a <= b] *)
Definition slice (a b : nat) (s : string) : string :=
  substring a (b - a) s.

(** [s.endswith(p)] *)
Definition endswith (p s : string) : bool :=
  (String.length p <=? String.length s) &&
  String.eqb (drop (String.length s - String.length p) s) p.

(** Line boundaries of [str.splitlines]: LF, CR, VT, FF, FS, GS, RS. *)
Definition is_linebreak (c : ascii) : bool :=
  in_range 10 13 c || in_range 28 30 c.

(** [s.splitlines()]; [cur] is the line being read.  CR LF is one
    boundary, and a final boundary opens no empty last line. *)
Fixpoint splitlines_aux (cur : string) (s : string) : list string :=
  match s with
  | EmptyString => if is_empty cur then [] else [cur]
  | String c t =>
      if is_linebreak c then
        match t with
        | String d t' =>
            if Ascii.eqb c "013" && Ascii.eqb d "010"
            then cur :: splitlines_aux EmptyString t'
            else cur :: splitlines_aux EmptyString t
        | EmptyString => [cur]
        end
      else splitlines_aux (cur ++ String c EmptyString) t
  end.

Definition splitlines (s : string) : list string :=
  splitlines_aux EmptyString s.

(** Decimal digits of a natural number, and [str(n)] / [f"{n:0wd}"].
    Python integers that are never negative are values of [N]. *)
Definition digit_char (n : N) : ascii := ascii_of_N (48 + n mod 10).

Fixpoint digits_aux (fuel : nat) (n : N) (acc : string) : string :=
  match fuel with
  | O => acc
  | S f =>
      let acc' := String (digit_char n) acc in
      if (n <? 10)%N then acc' else digits_aux f (n / 10) acc'
  end.

(** [str(n)]; a number has no more decimal digits than binary ones. *)
Definition of_N (n : N) : string :=
  digits_aux (S (N.size_nat n)) n EmptyString.

Fixpoint zeros (n : nat) : string :=
  match n with O => EmptyString | S k => String "0" (zeros k) end.

(** [f"{n:0wd}"]: at least [w] digits, padded with zeros on the left. *)
Definition pad (w : nat) (n : N) : string :=
  let d := of_N n in zeros (w - String.length d) ++ d.

(** [int(s)] on a string of decimal digits. *)
Fixpoint to_N_aux (acc : N) (s : string) : N :=
  match s with
  | EmptyString => acc
  | String c t => to_N_aux (10 * acc + (N_of_ascii c - 48)) t
  end.

Definition to_N (s : string) : N := to_N_aux 0 s.

End Str.

(** Truthiness of an [Optional[str]]: [None] and [""] are false. *)
Definition truthy (o : option string) : bool :=
  match o with
  | Some s => negb (Str.is_empty s)
  | None => false
  end.

(** Exceptions raised by the modelled code. *)
Inductive exn : Type :=
| ValueError
| FileNotFoundError.

Inductive result (A : Type) : Type :=
| Ok (a : A)
| Raise (e : exn).
Arguments Ok {A} a.
Arguments Raise {A} e.

(* ================================================================== *)
(** ** Regular expressions (the fragment of Python's [re] the code uses) *)
(* ================================================================== *)

Module Re.

Inductive regex : Type :=
| Eps                              (* the empty pattern *)
| Cls (p : ascii -> bool)          (* one character of a class *)
| Cat (a b : regex)                (* a b *)
| Alt (a b : regex)                (* a|b, left alternative first *)
| Star (a : regex)                 (* a*, greedy *)
| Grp (n : nat) (a : regex)        (* capturing group number n *)
| Bol                              (* ^ without MULTILINE *)
| Eol                              (* $ without MULTILINE *)
| Wb.                              (* \b *)

(** A position of the matcher in the subject string. *)
Record mstate : Type := MState {
  prev : option ascii;             (* the character before the cursor *)
  pos : nat;                       (* offset of the cursor *)
  rest : string;                   (* text from the cursor on *)
  caps : list (nat * string)       (* groups closed so far, latest first *)
}.

Definition advance (c : ascii) (t : string) (s : mstate) : mstate :=
  MState (Some c) (S (pos s)) t (caps s).

(** Text between two positions [s] and [s'] of one subject. *)
Definition consumed (s s' : mstate) : string :=
  substring 0 (String.length (rest s) - String.length (rest s')) (rest s).

Definition set_cap (n : nat) (txt : string) (s : mstate) : mstate :=
  MState (prev s) (pos s) (rest s) ((n, txt) :: caps s).

(** [$]: at the end, or just before a final line feed. *)
Definition at_eol (s : string) : bool :=
  match s with
  | EmptyString => true
  | String c EmptyString => Ascii.eqb c "010"
  | _ => false
  end.

Definition word_before (s : mstate) : bool :=
  match prev s with Some c => Str.is_word c | None => false end.

Definition word_after (s : mstate) : bool :=
  match rest s with String c _ => Str.is_word c | EmptyString => false end.

Definition at_word_boundary (s : mstate) : bool :=
  xorb (word_before s) (word_after s).

Section Matcher.
Context {R : Type}.

(** Greedy iteration of [step]; an iteration that consumes nothing is
    refused, and [fuel] bounds the number of iterations by the length of
    the remaining text. *)
Fixpoint star_loop (step : mstate -> (mstate -> option R) -> option R)
    (fuel : nat) (s : mstate) (k : mstate -> option R) : option R :=
  match fuel with
  | O => k s
  | S f =>
      match step s (fun s1 =>
               if String.length (rest s1) <? String.length (rest s)
               then star_loop step f s1 k else None) with
      | Some x => Some x
      | None => k s
      end
  end.

(** [run r s k]: match [r] at [s], then continue with [k]; [None] makes
    the matcher backtrack to the most recent choice. *)
Fixpoint run (r : regex) (s : mstate) (k : mstate -> option R) : option R :=
  match r with
  | Eps => k s
  | Cls p =>
      match rest s with
      | String c t => if p c then k (advance c t s) else None
      | EmptyString => None
      end
  | Cat a b => run a s (fun s1 => run b s1 k)
  | Alt a b =>
      match run a s k with
      | Some x => Some x
      | None => run b s k
      end
  | Star a => star_loop (run a) (String.length (rest s)) s k
  | Grp n a => run a s (fun s1 => k (set_cap n (consumed s s1) s1))
  | Bol => if pos s =? 0 then k s else None
  | Eol => if at_eol (rest s) then k s else None
  | Wb => if at_word_boundary s then k s else None
  end.
End Matcher.

Definition start (s : string) : mstate := MState None 0 s [].

(** [pattern.match(s)]: the state at the end of the match. *)
Definition re_match (r : regex) (s : string) : option mstate :=
  run r (start s) Some.

(** [pattern.search(s)]: the first offset at which the pattern matches. *)
Fixpoint search_from (r : regex) (p : option ascii) (i : nat) (s : string)
    : option mstate :=
  match run r (MState p i s []) Some with
  | Some m => Some m
  | None =>
      match s with
      | EmptyString => None
      | String c t => search_from r (Some c) (S i) t
      end
  end.

Definition re_search (r : regex) (s : string) : option mstate :=
  search_from r None 0 s.

Definition found (m : option mstate) : bool :=
  match m with Some _ => true | None => false end.

Fixpoint lookup (n : nat) (l : list (nat * string)) : option string :=
  match l with
  | [] => None
  | (k, v) :: t => if k =? n then Some v else lookup n t
  end.

(** [m.group(n)] for a group that took part in the match (every group the
    code reads is a mandatory part of its pattern). *)
Definition group (m : mstate) (n : nat) : string :=
  match lookup n (caps m) with Some v => v | None => EmptyString end.

(** *** Pattern syntax *)

Definition Plus (a : regex) : regex := Cat a (Star a).
Definition Opt (a : regex) : regex := Alt a Eps.

(** [a{n}] *)
Fixpoint Rep (n : nat) (a : regex) : regex :=
  match n with
  | O => Eps
  | S O => a
  | S k => Cat a (Rep k a)
  end.

(** [a{0,n}], greedy *)
Fixpoint UpTo (n : nat) (a : regex) : regex :=
  match n with
  | O => Eps
  | S k => Opt (Cat a (UpTo k a))
  end.

(** [a{n,m}] *)
Definition Range (n m : nat) (a : regex) : regex :=
  match m - n with
  | O => Rep n a
  | d => Cat (Rep n a) (UpTo d a)
  end.

Definition chr (c : ascii) : regex := Cls (Ascii.eqb c).

(** A character under IGNORECASE. *)
Definition chri (c : ascii) : regex :=
  Cls (fun x => Ascii.eqb (Str.lower_char x) (Str.lower_char c)).

Fixpoint lit_with (f : ascii -> regex) (s : string) : regex :=
  match s with
  | EmptyString => Eps
  | String c EmptyString => f c
  | String c t => Cat (f c) (lit_with f t)
  end.

Definition liti : string -> regex := lit_with chri.

Definition digit : regex := Cls Str.is_digit.                    (* \d *)
Definition word : regex := Cls Str.is_word.                      (* \w *)
Definition space : regex := Cls Str.is_space.                    (* \s *)
Definition dot : regex := Cls (fun c => negb (Ascii.eqb c "010")). (* . *)
Definition alpha : regex := Cls Str.is_alpha.                    (* [A-Za-z] *)
Definition upper : regex := Cls Str.is_upper.                    (* [A-Z] *)
Definition lower : regex := Cls Str.is_lower.                    (* [a-z] *)
Definition none_of (c : ascii) : regex :=                        (* [^c] *)
  Cls (fun x => negb (Ascii.eqb x c)).

End Re.

Declare Scope re_scope.
Delimit Scope re_scope with re.
Bind Scope re_scope with Re.regex.
Infix ">>" := Re.Cat (at level 61, right associativity) : re_scope.
Infix "<|>" := Re.Alt (at level 62, right associativity) : re_scope.

(* ================================================================== *)
(** ** [datetime]: construction, parsing and formatting *)
(* ================================================================== *)

Module Dt.
Import Re.
Local Open Scope re_scope.

Local Open Scope N_scope.

Record datetime : Type := DateTime {
  year : N; month : N; day : N;
  hour : N; minute : N; second : N; microsecond : N
}.

Definition is_leap (y : N) : bool :=
  ((y mod 4 =? 0) && negb (y mod 100 =? 0)) || (y mod 400 =? 0).

Definition days_in_month (y m : N) : N :=
  match m with
  | 2 => if is_leap y then 29 else 28
  | 4 | 6 | 9 | 11 => 30
  | _ => 31
  end.

Definition valid (y mo d h mi s : N) : bool :=
  (1 <=? y) && (y <=? 9999) && (1 <=? mo) && (mo <=? 12) &&
  (1 <=? d) && (d <=? days_in_month y mo) &&
  (h <=? 23) && (mi <=? 59) && (s <=? 59).

(** [datetime(y, mo, d, h, mi, s)]: [ValueError] on a field out of range. *)
Definition make (y mo d h mi s : N) : result datetime :=
  if valid y mo d h mi s then Ok (DateTime y mo d h mi s 0)
  else Raise ValueError.

(** [dt.strftime("%Y-%m-%d %H:%M:%S")]; the year is written on four
    digits (the C library may drop the leading zeros of a year below 1000,
    which no clock of the program gives). *)
Definition strftime (dt : datetime) : string :=
  Str.pad 4 (year dt) ++ "-" ++ Str.pad 2 (month dt) ++ "-" ++
  Str.pad 2 (day dt) ++ " " ++ Str.pad 2 (hour dt) ++ ":" ++
  Str.pad 2 (minute dt) ++ ":" ++ Str.pad 2 (second dt).

(** [dt.isoformat(sep=" ")]: the microseconds are printed when they are
    not zero. *)
Definition isoformat (dt : datetime) : string :=
  strftime dt ++
  (if microsecond dt =? 0 then "" else "." ++ Str.pad 6 (microsecond dt)).

(** Groups of the pattern [strptime] builds from a format. *)
Definition gY := 1%nat.
Definition gm := 2%nat.
Definition gd := 3%nat.
Definition gH := 4%nat.
Definition gM := 5%nat.
Definition gS := 6%nat.
Definition gb := 7%nat.

(** Abbreviated month names of the C locale, in lower case. *)
Definition a_month : list string :=
  ["jan"; "feb"; "mar"; "apr"; "may"; "jun";
   "jul"; "aug"; "sep"; "oct"; "nov"; "dec"].

Fixpoint alternatives (l : list string) : regex :=
  match l with
  | [] => Cls (fun _ => false)
  | [x] => liti x
  | x :: t => liti x <|> alternatives t
  end.

Definition cls (lo hi : nat) : regex := Cls (Str.in_range lo hi).

(** [[0-k]] and [[1-k]] for a digit [k] *)
Definition d0 (k : nat) : regex := cls 48 (48 + k).
Definition d1 (k : nat) : regex := cls 49 (48 + k).

(** The sub-pattern of one directive, as in CPython's [_strptime.TimeRE]. *)
Definition directive (d : ascii) : regex :=
  match d with
  | "Y"%char => Grp gY (Rep 4 digit)
  | "m"%char => Grp gm ((chr "1" >> d0 2) <|> (chr "0" >> d1 9) <|> d1 9)
  | "d"%char => Grp gd ((chr "3" >> d0 1) <|> (d1 2 >> digit) <|>
                        (chr "0" >> d1 9) <|> d1 9 <|> (chr " " >> d1 9))
  | "H"%char => Grp gH ((chr "2" >> d0 3) <|> (d0 1 >> digit) <|> digit)
  | "M"%char => Grp gM ((d0 5 >> digit) <|> digit)
  | "S"%char => Grp gS ((chr "6" >> d0 1) <|> (d0 5 >> digit) <|> digit)
  | "b"%char => Grp gb (alternatives a_month)
  | c => chri c
  end.

(** The pattern of a format: a directive gives its sub-pattern, a blank
    gives [\s+], any other character stands for itself. *)
Fixpoint pattern (fmt : string) : regex :=
  match fmt with
  | EmptyString => Eps
  | String "%" (String d t) => directive d >> pattern t
  | String c t =>
      if Str.is_space c then Plus space >> pattern t else chri c >> pattern t
  end.

Fixpoint index_of (x : string) (l : list string) (i : N) : option N :=
  match l with
  | [] => None
  | y :: t => if String.eqb x y then Some i else index_of x t (i + 1)
  end.

Definition field (m : mstate) (g : nat) (default : N) : N :=
  match Re.lookup g (caps m) with
  | Some v => Str.to_N v
  | None => default
  end.

(** [datetime.strptime(data, fmt)]: the whole of [data] must be consumed by
    the first match of the format's pattern, and the fields must form a
    date. *)
Definition strptime (data fmt : string) : result datetime :=
  match re_match (pattern fmt) data with
  | None => Raise ValueError
  | Some m =>
      if negb (Str.is_empty (rest m)) then Raise ValueError
      else
        let mo :=
          match Re.lookup gb (caps m) with
          | Some b =>
              match index_of (Str.lower b) a_month 1 with
              | Some i => i
              | None => 1
              end
          | None => field m gm 1
          end in
        make (field m gY 1900) mo (field m gd 1)
             (field m gH 0) (field m gM 0) (field m gS 0)
  end.

End Dt.

(* ================================================================== *)
(** ** Records *)
(* ================================================================== *)

(** The dictionary a line parser of [parser_linux] / [parser_zabbix_*]
    returns. *)
Record parsed : Type := Parsed {
  p_timestamp : string;
  p_source : string;
  p_level : string;
  p_host : string;
  p_message : string
}.

(** A row of the table [logs] ([models.init_db]). *)
Record LogRecord : Type := mkLog {
  timestamp : string;
  source : string;
  level : string;
  host : string;
  message : string;
  cause_group : option string;
  cause_reason : option string;
  cause_action : option string
}.

(** The table: its rows, oldest first. *)
Definition db : Type := list LogRecord.

(* ================================================================== *)
(** ** [src/parser_linux.py] *)
(* ================================================================== *)

Module parser_linux.
Import Re.
Local Open Scope re_scope.

Definition g_month := 1.
Definition g_day := 2.
Definition g_time := 3.
Definition g_host := 4.
Definition g_rest := 5.

(** [\d{2}:\d{2}:\d{2}] *)
Definition hms : regex :=
  Rep 2 digit >> chr ":" >> Rep 2 digit >> chr ":" >> Rep 2 digit.

(** [[\w\.\-]] *)
Definition host_char (c : ascii) : bool :=
  Str.is_word c || Ascii.eqb c "." || Ascii.eqb c "-".

(** [^(?P<month>\w{3})\s+(?P<day>\d{1,2})\s+(?P<time>\d{2}:\d{2}:\d{2})\s+(?P<host>[\w\.\-]+)\s+(?P<rest> .* )$]
    (blanks inside the last group are layout only) *)
Definition SYSLOG_REGEX : regex :=
  Bol >> Grp g_month (Rep 3 word) >> Plus space >>
  Grp g_day (Range 1 2 digit) >> Plus space >>
  Grp g_time hms >> Plus space >>
  Grp g_host (Plus (Cls host_char)) >> Plus space >>
  Grp g_rest (Star dot) >> Eol.

Definition MONTHS : list (string * N) :=
  [("Jan", 1); ("Feb", 2); ("Mar", 3); ("Apr", 4);
   ("May", 5); ("Jun", 6); ("Jul", 7); ("Aug", 8);
   ("Sep", 9); ("Oct", 10); ("Nov", 11); ("Dec", 12)]%N.

(** [d.get(key, default)] *)
Fixpoint dict_get {V : Type} (d : list (string * V)) (key : string) (default : V) : V :=
  match d with
  | [] => default
  | (k, v) :: t => if String.eqb k key then v else dict_get t key default
  end.

Definition guess_level (msg : string) : string :=
  let up := Str.upper msg in
  if Str.contains "CRIT" up || Str.contains "FATAL" up then "CRITICAL"
  else if Str.contains "ERROR" up || Str.contains " ERR " up then "ERROR"
  else if Str.contains "WARN" up then "WARN"
  else "INFO".

(** [parse_syslog_line(line, year)]; [now] is the value of
    [datetime.now()].  [Ok None] is the Python [None]. *)
Definition parse_syslog_line (line : string) (year : option N)
    (now : Dt.datetime) : result (option parsed) :=
  match re_match SYSLOG_REGEX line with
  | None => Ok None
  | Some m =>
      let year :=
        match year with
        | Some (Npos y) => Npos y
        | _ => Dt.year now                       (* year or now.year *)
        end in
      let month := dict_get MONTHS (group m g_month) (Dt.month now) in
      let day := Str.to_N (group m g_day) in
      let time_str := group m g_time in
      let host := group m g_host in
      let rest := Str.strip (group m g_rest) in
      match Dt.strptime
              (Str.of_N year ++ "-" ++ Str.pad 2 month ++ "-" ++
               Str.pad 2 day ++ " " ++ time_str)
              "%Y-%m-%d %H:%M:%S" with
      | Raise e => Raise e
      | Ok dt =>
          Ok (Some (Parsed (Dt.isoformat dt) "syslog" (guess_level rest)
                           host rest))
      end
  end.

End parser_linux.

(* ================================================================== *)
(** ** [src/parser_zabbix_server.py] *)
(* ================================================================== *)

Module parser_zabbix_server.
Import Re.
Local Open Scope re_scope.

Definition g_pid := 1.
Definition g_date := 2.
Definition g_time := 3.
Definition g_msg := 4.

(** [^\s*(?P<pid>\d+):(?P<date>\d{8}):(?P<time>\d{6})(?:\.\d+)?:\s*(?P<msg> .* )$]
    (blanks inside the last group are layout only) *)
Definition ZBX_SERVER_REGEX : regex :=
  Bol >> Star space >> Grp g_pid (Plus digit) >> chr ":" >>
  Grp g_date (Rep 8 digit) >> chr ":" >>
  Grp g_time (Rep 6 digit) >> Opt (chr "." >> Plus digit) >> chr ":" >>
  Star space >> Grp g_msg (Star dot) >> Eol.

Definition guess_level (msg : string) : string :=
  let up := Str.upper msg in
  if Str.contains "FATAL" up || Str.contains "CRITICAL" up then "CRITICAL"
  else if Str.contains "ERROR" up || Str.contains "FAILED" up
          || Str.contains "UNABLE" up then "ERROR"
  else if Str.contains "WARN" up || Str.contains "WARNING" up then "WARN"
  else if Str.contains "DEBUG" up then "DEBUG"
  else "INFO".

(** [parse_zabbix_server_line(line, host)]; [now] is [datetime.now()].
    [Ok (Some p)] is a returned dictionary, [Ok None] would be the Python
    [None]. *)
Definition parse_zabbix_server_line (line host : string) (now : Dt.datetime)
    : result (option parsed) :=
  let line := Str.rstrip_nl line in
  match re_match ZBX_SERVER_REGEX line with
  | Some m =>
      let raw_date := group m g_date in
      let raw_time := group m g_time in
      let msg := Str.strip (group m g_msg) in
      let year := Str.to_N (Str.slice 0 4 raw_date) in
      let month := Str.to_N (Str.slice 4 6 raw_date) in
      let day := Str.to_N (Str.slice 6 8 raw_date) in
      let hour := Str.to_N (Str.slice 0 2 raw_time) in
      let minute := Str.to_N (Str.slice 2 4 raw_time) in
      let second := Str.to_N (Str.slice 4 6 raw_time) in
      match Dt.make year month day hour minute second with
      | Raise e => Raise e
      | Ok dt =>
          Ok (Some (Parsed (Dt.isoformat dt) "zabbix_server" (guess_level msg)
                           host msg))
      end
  | None =>
      (* fallback: another format, the line is kept *)
      let dt := now in
      let msg := Str.strip line in
      Ok (Some (Parsed (Dt.isoformat dt) "zabbix_server_raw" (guess_level msg)
                       host msg))
  end.

End parser_zabbix_server.

(* ================================================================== *)
(** ** [src/parser_zabbix_proxy.py] *)
(* ================================================================== *)

Module parser_zabbix_proxy.
Import Re.
Local Open Scope re_scope.

Definition g_pid := 1.
Definition g_date := 2.
Definition g_time := 3.
Definition g_msg := 4.

(** [^\s*(?P<pid>\d+):(?P<date>\d{8}):(?P<time>\d{6})(?:\.\d+)?:\s*(?P<msg> .* )$]
    (blanks inside the last group are layout only) *)
Definition ZBX_PROXY_REGEX : regex :=
  Bol >> Star space >> Grp g_pid (Plus digit) >> chr ":" >>
  Grp g_date (Rep 8 digit) >> chr ":" >>
  Grp g_time (Rep 6 digit) >> Opt (chr "." >> Plus digit) >> chr ":" >>
  Star space >> Grp g_msg (Star dot) >> Eol.

Definition guess_level (msg : string) : string :=
  let up := Str.upper msg in
  if Str.contains "FATAL" up || Str.contains "CRITICAL" up then "CRITICAL"
  else if Str.contains "ERROR" up || Str.contains "FAILED" up
          || Str.contains "UNABLE" up then "ERROR"
  else if Str.contains "WARN" up || Str.contains "WARNING" up then "WARN"
  else if Str.contains "DEBUG" up then "DEBUG"
  else "INFO".

(** [parse_zabbix_proxy_line(line, host)]; [now] is [datetime.now()]. *)
Definition parse_zabbix_proxy_line (line host : string) (now : Dt.datetime)
    : result (option parsed) :=
  let line := Str.rstrip_nl line in
  match re_match ZBX_PROXY_REGEX line with
  | Some m =>
      let raw_date := group m g_date in
      let raw_time := group m g_time in
      let msg := Str.strip (group m g_msg) in
      let year := Str.to_N (Str.slice 0 4 raw_date) in
      let month := Str.to_N (Str.slice 4 6 raw_date) in
      let day := Str.to_N (Str.slice 6 8 raw_date) in
      let hour := Str.to_N (Str.slice 0 2 raw_time) in
      let minute := Str.to_N (Str.slice 2 4 raw_time) in
      let second := Str.to_N (Str.slice 4 6 raw_time) in
      match Dt.make year month day hour minute second with
      | Raise e => Raise e
      | Ok dt =>
          let level := guess_level msg in
          Ok (Some (Parsed (Dt.isoformat dt) "zabbix_proxy" level host msg))
      end
  | None =>
      (* fallback: the pattern did not match, the line is not lost *)
      let msg := Str.strip line in
      let level := guess_level msg in
      Ok (Some (Parsed (Dt.isoformat now) "zabbix_proxy_raw" level host msg))
  end.

End parser_zabbix_proxy.

(* ================================================================== *)
(** ** [src/models.py] *)
(* ================================================================== *)

Module models.
Import Re.
Local Open Scope re_scope.

(** [datetime_utc_now()]; [now] is the value of [datetime.utcnow()]. *)
Definition datetime_utc_now (now : Dt.datetime) : string := Dt.strftime now.

(** [insert_log(...)]: one row appended to the table and committed. *)
Definition insert_log (timestamp source level host message : string)
    (cause_group cause_reason cause_action : option string) (d : db) : db :=
  (d ++ [mkLog timestamp source level host message
               cause_group cause_reason cause_action])%list.

(** *** The format sniffer *)

(** What a stream holds, and what [read] returns: [bytes] or [str]. *)
Inductive data : Type :=
| Bytes (b : list Byte.byte)
| Text (s : string).

(** A seekable stream: its content and the read position. *)
Record stream : Type := Stream {
  content : data;
  position : nat
}.

Definition tell (st : stream) : nat := position st.

Definition seek (p : nat) (st : stream) : stream := Stream (content st) p.

Definition data_length (d : data) : nat :=
  match d with
  | Bytes b => List.length b
  | Text s => String.length s
  end.

(** [stream.read(n)]: at most [n] items from the position on; the position
    moves past them. *)
Definition read (n : nat) (st : stream) : data * stream :=
  let chunk :=
    match content st with
    | Bytes b => Bytes (firstn n (skipn (position st) b))
    | Text s => Text (substring 0 n (Str.drop (position st) s))
    end in
  (chunk, Stream (content st) (position st + data_length chunk)).

(** [\d{2}:\d{2}:\d{2}] *)
Definition hms : regex :=
  Rep 2 digit >> chr ":" >> Rep 2 digit >> chr ":" >> Rep 2 digit.

(** [^\[\d{2}-[A-Za-z]{3}-\d{4}\s+\d{2}:\d{2}:\d{2}\s+[^]]+\]] *)
Definition php_ts_pattern : regex :=
  Bol >> chr "[" >> Rep 2 digit >> chr "-" >> Rep 3 alpha >> chr "-" >>
  Rep 4 digit >> Plus space >> hms >> Plus space >>
  Plus (none_of "]") >> chr "]".

(** [\d{4}-\d{2}-\d{2}[ T]\d{2}:\d{2}:\d{2}] *)
Definition iso_ts : regex :=
  Rep 4 digit >> chr "-" >> Rep 2 digit >> chr "-" >> Rep 2 digit >>
  Cls (fun c => Ascii.eqb c " " || Ascii.eqb c "T") >> hms.

Definition iso_ts_pattern : regex := Bol >> iso_ts.

(** [^[A-Z][a-z]{2}\s+[ 0-9]{2}\s+\d{2}:\d{2}:\d{2}] *)
Definition syslog_ts_pattern : regex :=
  Bol >> upper >> Rep 2 lower >> Plus space >>
  Rep 2 (Cls (fun c => Ascii.eqb c " " || Str.is_digit c)) >>
  Plus space >> hms.

(** [\b(ERROR|WARN(ING)?|INFO|CRITICAL|NOTICE|EXCEPTION)\b], IGNORECASE *)
Definition level_keywords : regex :=
  Wb >> Grp 1 (liti "ERROR" <|> (liti "WARN" >> Opt (Grp 2 (liti "ING"))) <|>
               liti "INFO" <|> liti "CRITICAL" <|> liti "NOTICE" <|>
               liti "EXCEPTION") >> Wb.

(** One line of the sample counts when it has 15 characters or more and
    carries a timestamp or a level keyword. *)
Definition scores (ln : string) : bool :=
  if String.length ln <? 15 then false
  else
    let has_ts :=
      found (re_search php_ts_pattern ln)
      || found (re_search iso_ts_pattern ln)
      || found (re_search syslog_ts_pattern ln) in
    let has_level := found (re_search level_keywords ln) in
    has_ts || has_level.

Definition non_text_byte (b : Byte.byte) : bool :=
  let n := Byte.to_nat b in (n <=? 8) || (126 <? n).

Definition log_suffixes : list string := [".log"; ".txt"; ".out"; ".err"].

Section Decoding.
(** [bytes.decode("utf-8", errors="ignore")] is the codec of the Python
    library, taken as given. *)
Variable decode : list Byte.byte -> string.

(** [is_probably_log(stream, filename, max_bytes)]: the verdict and the
    stream after the call.  The two float comparisons are written on
    integers: in double precision [n / m > 0.15] holds exactly when
    [20 * n > 3 * m] (for every chunk of fewer than 10^15 items), and for
    [t <= 20], [s / t >= 0.3] holds exactly when [10 * s >= 3 * t]. *)
Definition is_probably_log (st : stream) (filename : option string)
    (max_bytes : nat) : bool * stream :=
  let pos_before := tell st in
  let '(chunk, st) := read max_bytes st in
  let st := seek pos_before st in
  let verdict :=
    if data_length chunk =? 0 then false
    else
      let text :=
        match chunk with
        | Bytes b =>
            let non_text := List.length (filter non_text_byte b) in
            if 3 * List.length b <? 20 * non_text then None
            else Some (decode b)
        | Text s => Some s
        end in
      match text with
      | None => false
      | Some text =>
          let lines :=
            List.map Str.strip
              (filter (fun ln => negb (Str.is_empty (Str.strip ln)))
                      (Str.splitlines text)) in
          if (List.length lines =? 0) then false
          else
            let scored_lines :=
              List.length (filter scores (firstn 20 lines)) in
            let total_considered := Nat.min (List.length lines) 20 in
            if 2 <=? scored_lines then true
            else if (0 <? total_considered)
                    && (3 * total_considered <=? 10 * scored_lines)
            then true
            else if truthy filename then
              let fname :=
                Str.lower (match filename with Some f => f | None => "" end) in
              existsb (fun suf => Str.endswith suf fname) log_suffixes
              && (1 <=? scored_lines)
            else false
      end in
  (verdict, st).
End Decoding.

(** *** The PHP error-log parser *)

Definition g_ts := 1.
Definition g_tz := 2.
Definition g_php_level := 3.
Definition g_rest := 4.

(** [_php_error_pattern], VERBOSE and IGNORECASE:
    [^\[(?P<ts>\d{2}-[A-Za-z]{3}-\d{4}\s+\d{2}:\d{2}:\d{2})\s+(?P<tz>[^\]]+)\]\s+PHP\s+(?P<php_level>Notice|Warning|Fatal\ error|Parse\ error|Deprecated|Error):\s+(?P<rest> .* )]
    (blanks inside the last group are layout only) *)
Definition _php_error_pattern : regex :=
  Bol >> chr "[" >>
  Grp g_ts (Rep 2 digit >> chr "-" >> Rep 3 alpha >> chr "-" >> Rep 4 digit >>
            Plus space >> hms) >>
  Plus space >>
  Grp g_tz (Plus (none_of "]")) >>
  chr "]" >> Plus space >>
  liti "PHP" >> Plus space >>
  Grp g_php_level (liti "Notice" <|> liti "Warning" <|> liti "Fatal error" <|>
                   liti "Parse error" <|> liti "Deprecated" <|> liti "Error") >>
  chr ":" >> Plus space >>
  Grp g_rest (Star dot).

(** [(\d{1,3}(?:\.\d{1,3}){3})\s+port\s+(\d+)], IGNORECASE *)
Definition ip_port_pattern : regex :=
  Grp 1 (Range 1 3 digit >> Rep 3 (chr "." >> Range 1 3 digit)) >>
  Plus space >> liti "port" >> Plus space >> Grp 2 (Plus digit).

(** [:\s*([^:]+)$] *)
Definition reason_pattern : regex :=
  chr ":" >> Star space >> Grp 1 (Plus (none_of ":")) >> Eol.

(** The dictionary [parse_php_error_line] returns. *)
Record php_parsed : Type := PhpParsed {
  php_timestamp : string;
  php_level : string;
  php_message : string;
  php_cause_group : option string;
  php_cause_reason : option string;
  php_cause_action : option string
}.

(** The main error message: the text before [" in <file>"] when there is
    one (lines 263-267). *)
Definition msg_main_of (rest : string) : string :=
  let in_idx := Str.find " in " (Str.lower rest) in
  if (in_idx =? -1)%Z then rest else Str.strip (Str.take in_idx rest).

(** [parse_php_error_line(line)]; [now] is [datetime.utcnow()]. *)
Definition parse_php_error_line (line : string) (now : Dt.datetime)
    : option php_parsed :=
  match re_match _php_error_pattern line with
  | None => None
  | Some m =>
      let ts_str := group m g_ts in
      let php_level := group m g_php_level in
      let rest := Str.strip (group m g_rest) in
      let timestamp :=
        match Dt.strptime ts_str "%d-%b-%Y %H:%M:%S" with
        | Ok dt => Dt.strftime dt
        | Raise _ => datetime_utc_now now
        end in
      let php_level_lower := Str.lower php_level in
      let level :=
        if Str.contains "fatal" php_level_lower
           || Str.contains "error" php_level_lower then "ERROR"
        else if Str.contains "warning" php_level_lower then "WARNING"
        else if Str.contains "notice" php_level_lower then "WARNING"
        else "INFO" in
      let ip_port_match := re_search ip_port_pattern rest in
      let ip := option_map (fun mm => group mm 1) ip_port_match in
      let port := option_map (fun mm => group mm 2) ip_port_match in
      let msg_main := msg_main_of rest in
      let '(cause_group, cause_reason, cause_action) :=
        if Str.contains "curl error" (Str.lower rest) || found ip_port_match
        then
          if truthy ip && truthy port then
            let ip := match ip with Some x => x | None => "" end in
            let port := match port with Some x => x | None => "" end in
            let human_reason :=
              match re_search reason_pattern msg_main with
              | Some rm => Str.strip (group rm 1)
              | None => "Erro de conexão"
              end in
            (Some "network",
             Some ("cURL falhou ao conectar em " ++ ip ++ ":" ++ port ++
                   " (" ++ human_reason ++ ")"),
             Some ("Verificar serviço/porta " ++ port ++ " em " ++ ip ++
                   " (controller / backend) ou regras de firewall"))
          else
            (Some "network", Some msg_main,
             Some "Verificar conectividade de rede/serviço referenciado pelo cURL")
        else (None, None, None) in
      (* generic fallback *)
      let '(cause_group, cause_reason, cause_action) :=
        match cause_group with
        | None =>
            (Some "aplicacao", Some msg_main,
             Some "Avaliar stack trace e corrigir causa raiz no código PHP")
        | Some _ => (cause_group, cause_reason, cause_action)
        end in
      Some (PhpParsed timestamp level rest
                      cause_group cause_reason cause_action)
  end.

(** *** Ingestion of an uploaded text file *)

(** The severity patterns of the generic parser, in the insertion order of
    the dictionary [level_patterns]. *)
Definition level_patterns : list (string * regex) :=
  [("ERROR", Wb >> liti "ERROR" >> Wb);
   ("WARNING", Wb >> liti "WARN" >> Opt (Grp 1 (liti "ING")) >> Wb);
   ("INFO", Wb >> liti "INFO" >> Wb);
   ("CRITICAL", Wb >> liti "CRITICAL" >> Wb);
   ("NOTICE", Wb >> liti "NOTICE" >> Wb)].

(** [^(\d{4}-\d{2}-\d{2}[ T]\d{2}:\d{2}:\d{2})] *)
Definition ts_regex : regex := Bol >> Grp 1 iso_ts.

(** The loop over [level_patterns.items()] (lines 380-384): the level
    starts as [level] and the first pattern found in the line sets it. *)
Fixpoint classify (items : list (string * regex)) (level line : string)
    : string :=
  match items with
  | [] => level
  | (lvl, patt) :: t =>
      if found (re_search patt line) then Str.upper lvl
      else classify t level line
  end.

Section Ingest.
Variable decode : list Byte.byte -> string.

(** The body of the loop of [ingest_plaintext_log] for one item [raw] of
    the stream; [now] is [datetime.utcnow()] at that moment. *)
Definition ingest_plaintext_line (raw : data) (source default_host : string)
    (now : Dt.datetime) (d : db) : db :=
  let line :=
    match raw with
    | Bytes b => Str.strip (decode b)
    | Text s => Str.strip s
    end in
  if Str.is_empty line then d
  else
    match parse_php_error_line line now with
    | Some php =>
        (d ++ [mkLog (php_timestamp php) source (php_level php) default_host
                     (php_message php) (php_cause_group php)
                     (php_cause_reason php) (php_cause_action php)])%list
    | None =>
        let '(timestamp, message) :=
          match re_match ts_regex line with
          | Some m =>
              let timestamp := group m 1 in
              (timestamp,
               Str.strip (Str.drop (String.length timestamp) line))
          | None => (datetime_utc_now now, line)
          end in
        let level := classify level_patterns "INFO" line in
        (d ++ [mkLog timestamp source level default_host message
                     None None None])%list
    end.

(** [ingest_plaintext_log(stream, source, default_host)]: [raws] are the
    items the stream yields, [clock i] the UTC instant while item [i] is
    processed. *)
Fixpoint ingest_plaintext_loop (raws : list data) (i : nat)
    (source default_host : string) (clock : nat -> Dt.datetime) (d : db)
    : db :=
  match raws with
  | [] => d
  | raw :: t =>
      ingest_plaintext_loop t (S i) source default_host clock
        (ingest_plaintext_line raw source default_host (clock i) d)
  end.

Definition ingest_plaintext_log (raws : list data)
    (source default_host : string) (clock : nat -> Dt.datetime) (d : db)
    : db :=
  ingest_plaintext_loop raws 0 source default_host clock d.
End Ingest.

End models.

(* ================================================================== *)
(** ** [src/ingest.py] *)
(* ================================================================== *)

Module ingest.

(** A path of the file system: [None] when no file exists there,
    otherwise the lines the file iterator yields. *)
Definition file : Type := option (list string).

(** The loop of [ingest_syslog]; [clock i] is the local time while line
    [i] is processed.  A row written before an exception stays written:
    [insert_log] commits each row. *)
Fixpoint ingest_syslog_loop (lines : list string) (i count : nat)
    (clock : nat -> Dt.datetime) (d : db) : result nat * db :=
  match lines with
  | [] => (Ok count, d)
  | line :: t =>
      let line := Str.rstrip_nl line in
      match parser_linux.parse_syslog_line line None (clock i) with
      | Raise e => (Raise e, d)
      | Ok None => ingest_syslog_loop t (S i) count clock d
      | Ok (Some parsed) =>
          ingest_syslog_loop t (S i) (S count) clock
            (models.insert_log (p_timestamp parsed) (p_source parsed)
               (p_level parsed) (p_host parsed) (p_message parsed)
               None None None d)
      end
  end.

(** [ingest_syslog(path)] *)
Definition ingest_syslog (f : file) (clock : nat -> Dt.datetime) (d : db)
    : result nat * db :=
  match f with
  | None => (Raise FileNotFoundError, d)
  | Some lines => ingest_syslog_loop lines 0 0 clock d
  end.

(** The loop of [ingest_zabbix_server]. *)
Fixpoint ingest_zabbix_server_loop (lines : list string) (host : string)
    (i count : nat) (clock : nat -> Dt.datetime) (d : db) : result nat * db :=
  match lines with
  | [] => (Ok count, d)
  | line :: t =>
      let line := Str.rstrip_nl line in
      match parser_zabbix_server.parse_zabbix_server_line line host (clock i) with
      | Raise e => (Raise e, d)
      | Ok None => ingest_zabbix_server_loop t host (S i) count clock d
      | Ok (Some parsed) =>
          ingest_zabbix_server_loop t host (S i) (S count) clock
            (models.insert_log (p_timestamp parsed) (p_source parsed)
               (p_level parsed) (p_host parsed) (p_message parsed)
               None None None d)
      end
  end.

(** [ingest_zabbix_server(path, host)] *)
Definition ingest_zabbix_server (f : file) (host : string)
    (clock : nat -> Dt.datetime) (d : db) : result nat * db :=
  match f with
  | None => (Raise FileNotFoundError, d)
  | Some lines => ingest_zabbix_server_loop lines host 0 0 clock d
  end.

End ingest.

(* ================================================================== *)
(** ** [src/analyzer.py] *)
(* ================================================================== *)

Module analyzer.

(** [sep.join(l)] *)
Definition join (sep : string) (l : list string) : string :=
  String.concat sep l.

(** One step of [_build_where]: [if o: where.append(clause);
    params.append(value(o))], on the pair of the two lists. *)
Definition add_clause (o : option string) (clause : string)
    (value : string -> string) (acc : list string * list string)
    : list string * list string :=
  match o with
  | Some v =>
      if truthy o
      then ((fst acc ++ [clause])%list, (snd acc ++ [value v])%list)
      else acc
  | None => acc
  end.

(** [_build_where(level, contains, host, source, since, until)]: the text
    of the condition and the parameters bound to its [?] marks. *)
Definition _build_where (level contains host source since until : option string)
    : string * list string :=
  let acc := (["1=1"], []) in
  let acc := add_clause level "level = ?" (fun v => v) acc in
  let acc := add_clause contains "message LIKE ?" (fun v => "%" ++ v ++ "%") acc in
  let acc := add_clause host "host = ?" (fun v => v) acc in
  let acc := add_clause source "source = ?" (fun v => v) acc in
  let acc := add_clause since "timestamp >= ?" (fun v => v) acc in
  let acc := add_clause until "timestamp <= ?" (fun v => v) acc in
  (join " AND " (fst acc), snd acc).

(** *** The part of SQLite the queries rely on *)

(** [text LIKE pattern] without an ESCAPE clause: [%] stands for any run
    of characters, [_] for any one character, every other character for
    itself up to ASCII case. *)
Fixpoint like (pattern text : string) : bool :=
  match pattern with
  | EmptyString => Str.is_empty text
  | String "%" p =>
      (fix any (t : string) : bool :=
         like p t || match t with
                     | EmptyString => false
                     | String _ t' => any t'
                     end) text
  | String "_" p =>
      match text with
      | String _ t => like p t
      | EmptyString => false
      end
  | String c p =>
      match text with
      | String d t =>
          Ascii.eqb (Str.lower_char c) (Str.lower_char d) && like p t
      | EmptyString => false
      end
  end.

(** The conjuncts of a condition: its text cut at every [" AND "]. *)
Fixpoint split_and (skip : nat) (cur s : string) : list string :=
  match s with
  | EmptyString => [cur]
  | String c t =>
      match skip with
      | S k => split_and k cur t
      | O =>
          if Str.startswith " AND " s
          then cur :: split_and 4 EmptyString t
          else split_and 0 (cur ++ String c EmptyString) t
      end
  end.

(** One conjunct on one row; a [?] takes the next parameter.  [None] is
    an SQL error (a text outside the fragment, or a missing parameter). *)
Definition eval_conjunct (clause : string) (params : list string)
    (r : LogRecord) : option (bool * list string) :=
  if String.eqb clause "1=1" then Some (true, params)
  else
    match params with
    | [] => None
    | p :: rest =>
        if String.eqb clause "level = ?" then Some (String.eqb (level r) p, rest)
        else if String.eqb clause "message LIKE ?" then Some (like p (message r), rest)
        else if String.eqb clause "host = ?" then Some (String.eqb (host r) p, rest)
        else if String.eqb clause "source = ?" then Some (String.eqb (source r) p, rest)
        else if String.eqb clause "timestamp >= ?" then Some (String.leb p (timestamp r), rest)
        else if String.eqb clause "timestamp <= ?" then Some (String.leb (timestamp r) p, rest)
        else None
    end.

Fixpoint eval_conjuncts (clauses params : list string) (r : LogRecord)
    : option bool :=
  match clauses with
  | [] => Some true
  | c :: t =>
      match eval_conjunct c params r with
      | None => None
      | Some (b, params') =>
          match eval_conjuncts t params' r with
          | None => None
          | Some b' => Some (b && b')
          end
      end
  end.

(** [WHERE where_] on one row, with [params] bound. *)
Definition eval_where (where_ : string) (params : list string) (r : LogRecord)
    : option bool :=
  eval_conjuncts (split_and 0 EmptyString where_) params r.

(** The rows that satisfy the condition, in table order; an SQL error
    selects nothing. *)
Definition select (where_ : string) (params : list string) (d : db) : db :=
  filter (fun r => match eval_where where_ params r with
                   | Some b => b
                   | None => false
                   end) d.

(** [ORDER BY]: a stable insertion sort (SQL leaves the order of rows with
    equal keys open). *)
Section Sort.
Context {A : Type}.
Variable le : A -> A -> bool.

Fixpoint insert_sorted (x : A) (l : list A) : list A :=
  match l with
  | [] => [x]
  | y :: t => if le x y then x :: l else y :: insert_sorted x t
  end.

Definition order_by (l : list A) : list A :=
  fold_right insert_sorted [] l.
End Sort.

(** [LIMIT n]: a negative [n] is no limit. *)
Definition limit_rows {A : Type} (n : Z) (l : list A) : list A :=
  if (n <? 0)%Z then l else firstn (Z.to_nat n) l.

(** [GROUP BY key] with [COUNT( * )]: the keys in order of first row, each
    with the number of its rows. *)
Fixpoint bump (k : string) (g : list (string * nat)) : list (string * nat) :=
  match g with
  | [] => [(k, 1)]
  | (k', n) :: t => if String.eqb k k' then (k', S n) :: t else (k', n) :: bump k t
  end.

Definition group_count (key : LogRecord -> string) (d : db)
    : list (string * nat) :=
  fold_left (fun g r => bump (key r) g) d [].

Definition by_count_desc (x y : string * nat) : bool := snd y <=? snd x.

Definition row_host (r : LogRecord) : string := host r.
Definition row_message (r : LogRecord) : string := message r.
Definition row_timestamp (r : LogRecord) : string := timestamp r.

(** The columns [timestamp, source, level, host, message] of a row. *)
Definition columns5 (r : LogRecord) : parsed :=
  Parsed (timestamp r) (source r) (level r) (host r) (message r).

(** [filter_logs(level=, contains=, host=, source=, since=, until=, asc=, limit=)] *)
Definition filter_logs (level contains host source since until : option string)
    (asc : bool) (limit : Z) (d : db) : list parsed :=
  let '(where_, params) := _build_where level contains host source since until in
  let le := if asc
            then fun x y => String.leb (row_timestamp x) (row_timestamp y)
            else fun x y => String.leb (row_timestamp y) (row_timestamp x) in
  List.map columns5 (limit_rows limit (order_by le (select where_ params d))).

(** [filter_hosts(level=, contains=, host=, source=, since=, until=, limit=)] *)
Definition filter_hosts (level contains host source since until : option string)
    (limit : Z) (d : db) : list (string * nat) :=
  let '(where_, params) := _build_where level contains host source since until in
  limit_rows limit
    (order_by by_count_desc (group_count row_host (select where_ params d))).

(** [top_errors(level=, contains=, host=, source=, since=, until=, limit=)]:
    pairs (count, message). *)
Definition top_errors (level contains host source since until : option string)
    (limit : Z) (d : db) : list (nat * string) :=
  let '(where_, params) := _build_where level contains host source since until in
  List.map (fun kv => (snd kv, fst kv))
    (limit_rows limit
       (order_by by_count_desc
          (group_count row_message (select where_ params d)))).

(** [last_logs(limit)] *)
Definition last_logs (limit : Z) (d : db) : list parsed :=
  List.map columns5
    (limit_rows limit
       (order_by (fun x y => String.leb (row_timestamp y) (row_timestamp x)) d)).

Definition row_level (r : LogRecord) : string := level r.

(** [count_by_level()]: pairs (level, count), the largest count first. *)
Definition count_by_level (d : db) : list (string * nat) :=
  order_by by_count_desc (group_count row_level d).

End analyzer.

(* ================================================================== *)
(** ** [src/cli.py] *)
(* ================================================================== *)

Module cli.

(** [_insert_log(conn, timestamp=, source=, level=, host=, message=)] *)
Definition _insert_log (timestamp source level host message : string)
    (d : db) : db :=
  (d ++ [mkLog timestamp source level host message None None None])%list.

Definition _guess_level_from_line (line : string) : string :=
  let upper := Str.upper line in
  if Str.contains " CRITICAL " upper then "CRITICAL"
  else if Str.contains " ERROR " upper then "ERROR"
  else "INFO".

(** [_now_str()]; [now] is [datetime.now()]. *)
Definition _now_str (now : Dt.datetime) : string := Dt.strftime now.

Fixpoint ingest_syslog_file_loop (lines : list string) (default_host : string)
    (i count : nat) (clock : nat -> Dt.datetime) (d : db) : nat * db :=
  match lines with
  | [] => (count, d)
  | line :: t =>
      let line := Str.rstrip_nl line in
      if Str.is_empty line
      then ingest_syslog_file_loop t default_host (S i) count clock d
      else
        let timestamp := _now_str (clock i) in
        ingest_syslog_file_loop t default_host (S i) (S count) clock
          (_insert_log timestamp "syslog" "INFO" default_host line d)
  end.

(** [ingest_syslog_file(path, default_host)] *)
Definition ingest_syslog_file (f : ingest.file) (default_host : string)
    (clock : nat -> Dt.datetime) (d : db) : result nat * db :=
  match f with
  | None => (Raise FileNotFoundError, d)
  | Some lines =>
      let '(count, d') := ingest_syslog_file_loop lines default_host 0 0 clock d in
      (Ok count, d')
  end.

Fixpoint ingest_zabbix_server_log_loop (lines : list string)
    (host_alias : string) (i count : nat) (clock : nat -> Dt.datetime)
    (d : db) : nat * db :=
  match lines with
  | [] => (count, d)
  | line :: t =>
      let line := Str.rstrip_nl line in
      if Str.is_empty line
      then ingest_zabbix_server_log_loop t host_alias (S i) count clock d
      else
        let level := _guess_level_from_line line in
        let timestamp := _now_str (clock i) in
        ingest_zabbix_server_log_loop t host_alias (S i) (S count) clock
          (_insert_log timestamp "zabbix_server_raw" level host_alias line d)
  end.

(** [ingest_zabbix_server_log(path, host_alias)] *)
Definition ingest_zabbix_server_log (f : ingest.file) (host_alias : string)
    (clock : nat -> Dt.datetime) (d : db) : result nat * db :=
  match f with
  | None => (Raise FileNotFoundError, d)
  | Some lines =>
      let '(count, d') :=
        ingest_zabbix_server_log_loop lines host_alias 0 0 clock d in
      (Ok count, d')
  end.

(** *** Presets of the filter *)

Definition PRESETS : list (string * list (string * string)) :=
  [("email", [("level", "ERROR"); ("contains", "failed to send email")]);
   ("network", [("contains", "network")]);
   ("proxy", [("contains", "proxy")]);
   ("agent", [("contains", "Zabbix agent")]);
   ("db", [("contains", "database")])].

(** [d.get(key)] on a dictionary with string keys; [None] when the key is
    absent. *)
Fixpoint dict_lookup {V : Type} (d : list (string * V)) (key : string)
    : option V :=
  match d with
  | [] => None
  | (k, v) :: t => if String.eqb k key then Some v else dict_lookup t key
  end.

(** The [argparse.Namespace] of the commands [filter] and [top-errors]. *)
Record Namespace : Type := mkArgs {
  ns_preset : option string;
  ns_level : option string;
  ns_contains : option string;
  ns_host : option string;
  ns_source : option string;
  ns_since : option string;
  ns_until : option string;
  ns_limit : Z;
  ns_asc : bool;
  ns_distinct_hosts : bool
}.

Definition set_level (v : option string) (a : Namespace) : Namespace :=
  mkArgs (ns_preset a) v (ns_contains a) (ns_host a) (ns_source a)
         (ns_since a) (ns_until a) (ns_limit a) (ns_asc a)
         (ns_distinct_hosts a).

Definition set_contains (v : option string) (a : Namespace) : Namespace :=
  mkArgs (ns_preset a) (ns_level a) v (ns_host a) (ns_source a)
         (ns_since a) (ns_until a) (ns_limit a) (ns_asc a)
         (ns_distinct_hosts a).

(** [_apply_preset(args)] *)
Definition _apply_preset (args : Namespace) : Namespace :=
  if negb (truthy (ns_preset args)) then args
  else
    let preset :=
      match dict_lookup PRESETS
              (match ns_preset args with Some p => p | None => "" end) with
      | Some p => p
      | None => []                                (* PRESETS.get(name, {}) *)
      end in
    (* level *)
    let args :=
      match ns_level args, dict_lookup preset "level" with
      | None, Some v => set_level (Some v) args
      | _, _ => args
      end in
    (* contains *)
    let args :=
      match ns_contains args, dict_lookup preset "contains" with
      | None, Some v => set_contains (Some v) args
      | _, _ => args
      end in
    args.

(** What a command hands to [print_table]. *)
Inductive table : Type :=
| HostTable (rows : list (string * nat))
| LogTable (rows : list parsed)
| CountTable (rows : list (nat * string)).

(** [cmd_filter(args)] *)
Definition cmd_filter (args : Namespace) (d : db) : table :=
  let args := _apply_preset args in
  if ns_distinct_hosts args then
    HostTable (analyzer.filter_hosts (ns_level args) (ns_contains args)
                 (ns_host args) (ns_source args) (ns_since args)
                 (ns_until args) (ns_limit args) d)
  else
    LogTable (analyzer.filter_logs (ns_level args) (ns_contains args)
                (ns_host args) (ns_source args) (ns_since args)
                (ns_until args) (ns_asc args) (ns_limit args) d).

(** [cmd_top_errors(args)] *)
Definition cmd_top_errors (args : Namespace) (d : db) : table :=
  let args := _apply_preset args in
  CountTable (analyzer.top_errors (ns_level args) (ns_contains args)
                (ns_host args) (ns_source args) (ns_since args)
                (ns_until args) (ns_limit args) d).

End cli.

(* ================================================================== *)
(** ** A declarative reading of patterns *)
(* ================================================================== *)

Module ReSem.
Import Re.

(** [matches r s s']: the pattern [r] can take the matcher from position
    [s] to position [s']. *)
Inductive matches : regex -> mstate -> mstate -> Prop :=
| M_Eps s : matches Eps s s
| M_Cls p c t s :
    rest s = String c t -> p c = true -> matches (Cls p) s (advance c t s)
| M_Cat a b s s1 s2 :
    matches a s s1 -> matches b s1 s2 -> matches (Cat a b) s s2
| M_AltL a b s s1 : matches a s s1 -> matches (Alt a b) s s1
| M_AltR a b s s1 : matches b s s1 -> matches (Alt a b) s s1
| M_Star0 a s : matches (Star a) s s
| M_StarS a s s1 s2 :
    matches a s s1 -> matches (Star a) s1 s2 -> matches (Star a) s s2
| M_Grp n a s s1 :
    matches a s s1 -> matches (Grp n a) s (set_cap n (consumed s s1) s1)
| M_Bol s : pos s = 0 -> matches Bol s s
| M_Eol s : at_eol (rest s) = true -> matches Eol s s
| M_Wb s : at_word_boundary s = true -> matches Wb s s.

(** The least number of characters a match of [r] consumes. *)
Fixpoint min_len (r : regex) : nat :=
  match r with
  | Cls _ => 1
  | Cat a b => min_len a + min_len b
  | Alt a b => Nat.min (min_len a) (min_len b)
  | Grp _ a => min_len a
  | _ => 0
  end.

(** Does [r] contain the group [g]? *)
Fixpoint has_group (g : nat) (r : regex) : bool :=
  match r with
  | Cat a b | Alt a b => has_group g a || has_group g b
  | Star a => has_group g a
  | Grp n a => (n =? g) || has_group g a
  | _ => false
  end.

(** [grp_min g r = Some n]: every match of [r] closes the group [g], on a
    text of [n] characters or more. *)
Fixpoint grp_min (g : nat) (r : regex) : option nat :=
  match r with
  | Grp n a => if n =? g then Some (min_len a) else grp_min g a
  | Cat a b =>
      match grp_min g b with
      | Some n => Some n
      | None => if has_group g b then None else grp_min g a
      end
  | Alt a b =>
      match grp_min g a, grp_min g b with
      | Some n, Some m => Some (Nat.min n m)
      | _, _ => None
      end
  | _ => None
  end.

End ReSem.

(* ================================================================== *)
(** ** Vocabulary of the specification *)
(* ================================================================== *)

Module Spec.

(** The value a preset profile gives to a field: [None] when no preset is
    named, when the name is unknown, or when the profile leaves the field
    out. *)
Definition preset_value (name : option string) (field : string)
    : option string :=
  match name with
  | Some n =>
      if Str.is_empty n then None
      else
        match cli.dict_lookup cli.PRESETS n with
        | Some profile => cli.dict_lookup profile field
        | None => None
        end
  | None => None
  end.

(** The merge rule: the caller's value when there is one, the preset's
    value otherwise. *)
Definition merged (caller preset : option string) : option string :=
  match caller with
  | Some v => Some v
  | None => preset
  end.

(** The three cause fields are present together or absent together. *)
Definition cause_fields_together (r : LogRecord) : Prop :=
  (cause_group r = None /\ cause_reason r = None /\ cause_action r = None) \/
  (cause_group r <> None /\ cause_reason r <> None /\ cause_action r <> None).

(** The invariant of section 3 on a persisted record. *)
Definition record_invariant (r : LogRecord) : Prop :=
  timestamp r <> "" /\ level r <> "" /\ host r <> "" /\ message r <> "" /\
  cause_fields_together r.

(** The invariant without the clause on the message. *)
Definition record_invariant_but_message (r : LogRecord) : Prop :=
  timestamp r <> "" /\ level r <> "" /\ host r <> "" /\
  cause_fields_together r.

(** A blank line: empty, or white space only. *)
Definition blank (line : string) : Prop := Str.strip line = "".

(** The text before the first occurrence of [" in "] with the case of the
    letters respected, the whole text when there is none: the reading of
    [msg_main] in section 4.4 of the specification. *)
Definition msg_main_case_sensitive (rest : string) : string :=
  let i := Str.find " in " rest in
  if (i =? -1)%Z then rest else Str.take i rest.

(** [w] occurs in [line] as a whole word, letters compared without case:
    what the pattern [\bw\b] under IGNORECASE looks for. *)
Definition has_word (w line : string) : bool :=
  Re.found (Re.re_search (Re.Cat Re.Wb (Re.Cat (Re.liti w) Re.Wb)) line).

End Spec.

(* ================================================================== *)
(** ** Sample inputs *)
(* ================================================================== *)

Module Samples.

(** The syslog line of section 8 of the specification. *)
Definition syslog_line : string := "Nov 27 15:30:45 host1 something failed".

(** The match of [SYSLOG_REGEX] on [syslog_line]. *)
Definition syslog_match : Re.mstate :=
  Eval vm_compute in
    match Re.re_match parser_linux.SYSLOG_REGEX syslog_line with
    | Some m => m
    | None => Re.start ""
    end.

(** What the syslog parser makes of [syslog_line] in the year [y]. *)
Definition syslog_record (y : N) : parsed :=
  Parsed (Str.of_N y ++ "-11-27 15:30:45") "syslog" "INFO" "host1"
         "something failed".

(** The years whose decimal form has four digits. *)
Definition four_digit_years : list N :=
  List.map N.of_nat (seq (N.to_nat 1000) (N.to_nat 9000)).

(** A PHP line with an upper-case " IN " before the lower-case " in ". *)
Definition php_upper_in_line : string :=
  "[02-Oct-2025 15:59:40 Europe/Berlin] PHP Warning: Division BY ZERO IN calc in /x.php".

(** A PHP Notice whose text has INFO and CRITICAL as whole words. *)
Definition php_notice_line : string :=
  "[02-Oct-2025 15:59:40 UTC] PHP Notice: INFO CRITICAL".

(** A free-text line with INFO and CRITICAL as whole words. *)
Definition info_critical_line : string :=
  "2025-01-01 10:00:00 INFO recovered from CRITICAL state".

(** A decoder for tests: one character per byte below 128, the other
    bytes dropped (what the UTF-8 decoder does on ASCII input). *)
Definition decode_ascii (b : list Byte.byte) : string :=
  string_of_list_ascii
    (List.map ascii_of_byte
       (filter (fun x => Byte.to_nat x <? 128) b)).

(** An instant for the examples. *)
Definition instant : Dt.datetime := Dt.DateTime 2025 11 27 15 30 45 250.

(** A Zabbix line without the colon the pattern wants after the time. *)
Definition raw_line : string :=
  "1234:20241127:153045.100 connection to database failed".

(** A row whose message is "abc". *)
Definition abc_row : LogRecord :=
  mkLog "2025-11-27 21:00:00" "zabbix_server_raw" "ERROR" "srvzbx" "abc"
        None None None.

(** The cURL line of section 8 of the specification. *)
Definition curl_line : string :=
  "[02-Oct-2025 15:59:40 Europe/Berlin] PHP Notice: cURL error: Failed to connect to 192.168.0.204 port 8443: Connection refused in /x.php".

End Samples.

(** The year the syslog parser uses: [year or now.year]. *)
Definition resolved_year (year : option N) (now : Dt.datetime) : N :=
  match year with
  | Some (Npos y) => Npos y
  | _ => Dt.year now
  end.

(** [strptime] reads the date of [Samples.syslog_line] in the year [y] and
    [isoformat] prints it back. *)
Definition strptime_year_ok (y : N) : bool :=
  match Dt.strptime (Str.of_N y ++ "-11-27 15:30:45") "%Y-%m-%d %H:%M:%S" with
  | Ok dt => String.eqb (Dt.isoformat dt) (Str.of_N y ++ "-11-27 15:30:45")
  | Raise _ => false
  end.


(** [sub] occurs in [s] at offset [j]. *)
Definition occurs_at (sub s : string) (j : nat) : bool :=
  Str.startswith sub (Str.drop j s).

(** The line carries the keyword of the level [lvl]: the pattern of [lvl]
    in [level_patterns] is found in it. *)
Definition keyword (lvl line : string) : bool :=
  match cli.dict_lookup models.level_patterns lvl with
  | Some patt => Re.found (Re.re_search patt line)
  | None => false
  end.

(** The stripped text of an item of an uploaded stream. *)
Definition upload_line (decode : list Byte.byte -> string) (raw : models.data)
    : string :=
  match raw with
  | models.Bytes b => Str.strip (decode b)
  | models.Text s => Str.strip s
  end.

(** Every character of [s] satisfies [p]. *)
Fixpoint all_chars (p : ascii -> bool) (s : string) : bool :=
  match s with
  | EmptyString => true
  | String c t => p c && all_chars p t
  end.

(** The 256 characters. *)
Definition all_ascii : list ascii := List.map ascii_of_nat (seq 0 256).

(** [can_match_within q r]: some text made of characters of [q] only may
    match [r] (a test on the character classes of [r]). *)
Fixpoint can_match_within (q : ascii -> bool) (r : Re.regex) : bool :=
  match r with
  | Re.Cls p => existsb (fun c => p c && q c) all_ascii
  | Re.Cat a b => can_match_within q a && can_match_within q b
  | Re.Alt a b => can_match_within q a || can_match_within q b
  | Re.Grp _ a => can_match_within q a
  | _ => true
  end.

(** Going from the table [d] to the table [d'] adds rows only, each of
    them with the property [P]. *)
Definition persists (P : LogRecord -> Prop) (d d' : db) : Prop :=
  exists added, d' = (d ++ added)%list /\ Forall P added.

(* ================================================================== *)
(** ** [src/models.py]: the functions of the dashboard *)
(* ================================================================== *)

Module dashboard.

(** The dictionary [get_summary] returns. *)
Record summary : Type := Summary {
  total : nat;
  errors : nat;
  warnings : nat;
  first_ts : option string;
  last_ts : option string
}.

(** [SELECT COUNT( * ) FROM logs WHERE level = lv] *)
Definition count_level (lv : string) (d : db) : nat :=
  List.length (filter (fun r => String.eqb (level r) lv) d).

(** [MIN(timestamp)] and [MAX(timestamp)] on text: [None] is the SQL NULL
    of an empty table. *)
Fixpoint min_text (l : list string) : option string :=
  match l with
  | [] => None
  | x :: t =>
      match min_text t with
      | None => Some x
      | Some m => Some (if String.leb x m then x else m)
      end
  end.

Fixpoint max_text (l : list string) : option string :=
  match l with
  | [] => None
  | x :: t =>
      match max_text t with
      | None => Some x
      | Some m => Some (if String.leb m x then x else m)
      end
  end.

(** [get_summary()] *)
Definition get_summary (d : db) : summary :=
  Summary (List.length d) (count_level "ERROR" d) (count_level "WARNING" d)
          (min_text (List.map timestamp d)) (max_text (List.map timestamp d)).

(** The rows with their [id]: the key counts the insertions from 1. *)
Definition with_ids (d : db) : list (nat * LogRecord) :=
  combine (seq 1 (List.length d)) d.

Definition columns : list string :=
  ["id"; "timestamp"; "source"; "level"; "host"; "message";
   "cause_group"; "cause_reason"; "cause_action"].

(** [OFFSET n]: a negative [n] skips nothing. *)
Definition offset_rows {A : Type} (n : Z) (l : list A) : list A :=
  skipn (Z.to_nat n) l.

(** [get_latest_logs(limit, offset, level)]: the column names and the rows,
    each row with its [id]. *)
Definition get_latest_logs (limit offset : Z) (level : option string) (d : db)
    : list string * list (nat * LogRecord) :=
  let rows := with_ids d in
  let rows :=
    match level with
    | Some lv =>
        if truthy level
        then filter (fun r => String.eqb (analyzer.row_level (snd r)) lv) rows
        else rows
    | None => rows
    end in
  (* ORDER BY id DESC LIMIT ? OFFSET ? *)
  (columns, analyzer.limit_rows limit (offset_rows offset (rev rows))).

End dashboard.

(* ================================================================== *)
(** ** [web_app.py] *)
(* ================================================================== *)

Module web_app.

(** What the route [/] hands to its template. *)
Definition dashboard_view (d : db)
    : dashboard.summary * list (nat * LogRecord) :=
  (dashboard.get_summary d, snd (dashboard.get_latest_logs 50 0 None d)).

Definition per_page : Z := 200.

(** The route [/logs]; [page] is the integer read from the query argument
    [page] (1 when the argument is absent).  The result is what the
    template receives: columns, rows, page, per_page. *)
Definition logs_page (page : Z) (d : db)
    : list string * list (nat * LogRecord) * Z * Z :=
  let page := Z.max page 1 in
  let offset := ((page - 1) * per_page)%Z in
  let '(columns, rows) := dashboard.get_latest_logs per_page offset None d in
  (columns, rows, page, per_page).

(** The route [/api/logs]; [limit] is the integer read from the query
    argument [limit] (100 when absent). *)
Definition api_logs (limit : Z) (level : option string) (d : db)
    : list string * list (nat * LogRecord) :=
  dashboard.get_latest_logs limit 0 level d.

(** The three action routes: one call of [insert_log] each; [now] is
    [datetime.utcnow()]. *)
Definition action_execute_block (now : Dt.datetime) (d : db) : db :=
  models.insert_log (models.datetime_utc_now now) "action:ddos_block" "INFO"
    "wan-gateway-04"
    "Ação EXECUTE BLOCK disparada via dashboard (simulação iptables DROP 45.22.0.0/16)."
    (Some "seguranca") (Some "Mitigação DDoS manual") (Some "BLOCK_SUBNET") d.

Definition action_db_scale_out (now : Dt.datetime) (d : db) : db :=
  models.insert_log (models.datetime_utc_now now) "action:db_scale_out" "INFO"
    "db-cluster-01"
    "Ação DB SCALE OUT disparada via dashboard (simulação provisionamento Read Replica)."
    (Some "banco_dados") (Some "Escalonamento horizontal planejado")
    (Some "PROVISION_READ_REPLICA") d.

Definition action_disk_cleanup (now : Dt.datetime) (d : db) : db :=
  models.insert_log (models.datetime_utc_now now) "action:disk_cleanup" "WARNING"
    "log-srv-02"
    "Ação DISK CLEANUP disparada via dashboard (simulação limpeza de /var/log)."
    (Some "hardware") (Some "Disco em alta utilização") (Some "RUN_CLEANUP") d.

(** *** The route [/upload-logs] (POST) *)






Section Upload.
Variable decode : list Byte.byte -> string.
(** [werkzeug.utils.secure_filename], taken as given. *)
Variable secure_filename : string -> string.

End Upload.

End web_app.

(* ================================================================== *)
(** ** Vocabulary of the further properties *)
(* ================================================================== *)

(** A criterion of a query: absent or empty, it constrains nothing. *)
Definition criterion (o : option string) (test : string -> bool) : bool :=
  match o with
  | Some v => if Str.is_empty v then true else test v
  | None => true
  end.

(** The row [r] meets the six criteria of a filter. *)
Definition meets (lv ct ho so si un : option string) (r : LogRecord) : bool :=
  criterion lv (fun v => String.eqb (level r) v) &&
  (criterion ct (fun v => analyzer.like ("%" ++ v ++ "%") (message r)) &&
   (criterion ho (fun v => String.eqb (host r) v) &&
    (criterion so (fun v => String.eqb (source r) v) &&
     (criterion si (fun v => String.leb v (timestamp r)) &&
      (criterion un (fun v => String.leb (timestamp r) v) && true))))).

(** The clause and the parameter a criterion adds to a condition. *)
Definition clause_of (o : option string) (clause : string) : list string :=
  if truthy o then [clause] else [].

Definition param_of (o : option string) (value : string -> string)
    : list string :=
  match o with
  | Some v => if truthy o then [value v] else []
  | None => []
  end.

(** The number of rows of [d] whose key is [k]. *)
Definition rows_with (key : LogRecord -> string) (k : string) (d : db) : nat :=
  List.length (filter (fun r => String.eqb (key r) k) d).

(** The count an aggregation gives to the key [k], 0 when it has none. *)
Definition count_of (g : list (string * nat)) (k : string) : nat :=
  match cli.dict_lookup g k with Some n => n | None => 0 end.

(** The sum of the counts of an aggregation. *)
Definition sum_counts (g : list (string * nat)) : nat :=
  fold_right (fun kv acc => snd kv + acc) 0 g.

(** The order [filter_logs] asks for, on two returned rows. *)
Definition in_order (asc : bool) (a b : parsed) : Prop :=
  if asc then String.leb (p_timestamp a) (p_timestamp b) = true
  else String.leb (p_timestamp b) (p_timestamp a) = true.

(** The row an ingestion function of [ingest.py] writes for a parsed
    line. *)
Definition row_of (p : parsed) : LogRecord :=
  mkLog (p_timestamp p) (p_source p) (p_level p) (p_host p) (p_message p)
        None None None.

(** The lines of a file that are not empty once their final line feeds
    are removed, without those line feeds. *)
Definition kept_lines (lines : list string) : list string :=
  filter (fun l => negb (Str.is_empty l)) (List.map Str.rstrip_nl lines).

(** An impossible date in the shape of a syslog line. *)
Definition february_30 : string := "Feb 30 10:00:00 host1 backup done".


(** The classes a pattern made of single characters reads, in order. *)
Fixpoint fixed_cls (r : Re.regex) : option (list (ascii -> bool)) :=
  match r with
  | Re.Eps => Some []
  | Re.Cls p => Some [p]
  | Re.Cat a b =>
      match fixed_cls a, fixed_cls b with
      | Some x, Some y => Some (x ++ y)%list
      | _, _ => None
      end
  | Re.Grp _ a => fixed_cls a
  | _ => None
  end.


(** The text [w] has one character for each class of [ps], in it. *)
Fixpoint reads (ps : list (ascii -> bool)) (w : string) : bool :=
  match ps, w with
  | [], EmptyString => true
  | p :: ps', String c t => p c && reads ps' t
  | _, _ => false
  end.


(** The first line a Zabbix server writes to its log, and a line in the
    shape the pattern of the parser wants. *)
Definition banner_line : string :=
  "Starting Zabbix Server. Zabbix 7.0.0 (revision 49955f1fb5c).".

Definition structured_line : string :=
  "  1376:20241127:153045.123: cannot connect to the database".

(** The source names of the proxy parser for those of the server
    parser. *)
Definition proxy_source (s : string) : string :=
  if String.eqb s "zabbix_server" then "zabbix_proxy"
  else if String.eqb s "zabbix_server_raw" then "zabbix_proxy_raw"
  else s.

Definition as_proxy (p : parsed) : parsed :=
  Parsed (p_timestamp p) (proxy_source (p_source p)) (p_level p) (p_host p)
         (p_message p).



Definition bogus_time_line : string := "2025-99-99 99:99:99 INFO disk check".

(** A line in the structured shape whose digits give no day of the
    calendar. *)
Definition february_30_zabbix : string :=
  "  1376:20240230:153045.123: housekeeper started".




(* ================================================================== *)
(** * Properties *)
(* ================================================================== *)

(** ** Strings *)


Lemma append_assoc (a b c : string) : (a ++ b) ++ c = a ++ (b ++ c).
Proof. induction a as [|x a IH]; simpl; [reflexivity | now rewrite IH]. Qed.

Lemma length_append (a b : string) :
  String.length (a ++ b) = String.length a + String.length b.
Proof. induction a as [|x a IH]; simpl; [reflexivity | now rewrite IH]. Qed.

Lemma append_not_empty_r (a b : string) : b <> "" -> a ++ b <> "".
Proof.
  intros Hb H. apply (f_equal String.length) in H.
  rewrite length_append in H. destruct b; [now apply Hb | simpl in H; lia].
Qed.

Lemma append_not_empty_l (a b : string) : a <> "" -> a ++ b <> "".
Proof. destruct a; [easy | discriminate]. Qed.

Lemma length_zero_empty (s : string) : String.length s = 0 -> s = "".
Proof. destruct s; [reflexivity | discriminate]. Qed.

Lemma substring_0_append (w r : string) :
  substring 0 (String.length (w ++ r) - String.length r) (w ++ r) = w.
Proof.
  rewrite length_append. replace (String.length w + String.length r - String.length r)
    with (String.length w) by lia.
  induction w as [|c w IH]; simpl.
  - destruct r; reflexivity.
  - now rewrite IH.
Qed.

Lemma is_empty_true (s : string) : Str.is_empty s = true <-> s = "".
Proof. destruct s; simpl; split; congruence. Qed.

Lemma is_empty_false (s : string) : Str.is_empty s = false <-> s <> "".
Proof. destruct s; simpl; split; congruence. Qed.

(** ** The matcher is sound for a declarative reading of patterns *)

Module ReFacts.
Import Re ReSem.

Create HintDb re.
#[local] Hint Constructors ReSem.matches : re.

Lemma star_loop_sound {R : Type} (a : regex)
    (IH : forall s (k : mstate -> option R) x,
        run a s k = Some x -> exists s', matches a s s' /\ k s' = Some x)
    (fuel : nat) :
  forall s (k : mstate -> option R) x,
    star_loop (run a) fuel s k = Some x ->
    exists s', matches (Star a) s s' /\ k s' = Some x.
Proof.
  induction fuel as [|f IHf]; simpl; intros s k x H.
  - eauto with re.
  - destruct (run a s _) as [y|] eqn:E.
    + injection H as ->.
      apply IH in E. destruct E as (s1 & Ha & Hk).
      destruct (String.length (rest s1) <? String.length (rest s)); [|discriminate].
      apply IHf in Hk. destruct Hk as (s' & Hs & Hk). eauto with re.
    + eauto with re.
Qed.

Lemma run_sound {R : Type} (r : regex) :
  forall s (k : mstate -> option R) x,
    run r s k = Some x -> exists s', matches r s s' /\ k s' = Some x.
Proof.
  induction r as [|p|a IHa b IHb|a IHa b IHb|a IHa|n a IHa| | |];
    simpl; intros s k x H.
  - eauto with re.
  - destruct (rest s) as [|c t] eqn:E; [discriminate|].
    destruct (p c) eqn:Ep; [|discriminate]. eauto with re.
  - apply IHa in H. destruct H as (s1 & Ha & H).
    apply IHb in H. destruct H as (s2 & Hb & H). eauto with re.
  - destruct (run a s k) as [y|] eqn:E.
    + injection H as ->. apply IHa in E. destruct E as (s1 & Ha & Hk). eauto with re.
    + apply IHb in H. destruct H as (s1 & Hb & Hk). eauto with re.
  - eapply star_loop_sound; eauto.
  - apply IHa in H. destruct H as (s1 & Ha & Hk). eauto with re.
  - destruct (pos s =? 0) eqn:E; [|discriminate].
    apply Nat.eqb_eq in E. eauto with re.
  - destruct (at_eol (rest s)) eqn:E; [|discriminate]. eauto with re.
  - destruct (at_word_boundary s) eqn:E; [|discriminate]. eauto with re.
Qed.

Lemma matches_rest (r : regex) (s s' : mstate) :
  matches r s s' ->
  exists w, rest s = w ++ rest s' /\ min_len r <= String.length w.
Proof.
  induction 1; simpl.
  - exists ""; auto.
  - exists (String c ""); simpl; split; [assumption | lia].
  - destruct IHmatches1 as (w1 & E1 & L1), IHmatches2 as (w2 & E2 & L2).
    exists (w1 ++ w2). rewrite E1, E2, append_assoc, length_append. split; [reflexivity | lia].
  - destruct IHmatches as (w & E & L). exists w; split; [assumption | lia].
  - destruct IHmatches as (w & E & L). exists w; split; [assumption | lia].
  - exists ""; auto.
  - destruct IHmatches1 as (w1 & E1 & L1), IHmatches2 as (w2 & E2 & L2).
    exists (w1 ++ w2). rewrite E1, E2, append_assoc. split; [reflexivity | lia].
  - destruct IHmatches as (w & E & L). exists w; auto.
  - exists ""; auto.
  - exists ""; auto.
  - exists ""; auto.
Qed.

Lemma matches_consumed (r : regex) (s s' : mstate) :
  matches r s s' ->
  rest s = consumed s s' ++ rest s' /\
  min_len r <= String.length (consumed s s').
Proof.
  intros H. apply matches_rest in H. destruct H as (w & E & L).
  unfold consumed. rewrite E, substring_0_append. auto.
Qed.

Lemma matches_caps_other (g : nat) (r : regex) (s s' : mstate) :
  matches r s s' -> has_group g r = false ->
  lookup g (caps s') = lookup g (caps s).
Proof.
  induction 1; simpl; intros Hg; try reflexivity.
  - apply orb_false_iff in Hg. destruct Hg. rewrite IHmatches2, IHmatches1; auto.
  - apply orb_false_iff in Hg. destruct Hg. auto.
  - apply orb_false_iff in Hg. destruct Hg. auto.
  - simpl in IHmatches2. rewrite IHmatches2, IHmatches1; auto.
  - apply orb_false_iff in Hg. destruct Hg as [Hn Hg]. rewrite Hn. auto.
Qed.

Lemma matches_grp_min (g : nat) (r : regex) (s s' : mstate) :
  matches r s s' -> forall n, grp_min g r = Some n ->
  exists v, lookup g (caps s') = Some v /\ n <= String.length v.
Proof.
  induction 1; simpl; intros m Hm; try discriminate.
  - destruct (grp_min g b) as [nb|] eqn:Eb.
    + injection Hm as <-. auto.
    + destruct (has_group g b) eqn:Hb; [discriminate|].
      rewrite (matches_caps_other g b s1 s2); auto.
  - destruct (grp_min g a) as [na|]; [|discriminate].
    destruct (grp_min g b) as [nb|]; [|discriminate].
    injection Hm as <-. destruct (IHmatches na eq_refl) as (v & Hv & L).
    exists v; split; [assumption | lia].
  - destruct (grp_min g a) as [na|]; [|discriminate].
    destruct (grp_min g b) as [nb|]; [|discriminate].
    injection Hm as <-. destruct (IHmatches nb eq_refl) as (v & Hv & L).
    exists v; split; [assumption | lia].
  - destruct (n =? g) eqn:E.
    + injection Hm as <-. exists (consumed s s1). split; [reflexivity|].
      now apply matches_consumed.
    + auto.
Qed.

(** A group that every match closes on a non-empty text is not empty. *)
Lemma group_not_empty (r : regex) (line : string) (m : mstate) (g n : nat) :
  re_match r line = Some m -> grp_min g r = Some (S n) -> group m g <> "".
Proof.
  unfold re_match. intros H Hg.
  apply run_sound in H. destruct H as (s' & Hm & E). injection E as ->.
  destruct (matches_grp_min g r _ _ Hm _ Hg) as (v & Hv & L).
  unfold group. rewrite Hv. destruct v; [simpl in L; lia | discriminate].
Qed.

End ReFacts.

(* ================================================================== *)
(** ** Stripping *)
(* ================================================================== *)

Lemma rstrip_rstrip_nl (s : string) : Str.rstrip (Str.rstrip_nl s) = Str.rstrip s.
Proof.
  induction s as [|c t IH]; simpl; [reflexivity|].
  destruct (Ascii.eqb c "010") eqn:Ec.
  - apply Ascii.eqb_eq in Ec. subst c. simpl.
    destruct (Str.is_empty (Str.rstrip_nl t)) eqn:Et; simpl.
    + apply is_empty_true in Et. rewrite Et in IH. simpl in IH.
      rewrite <- IH. reflexivity.
    + rewrite IH. reflexivity.
  - simpl. rewrite IH. reflexivity.
Qed.

(** [line.rstrip("\n").strip()] is [line.strip()]. *)
Lemma strip_rstrip_nl (s : string) : Str.strip (Str.rstrip_nl s) = Str.strip s.
Proof. unfold Str.strip. now rewrite rstrip_rstrip_nl. Qed.

(* ================================================================== *)
(** ** Zabbix parsers: the raw fallback *)
(* ================================================================== *)

(** The server and the proxy parser use the same structural pattern. *)
Lemma zbx_patterns_equal :
  parser_zabbix_proxy.ZBX_PROXY_REGEX = parser_zabbix_server.ZBX_SERVER_REGEX.
Proof. reflexivity. Qed.

(** The two modules classify the severity of a message alike. *)
Lemma zbx_guess_level_equal (msg : string) :
  parser_zabbix_proxy.guess_level msg = parser_zabbix_server.guess_level msg.
Proof. reflexivity. Qed.

(** On a structural match that yields a record, the level is the guess
    made on the stored message. *)
Lemma zbx_server_level_rule (line host : string) (now : Dt.datetime) (p : parsed) :
  parser_zabbix_server.parse_zabbix_server_line line host now = Ok (Some p) ->
  p_level p = parser_zabbix_server.guess_level (p_message p).
Proof.
  unfold parser_zabbix_server.parse_zabbix_server_line.
  destruct (Re.re_match _ _) as [m|].
  - destruct (Dt.make _ _ _ _ _ _); [|discriminate].
    intros H; injection H as <-. reflexivity.
  - intros H; injection H as <-. reflexivity.
Qed.

Lemma zbx_proxy_level_rule (line host : string) (now : Dt.datetime) (p : parsed) :
  parser_zabbix_proxy.parse_zabbix_proxy_line line host now = Ok (Some p) ->
  p_level p = parser_zabbix_server.guess_level (p_message p).
Proof.
  unfold parser_zabbix_proxy.parse_zabbix_proxy_line.
  destruct (Re.re_match _ _) as [m|].
  - destruct (Dt.make _ _ _ _ _ _); [|discriminate].
    intros H; injection H as <-. reflexivity.
  - intros H; injection H as <-. reflexivity.
Qed.

(** Neither parser returns [None], whatever the line. *)
Lemma zbx_server_never_none (line host : string) (now : Dt.datetime) :
  parser_zabbix_server.parse_zabbix_server_line line host now <> Ok None.
Proof.
  unfold parser_zabbix_server.parse_zabbix_server_line.
  destruct (Re.re_match _ _) as [m|]; [|discriminate].
  destruct (Dt.make _ _ _ _ _ _); discriminate.
Qed.

Lemma zbx_proxy_never_none (line host : string) (now : Dt.datetime) :
  parser_zabbix_proxy.parse_zabbix_proxy_line line host now <> Ok None.
Proof.
  unfold parser_zabbix_proxy.parse_zabbix_proxy_line.
  destruct (Re.re_match _ _) as [m|]; [|discriminate].
  destruct (Dt.make _ _ _ _ _ _); discriminate.
Qed.

(** The fallback branch of the server parser. *)
Lemma zbx_server_raw (line host : string) (now : Dt.datetime) :
  Re.re_match parser_zabbix_server.ZBX_SERVER_REGEX (Str.rstrip_nl line) = None ->
  parser_zabbix_server.parse_zabbix_server_line line host now =
    Ok (Some (Parsed (Dt.isoformat now) "zabbix_server_raw"
                     (parser_zabbix_server.guess_level (Str.strip line))
                     host (Str.strip line))).
Proof.
  intros H. unfold parser_zabbix_server.parse_zabbix_server_line.
  rewrite H, strip_rstrip_nl. reflexivity.
Qed.

(** The fallback branch of the proxy parser. *)
Lemma zbx_proxy_raw (line host : string) (now : Dt.datetime) :
  Re.re_match parser_zabbix_server.ZBX_SERVER_REGEX (Str.rstrip_nl line) = None ->
  parser_zabbix_proxy.parse_zabbix_proxy_line line host now =
    Ok (Some (Parsed (Dt.isoformat now) "zabbix_proxy_raw"
                     (parser_zabbix_server.guess_level (Str.strip line))
                     host (Str.strip line))).
Proof.
  intros H. unfold parser_zabbix_proxy.parse_zabbix_proxy_line.
  rewrite zbx_patterns_equal, H, strip_rstrip_nl. reflexivity.
Qed.

(** C5. A line that the Zabbix daemon pattern does not match is not
    declined: the server parser and the proxy parser both return a record
    whose source tag ends in "_raw", whose message is the trimmed line,
    whose timestamp is the current instant, and whose level is the guess
    the same rules make on that message (the rules applied to the message
    of a structurally matching line too). *)
Theorem C5_zabbix_never_declines (line host : string) (now : Dt.datetime) :
  Re.re_match parser_zabbix_server.ZBX_SERVER_REGEX (Str.rstrip_nl line) = None ->
  parser_zabbix_server.parse_zabbix_server_line line host now =
    Ok (Some (Parsed (Dt.isoformat now) "zabbix_server_raw"
                     (parser_zabbix_server.guess_level (Str.strip line))
                     host (Str.strip line))) /\
  parser_zabbix_proxy.parse_zabbix_proxy_line line host now =
    Ok (Some (Parsed (Dt.isoformat now) "zabbix_proxy_raw"
                     (parser_zabbix_server.guess_level (Str.strip line))
                     host (Str.strip line))) /\
  Str.endswith "_raw" "zabbix_server_raw" = true /\
  Str.endswith "_raw" "zabbix_proxy_raw" = true /\
  (forall l h t, parser_zabbix_server.parse_zabbix_server_line l h t <> Ok None) /\
  (forall l h t, parser_zabbix_proxy.parse_zabbix_proxy_line l h t <> Ok None) /\
  (forall l h t p,
     parser_zabbix_server.parse_zabbix_server_line l h t = Ok (Some p) ->
     p_level p = parser_zabbix_server.guess_level (p_message p)) /\
  (forall l h t p,
     parser_zabbix_proxy.parse_zabbix_proxy_line l h t = Ok (Some p) ->
     p_level p = parser_zabbix_server.guess_level (p_message p)).
Proof.
  intros H.
  split; [now apply zbx_server_raw|].
  split; [now apply zbx_proxy_raw|].
  split; [reflexivity|]. split; [reflexivity|].
  split; [exact zbx_server_never_none|].
  split; [exact zbx_proxy_never_none|].
  split; [exact zbx_server_level_rule | exact zbx_proxy_level_rule].
Qed.

Lemma C5_zabbix_never_declines_witness :
  Re.re_match parser_zabbix_server.ZBX_SERVER_REGEX (Str.rstrip_nl Samples.raw_line) = None /\
  parser_zabbix_server.parse_zabbix_server_line Samples.raw_line "zbx01" Samples.instant =
    Ok (Some (Parsed "2025-11-27 15:30:45.000250" "zabbix_server_raw" "ERROR"
                     "zbx01" Samples.raw_line)) /\
  parser_zabbix_proxy.parse_zabbix_proxy_line Samples.raw_line "zbx01" Samples.instant =
    Ok (Some (Parsed "2025-11-27 15:30:45.000250" "zabbix_proxy_raw" "ERROR"
                     "zbx01" Samples.raw_line)).
Proof.
  assert (H : Re.re_match parser_zabbix_server.ZBX_SERVER_REGEX
                (Str.rstrip_nl Samples.raw_line) = None) by (vm_compute; reflexivity).
  split; [exact H|].
  destruct (C5_zabbix_never_declines Samples.raw_line "zbx01" Samples.instant H)
    as (Hs & Hp & _).
  split.
  - rewrite Hs. vm_compute. reflexivity.
  - rewrite Hp. vm_compute. reflexivity.
Defined.

(* ================================================================== *)
(** ** The PHP parser on the cURL example *)
(* ================================================================== *)

(** C6. On the cURL line of the specification the PHP parser returns level
    WARNING (a PHP Notice is a WARNING), cause group "network", and a
    cause reason that contains "192.168.0.204:8443" and "Connection
    refused". *)
Theorem C6_php_curl_example (now : Dt.datetime) :
  exists p reason,
    models.parse_php_error_line Samples.curl_line now = Some p /\
    models.php_level p = "WARNING" /\
    models.php_cause_group p = Some "network" /\
    models.php_cause_reason p = Some reason /\
    Str.contains "192.168.0.204:8443" reason = true /\
    Str.contains "Connection refused" reason = true.
Proof.
  eexists. eexists. split; [vm_compute; reflexivity|].
  repeat split; reflexivity.
Qed.

(* ================================================================== *)
(** ** Presets *)
(* ================================================================== *)

(** Case analysis along the tests of [_apply_preset]. *)
Ltac preset_cases args :=
  unfold cli._apply_preset, Spec.preset_value, Spec.merged;
  destruct args as [pr lv ct ho so si un li asc dh];
  cbn [cli.ns_preset cli.ns_level cli.ns_contains truthy negb];
  destruct pr as [n|];
  cbn [cli.ns_preset cli.ns_level cli.ns_contains truthy negb];
  [destruct (Str.is_empty n); cbn [negb];
   [|generalize (cli.dict_lookup cli.PRESETS n); intros [profile|];
     [destruct lv as [v|], (cli.dict_lookup profile "level") as [x|],
        ct as [w|], (cli.dict_lookup profile "contains") as [y|]
     |destruct lv as [v|], ct as [w|]]]
  |].

Lemma apply_preset_level (args : cli.Namespace) :
  cli.ns_level (cli._apply_preset args) =
  Spec.merged (cli.ns_level args) (Spec.preset_value (cli.ns_preset args) "level").
Proof. preset_cases args; try reflexivity; destruct lv; reflexivity. Qed.

Lemma apply_preset_contains (args : cli.Namespace) :
  cli.ns_contains (cli._apply_preset args) =
  Spec.merged (cli.ns_contains args)
              (Spec.preset_value (cli.ns_preset args) "contains").
Proof. preset_cases args; try reflexivity; destruct ct; reflexivity. Qed.

(** The preset touches no field but [level] and [contains]. *)
Lemma apply_preset_frame (args : cli.Namespace) :
  let r := cli._apply_preset args in
  cli.ns_preset r = cli.ns_preset args /\
  cli.ns_host r = cli.ns_host args /\
  cli.ns_source r = cli.ns_source args /\
  cli.ns_since r = cli.ns_since args /\
  cli.ns_until r = cli.ns_until args /\
  cli.ns_limit r = cli.ns_limit args /\
  cli.ns_asc r = cli.ns_asc args /\
  cli.ns_distinct_hosts r = cli.ns_distinct_hosts args.
Proof. cbv zeta. preset_cases args; repeat split; reflexivity. Qed.

(** C7. With a preset, for the filter and the top-messages commands: a
    level or contains value given by the caller (not None) is kept as it
    is, the preset's value is used only for a field the caller left
    unset, and no other field changes; the commands run their queries
    with the merged values.  With level INFO given and the preset
    "email", the level stays INFO and contains becomes "failed to send
    email". *)
Theorem C7_preset_merge (args : cli.Namespace) (d : db) :
  let r := cli._apply_preset args in
  let lv := Spec.merged (cli.ns_level args)
              (Spec.preset_value (cli.ns_preset args) "level") in
  let ct := Spec.merged (cli.ns_contains args)
              (Spec.preset_value (cli.ns_preset args) "contains") in
  cli.ns_level r = lv /\ cli.ns_contains r = ct /\
  (cli.ns_preset r = cli.ns_preset args /\
   cli.ns_host r = cli.ns_host args /\
   cli.ns_source r = cli.ns_source args /\
   cli.ns_since r = cli.ns_since args /\
   cli.ns_until r = cli.ns_until args /\
   cli.ns_limit r = cli.ns_limit args /\
   cli.ns_asc r = cli.ns_asc args /\
   cli.ns_distinct_hosts r = cli.ns_distinct_hosts args) /\
  cli.cmd_filter args d =
    (if cli.ns_distinct_hosts args
     then cli.HostTable
            (analyzer.filter_hosts lv ct (cli.ns_host args) (cli.ns_source args)
               (cli.ns_since args) (cli.ns_until args) (cli.ns_limit args) d)
     else cli.LogTable
            (analyzer.filter_logs lv ct (cli.ns_host args) (cli.ns_source args)
               (cli.ns_since args) (cli.ns_until args) (cli.ns_asc args)
               (cli.ns_limit args) d)) /\
  cli.cmd_top_errors args d =
    cli.CountTable
      (analyzer.top_errors lv ct (cli.ns_host args) (cli.ns_source args)
         (cli.ns_since args) (cli.ns_until args) (cli.ns_limit args) d) /\
  (forall ho so si un li asc dh,
     let q := cli._apply_preset
                (cli.mkArgs (Some "email") (Some "INFO") None ho so si un li asc dh) in
     cli.ns_level q = Some "INFO" /\
     cli.ns_contains q = Some "failed to send email").
Proof.
  intros r lv ct.
  pose proof (apply_preset_level args) as Hl.
  pose proof (apply_preset_contains args) as Hc.
  pose proof (apply_preset_frame args) as Hf. cbv zeta in Hf.
  fold r in Hl, Hc, Hf. fold lv in Hl. fold ct in Hc.
  destruct Hf as (Hp & Hh & Hso & Hsi & Hu & Hli & Ha & Hd).
  split; [exact Hl|]. split; [exact Hc|].
  split; [repeat split; assumption|].
  split; [|split].
  - unfold cli.cmd_filter. fold r.
    rewrite Hl, Hc, Hh, Hso, Hsi, Hu, Hli, Ha, Hd. reflexivity.
  - unfold cli.cmd_top_errors. fold r.
    rewrite Hl, Hc, Hh, Hso, Hsi, Hu, Hli. reflexivity.
  - intros. split; reflexivity.
Qed.

(* ================================================================== *)
(** ** The format sniffer *)
(* ================================================================== *)

(** Reading a prefix and seeking back restores the stream. *)
Lemma read_then_seek_back (n : nat) (st : models.stream) :
  models.seek (models.tell st) (snd (models.read n st)) = st.
Proof. destruct st as [c p]. reflexivity. Qed.

Lemma is_probably_log_stream (decode : list Byte.byte -> string)
    (st : models.stream) (filename : option string) (max_bytes : nat) :
  snd (models.is_probably_log decode st filename max_bytes) = st.
Proof.
  unfold models.is_probably_log.
  pose proof (read_then_seek_back max_bytes st) as H.
  destruct (models.read max_bytes st) as [chunk st1]. simpl in *. exact H.
Qed.

(** C8. Two calls of the sniffer in a row on the same stream (same
    content, same filename) give the same boolean, and after each call
    the read position is where it was before the call. *)
Theorem C8_sniffer_idempotent (decode : list Byte.byte -> string)
    (st : models.stream) (filename : option string) (max_bytes : nat) :
  let first := models.is_probably_log decode st filename max_bytes in
  let second := models.is_probably_log decode (snd first) filename max_bytes in
  fst first = fst second /\
  models.tell (snd first) = models.tell st /\
  models.tell (snd second) = models.tell (snd first) /\
  models.content (snd second) = models.content st.
Proof.
  intros first second. subst second first.
  rewrite !is_probably_log_stream. repeat split; reflexivity.
Qed.

(* ================================================================== *)
(** ** The contains criterion of the query engine *)
(* ================================================================== *)

(** A later step of [_build_where] keeps the parameters bound so far. *)
Lemma add_clause_keeps (o : option string) (clause : string)
    (value : string -> string) (acc : list string * list string) (x : string) :
  In x (snd acc) -> In x (snd (analyzer.add_clause o clause value acc)).
Proof.
  unfold analyzer.add_clause. intros H.
  destruct o as [v|]; [|exact H].
  destruct (truthy (Some v)); [|exact H].
  simpl. apply in_or_app. now left.
Qed.

(** Whatever the other criteria are, a non-empty [contains] value is bound
    to the [LIKE] mark as it is, between two [%]. *)
Lemma build_where_contains_param (lv ho so si un : option string)
    (a : ascii) (c : string) :
  In ("%" ++ String a c ++ "%")
     (snd (analyzer._build_where lv (Some (String a c)) ho so si un)).
Proof.
  unfold analyzer._build_where. cbn [snd].
  do 4 apply add_clause_keeps.
  unfold analyzer.add_clause at 1. cbn [truthy Str.is_empty negb snd].
  apply in_or_app. right. now left.
Qed.

(** C9. The filtered list, the distinct-hosts count and the top-messages
    ranking build their condition with [_build_where], which binds
    "%" + contains + "%" to [message LIKE ?] without escaping; so a
    contains value with [_] or [%] is a wildcard pattern: with contains
    "a_c" the row whose message is "abc" is selected by the three
    operations although "a_c" is not a substring of "abc". *)
Theorem C9_contains_is_a_like_pattern :
  (forall (lv ho so si un : option string) (a : ascii) (c : string),
     In ("%" ++ String a c ++ "%")
        (snd (analyzer._build_where lv (Some (String a c)) ho so si un))) /\
  analyzer._build_where None (Some "a_c") None None None None =
    ("1=1 AND message LIKE ?", ["%a_c%"]) /\
  Str.contains "a_c" (message Samples.abc_row) = false /\
  analyzer.eval_where "1=1 AND message LIKE ?" ["%a_c%"] Samples.abc_row = Some true /\
  analyzer.filter_logs None (Some "a_c") None None None None false 20 [Samples.abc_row] =
    [analyzer.columns5 Samples.abc_row] /\
  analyzer.filter_hosts None (Some "a_c") None None None None 20 [Samples.abc_row] =
    [("srvzbx", 1)] /\
  analyzer.top_errors (Some "ERROR") (Some "a_c") None None None None 20 [Samples.abc_row] =
    [(1, "abc")] /\
  Str.contains "a%c" "a--c" = false /\
  analyzer.like "%a%c%" "a--c" = true.
Proof.
  split; [exact build_where_contains_param|].
  repeat split; vm_compute; reflexivity.
Qed.

(* ================================================================== *)
(** ** The syslog parser on the example of the specification *)
(* ================================================================== *)

Lemma syslog_line_matches :
  Re.re_match parser_linux.SYSLOG_REGEX Samples.syslog_line =
  Some Samples.syslog_match.
Proof. vm_compute. reflexivity. Qed.

(** On the sample line the parser comes down to reading the date back. *)
Lemma parse_syslog_sample (year : option N) (now : Dt.datetime) :
  parser_linux.parse_syslog_line Samples.syslog_line year now =
  match Dt.strptime (Str.of_N (resolved_year year now) ++ "-11-27 15:30:45")
                    "%Y-%m-%d %H:%M:%S" with
  | Raise e => Raise e
  | Ok dt => Ok (Some (Parsed (Dt.isoformat dt) "syslog" "INFO" "host1"
                              "something failed"))
  end.
Proof.
  unfold parser_linux.parse_syslog_line.
  rewrite syslog_line_matches. reflexivity.
Qed.

Lemma four_digit_years_all_ok :
  forallb strptime_year_ok Samples.four_digit_years = true.
Proof. vm_compute. reflexivity. Qed.

Lemma four_digit_year_in (y : N) :
  (1000 <= y <= 9999)%N -> In y Samples.four_digit_years.
Proof.
  intros H. unfold Samples.four_digit_years.
  rewrite <- (N2Nat.id y). apply in_map. apply in_seq. lia.
Qed.

Lemma strptime_four_digit_year (y : N) :
  (1000 <= y <= 9999)%N -> strptime_year_ok y = true.
Proof.
  intros H. apply four_digit_year_in in H.
  pose proof four_digit_years_all_ok as A.
  rewrite forallb_forall in A. now apply A.
Qed.

(** The rule of [guess_level] for ERROR: no CRIT and no FATAL, and then
    ERROR or " ERR ", in the message in upper case. *)
Lemma syslog_guess_level_error (msg : string) :
  parser_linux.guess_level msg = "ERROR" <->
  (Str.contains "CRIT" (Str.upper msg) || Str.contains "FATAL" (Str.upper msg) = false /\
   Str.contains "ERROR" (Str.upper msg) || Str.contains " ERR " (Str.upper msg) = true).
Proof.
  unfold parser_linux.guess_level.
  destruct (Str.contains "CRIT" _ || Str.contains "FATAL" _);
    destruct (Str.contains "ERROR" _ || Str.contains " ERR " _);
    try destruct (Str.contains "WARN" _);
    split; intros H; try discriminate; try (destruct H; discriminate); auto.
Qed.

(** Every record the syslog parser returns has the source tag "syslog"
    and the level [guess_level] gives to its message. *)
Lemma parse_syslog_line_level (line : string) (year : option N)
    (now : Dt.datetime) (p : parsed) :
  parser_linux.parse_syslog_line line year now = Ok (Some p) ->
  p_source p = "syslog" /\ p_level p = parser_linux.guess_level (p_message p).
Proof.
  unfold parser_linux.parse_syslog_line.
  destruct (Re.re_match _ _) as [m|]; [|discriminate].
  destruct (Dt.strptime _ _); [|discriminate].
  intros H; injection H as <-. split; reflexivity.
Qed.

(** C3, as the specification states it, fails: on the sample line the
    level is not ERROR. *)
Lemma C3_syslog_level_not_error :
  ~ (exists p,
       parser_linux.parse_syslog_line Samples.syslog_line None Samples.instant = Ok (Some p) /\
       p_level p = "ERROR" /\ p_host p = "host1" /\
       p_message p = "something failed").
Proof.
  intros (p & H & Hl & _).
  vm_compute in H. injection H as <-. discriminate Hl.
Qed.

(** C3 (amended). On the line "Nov 27 15:30:45 host1 something failed" the
    syslog parser returns host "host1", message "something failed", the
    timestamp of November 27, 15:30:45 in the current system year when the
    caller gives no year, and the level INFO: the level of a syslog
    record is the guess made on its message, which is ERROR only for a
    message with ERROR or " ERR " (and neither CRIT nor FATAL). *)
Theorem C3_syslog_example (now : Dt.datetime) :
  (1000 <= Dt.year now <= 9999)%N ->
  parser_linux.parse_syslog_line Samples.syslog_line None now =
    Ok (Some (Parsed (Str.of_N (Dt.year now) ++ "-11-27 15:30:45") "syslog"
                     "INFO" "host1" "something failed")) /\
  parser_linux.guess_level "something failed" = "INFO" /\
  (forall line year now' p,
     parser_linux.parse_syslog_line line year now' = Ok (Some p) ->
     p_source p = "syslog" /\
     p_level p = parser_linux.guess_level (p_message p)) /\
  (forall msg,
     parser_linux.guess_level msg = "ERROR" <->
     (Str.contains "CRIT" (Str.upper msg) || Str.contains "FATAL" (Str.upper msg) = false /\
      Str.contains "ERROR" (Str.upper msg) || Str.contains " ERR " (Str.upper msg) = true)).
Proof.
  intros Hy.
  split; [|split; [reflexivity
                  |split; [exact parse_syslog_line_level
                          |exact syslog_guess_level_error]]].
  rewrite parse_syslog_sample. cbn [resolved_year].
  pose proof (strptime_four_digit_year _ Hy) as H.
  unfold strptime_year_ok in H.
  destruct (Dt.strptime _ _) as [dt|e]; [|discriminate].
  apply String.eqb_eq in H. rewrite H. reflexivity.
Qed.

Lemma C3_syslog_example_witness :
  (1000 <= Dt.year Samples.instant <= 9999)%N /\
  parser_linux.parse_syslog_line Samples.syslog_line None Samples.instant =
    Ok (Some (Parsed "2025-11-27 15:30:45" "syslog" "INFO" "host1"
                     "something failed")).
Proof.
  assert (H : (1000 <= Dt.year Samples.instant <= 9999)%N) by (simpl; lia).
  split; [exact H|].
  exact (proj1 (C3_syslog_example Samples.instant H)).
Defined.

(* ================================================================== *)
(** ** [find] *)
(* ================================================================== *)

Lemma find_from_spec (sub s : string) :
  forall i : Z,
    (Str.find_from i sub s = (-1)%Z /\ forall j, occurs_at sub s j = false) \/
    (exists k, Str.find_from i sub s = (i + Z.of_nat k)%Z /\
               occurs_at sub s k = true /\
               forall j, j < k -> occurs_at sub s j = false).
Proof.
  unfold occurs_at. induction s as [|c t IH]; intros i; simpl.
  - destruct (Str.startswith sub "") eqn:E.
    + right. exists 0. simpl. rewrite E. repeat split; [lia | intros; lia].
    + left. split; [reflexivity|]. intros [|j]; simpl; exact E.
  - destruct (Str.startswith sub (String c t)) eqn:E.
    + right. exists 0. simpl. rewrite E. repeat split; [lia | intros; lia].
    + destruct (IH (i + 1)%Z) as [[Hf Hn] | (k & Hf & Hk & Hn)].
      * left. split; [exact Hf|]. intros [|j]; simpl; [exact E | apply Hn].
      * right. exists (S k). split; [rewrite Hf; lia|]. split; [exact Hk|].
        intros [|j] Hj; simpl; [exact E | apply Hn; lia].
Qed.

Lemma drop_lower (j : nat) (s : string) :
  Str.drop j (Str.lower s) = Str.lower (Str.drop j s).
Proof.
  revert s. induction j as [|j IH]; intros [|c t]; simpl; try reflexivity.
  apply IH.
Qed.

(* ================================================================== *)
(** ** The PHP parser: the main message *)
(* ================================================================== *)

(** How the cause reason of a parsed PHP line derives from [msg_main]. *)
Lemma php_cause_reason_from_msg_main (line : string) (now : Dt.datetime)
    (p : models.php_parsed) :
  models.parse_php_error_line line now = Some p ->
  let msg_main := models.msg_main_of (models.php_message p) in
  models.php_cause_reason p = Some msg_main \/
  exists ip port,
    models.php_cause_reason p =
      Some ("cURL falhou ao conectar em " ++ ip ++ ":" ++ port ++ " (" ++
            match Re.re_search models.reason_pattern msg_main with
            | Some rm => Str.strip (Re.group rm 1)
            | None => "Erro de conexão"
            end ++ ")").
Proof.
  unfold models.parse_php_error_line.
  destruct (Re.re_match _ line) as [m|]; [|discriminate].
  cbv zeta.
  destruct (Str.contains "curl error" _ || Re.found _).
  - destruct (truthy _ && truthy _).
    + intros H; injection H as <-. right. eexists. eexists. reflexivity.
    + intros H; injection H as <-. left. reflexivity.
  - intros H; injection H as <-. left. reflexivity.
Qed.

(** C4, as the specification states it, fails: on a line with " IN "
    before " in " the cause reason is not the text before the first
    " in " in lower case. *)
Lemma C4_split_is_not_case_sensitive :
  ~ (forall p,
       models.parse_php_error_line Samples.php_upper_in_line Samples.instant = Some p ->
       models.php_cause_reason p =
         Some (Spec.msg_main_case_sensitive (models.php_message p))).
Proof.
  intros H.
  specialize (H (models.PhpParsed "2025-10-02 15:59:40" "WARNING"
                   "Division BY ZERO IN calc in /x.php" (Some "aplicacao")
                   (Some "Division BY ZERO")
                   (Some "Avaliar stack trace e corrigir causa raiz no código PHP"))).
  assert (E : models.parse_php_error_line Samples.php_upper_in_line Samples.instant =
              Some (models.PhpParsed "2025-10-02 15:59:40" "WARNING"
                   "Division BY ZERO IN calc in /x.php" (Some "aplicacao")
                   (Some "Division BY ZERO")
                   (Some "Avaliar stack trace e corrigir causa raiz no código PHP")))
    by (vm_compute; reflexivity).
  specialize (H E). vm_compute in H. discriminate H.
Qed.

(** C4 (amended). [msg_main] is the rest-of-line text cut before the
    first occurrence of " in " found without regard to the case of the
    letters (the search runs on the text in lower case), with the white
    space around the prefix stripped, and it is the whole text when there
    is no such occurrence; so a line with " IN " before " in " is cut at
    " IN ".  The cause reason of a parsed line is [msg_main] or, for a
    cURL failure with address and port, the sentence built from the last
    ": text" segment of [msg_main]. *)
Theorem C4_msg_main_split (rest : string) :
  ((models.msg_main_of rest = rest /\
    forall j, occurs_at " in " (Str.lower rest) j = false) \/
   (exists k,
      models.msg_main_of rest = Str.strip (substring 0 k rest) /\
      occurs_at " in " (Str.lower rest) k = true /\
      forall j, j < k -> occurs_at " in " (Str.lower rest) j = false)) /\
  models.msg_main_of "Division BY ZERO IN calc in /x.php" = "Division BY ZERO" /\
  (forall line now p,
     models.parse_php_error_line line now = Some p ->
     models.php_cause_reason p = Some (models.msg_main_of (models.php_message p)) \/
     exists ip port,
       models.php_cause_reason p =
         Some ("cURL falhou ao conectar em " ++ ip ++ ":" ++ port ++ " (" ++
               match Re.re_search models.reason_pattern
                       (models.msg_main_of (models.php_message p)) with
               | Some rm => Str.strip (Re.group rm 1)
               | None => "Erro de conexão"
               end ++ ")")).
Proof.
  split; [|split; [vm_compute; reflexivity | exact php_cause_reason_from_msg_main]].
  unfold models.msg_main_of, Str.find.
  destruct (find_from_spec " in " (Str.lower rest) 0) as [[Hf Hn] | (k & Hf & Hk & Hn)].
  - left. rewrite Hf. simpl. auto.
  - right. exists k. rewrite Hf. split; [|auto].
    replace (0 + Z.of_nat k =? -1)%Z with false by (symmetry; apply Z.eqb_neq; lia).
    unfold Str.take. simpl (0 + _)%Z. now rewrite Nat2Z.id.
Qed.

(* ================================================================== *)
(** ** The generic severity classifier of the upload path *)
(* ================================================================== *)

(** The loop over [level_patterns] tests ERROR, WARNING, INFO, CRITICAL
    and NOTICE in this order and stops at the first keyword found. *)
Lemma classify_order (line : string) :
  models.classify models.level_patterns "INFO" line =
  if keyword "ERROR" line then "ERROR"
  else if keyword "WARNING" line then "WARNING"
  else if keyword "INFO" line then "INFO"
  else if keyword "CRITICAL" line then "CRITICAL"
  else if keyword "NOTICE" line then "NOTICE"
  else "INFO".
Proof. reflexivity. Qed.

Lemma upload_line_unfold (decode : list Byte.byte -> string) (raw : models.data)
    (source default_host : string) (now : Dt.datetime) (d : db) :
  models.ingest_plaintext_line decode raw source default_host now d =
  let line := upload_line decode raw in
  if Str.is_empty line then d
  else
    match models.parse_php_error_line line now with
    | Some php =>
        (d ++ [mkLog (models.php_timestamp php) source (models.php_level php)
                     default_host (models.php_message php)
                     (models.php_cause_group php) (models.php_cause_reason php)
                     (models.php_cause_action php)])%list
    | None =>
        (d ++ [mkLog
                 (match Re.re_match models.ts_regex line with
                  | Some m => Re.group m 1
                  | None => models.datetime_utc_now now
                  end)
                 source
                 (models.classify models.level_patterns "INFO" line)
                 default_host
                 (match Re.re_match models.ts_regex line with
                  | Some m =>
                      Str.strip (Str.drop (String.length (Re.group m 1)) line)
                  | None => line
                  end)
                 None None None])%list
    end.
Proof.
  unfold models.ingest_plaintext_line, upload_line. cbv zeta.
  destruct raw as [b|s].
  - destruct (Str.is_empty _); [reflexivity|].
    destruct (models.parse_php_error_line _ _); [reflexivity|].
    destruct (Re.re_match _ _); reflexivity.
  - destruct (Str.is_empty _); [reflexivity|].
    destruct (models.parse_php_error_line _ _); [reflexivity|].
    destruct (Re.re_match _ _); reflexivity.
Qed.

(** For the levels with a one-word pattern the keyword of the level is the
    level name as a whole word. *)
Lemma keyword_has_word_error (line : string) :
  keyword "ERROR" line = Spec.has_word "ERROR" line.
Proof. reflexivity. Qed.

Lemma keyword_has_word_info (line : string) :
  keyword "INFO" line = Spec.has_word "INFO" line.
Proof. reflexivity. Qed.

Lemma keyword_has_word_critical (line : string) :
  keyword "CRITICAL" line = Spec.has_word "CRITICAL" line.
Proof. reflexivity. Qed.

(** C10, as stated, fails: a PHP Notice with INFO and CRITICAL as whole
    words, and neither ERROR nor WARN nor WARNING, is stored with the
    level WARNING, which the PHP parser gives it. *)
Lemma C10_php_notice_is_stored_as_warning :
  Str.strip Samples.php_notice_line <> "" /\
  Spec.has_word "INFO" Samples.php_notice_line = true /\
  Spec.has_word "CRITICAL" Samples.php_notice_line = true /\
  Spec.has_word "ERROR" Samples.php_notice_line = false /\
  Spec.has_word "WARN" Samples.php_notice_line = false /\
  Spec.has_word "WARNING" Samples.php_notice_line = false /\
  keyword "WARNING" Samples.php_notice_line = false /\
  ~ (forall r,
       In r (models.ingest_plaintext_log Samples.decode_ascii
               [models.Text Samples.php_notice_line] "upload:php.log"
               "upload-host" (fun _ => Samples.instant) []) ->
       level r = "INFO").
Proof.
  split; [vm_compute; discriminate|].
  do 6 (split; [vm_compute; reflexivity|]).
  intros H.
  specialize (H (mkLog "2025-10-02 15:59:40" "upload:php.log" "WARNING"
                   "upload-host" "INFO CRITICAL" (Some "aplicacao")
                   (Some "INFO CRITICAL")
                   (Some "Avaliar stack trace e corrigir causa raiz no código PHP"))).
  assert (E : models.ingest_plaintext_log Samples.decode_ascii
               [models.Text Samples.php_notice_line] "upload:php.log"
               "upload-host" (fun _ => Samples.instant) [] =
              [mkLog "2025-10-02 15:59:40" "upload:php.log" "WARNING"
                   "upload-host" "INFO CRITICAL" (Some "aplicacao")
                   (Some "INFO CRITICAL")
                   (Some "Avaliar stack trace e corrigir causa raiz no código PHP")])
    by (vm_compute; reflexivity).
  rewrite E in H. specialize (H (or_introl eq_refl)). discriminate H.
Qed.

(** C10 (amended). The generic classifier of the upload path tests the
    whole-word, case-insensitive keywords in the fixed order ERROR,
    WARNING, INFO, CRITICAL, NOTICE, takes the first level whose keyword
    is found in the line and INFO when none is; so every non-blank line
    that the PHP parser declines, with INFO and CRITICAL as whole words,
    without ERROR as a whole word and without a WARN or WARNING token, is
    stored with the level INFO, not CRITICAL. *)
Theorem C10_fallback_severity_order (decode : list Byte.byte -> string)
    (raw : models.data) (source default_host : string) (now : Dt.datetime)
    (d : db) :
  let line := upload_line decode raw in
  line <> "" ->
  models.parse_php_error_line line now = None ->
  Spec.has_word "INFO" line = true ->
  Spec.has_word "CRITICAL" line = true ->
  Spec.has_word "ERROR" line = false ->
  keyword "WARNING" line = false ->
  (exists ts msg,
     models.ingest_plaintext_line decode raw source default_host now d =
     (d ++ [mkLog ts source "INFO" default_host msg None None None])%list) /\
  (forall l,
     models.classify models.level_patterns "INFO" l =
     if keyword "ERROR" l then "ERROR"
     else if keyword "WARNING" l then "WARNING"
     else if keyword "INFO" l then "INFO"
     else if keyword "CRITICAL" l then "CRITICAL"
     else if keyword "NOTICE" l then "NOTICE"
     else "INFO").
Proof.
  intros line Hne Hphp Hi Hc He Hw. split; [|exact classify_order].
  rewrite <- (keyword_has_word_info line) in Hi.
  rewrite <- (keyword_has_word_error line) in He.
  rewrite upload_line_unfold. fold line. cbv zeta.
  apply is_empty_false in Hne. rewrite Hne, Hphp.
  rewrite classify_order, He, Hw, Hi. eauto.
Qed.

Lemma C10_fallback_severity_order_witness :
  (Samples.info_critical_line <> "" /\
   models.parse_php_error_line Samples.info_critical_line Samples.instant = None /\
   Spec.has_word "INFO" Samples.info_critical_line = true /\
   Spec.has_word "CRITICAL" Samples.info_critical_line = true /\
   Spec.has_word "ERROR" Samples.info_critical_line = false /\
   keyword "WARNING" Samples.info_critical_line = false) /\
  exists ts msg,
    models.ingest_plaintext_line Samples.decode_ascii
      (models.Text Samples.info_critical_line) "upload:app.log" "upload-host"
      Samples.instant [] =
    [mkLog ts "upload:app.log" "INFO" "upload-host" msg None None None].
Proof.
  assert (H1 : Samples.info_critical_line <> "") by (vm_compute; discriminate).
  assert (H2 : models.parse_php_error_line Samples.info_critical_line
                 Samples.instant = None) by (vm_compute; reflexivity).
  assert (H3 : Spec.has_word "INFO" Samples.info_critical_line = true)
    by (vm_compute; reflexivity).
  assert (H4 : Spec.has_word "CRITICAL" Samples.info_critical_line = true)
    by (vm_compute; reflexivity).
  assert (H5 : Spec.has_word "ERROR" Samples.info_critical_line = false)
    by (vm_compute; reflexivity).
  assert (H6 : keyword "WARNING" Samples.info_critical_line = false)
    by (vm_compute; reflexivity).
  split; [repeat split; assumption|].
  exact (proj1 (C10_fallback_severity_order Samples.decode_ascii
                  (models.Text Samples.info_critical_line) "upload:app.log"
                  "upload-host" Samples.instant [] H1 H2 H3 H4 H5 H6)).
Defined.

(* ================================================================== *)
(** ** Blank lines *)
(* ================================================================== *)

Lemma all_chars_append (p : ascii -> bool) (a b : string) :
  all_chars p (a ++ b) = all_chars p a && all_chars p b.
Proof.
  induction a as [|c a IH]; simpl; [reflexivity|].
  now rewrite IH, andb_assoc.
Qed.

Lemma lstrip_empty_all_space (s : string) :
  Str.lstrip s = "" -> all_chars Str.is_space s = true.
Proof.
  induction s as [|c t IH]; simpl; [reflexivity|].
  destruct (Str.is_space c); [exact IH | discriminate].
Qed.

Lemma all_space_rstrip_empty (s : string) :
  all_chars Str.is_space (Str.rstrip s) = true -> Str.rstrip s = "".
Proof.
  induction s as [|c t IH]; simpl; [reflexivity|].
  destruct (Str.is_space c) eqn:Ec; simpl.
  - destruct (Str.is_empty (Str.rstrip t)) eqn:Et; [reflexivity|].
    simpl. rewrite Ec. simpl. intros H. apply IH in H.
    rewrite H in Et. discriminate.
  - rewrite Ec. discriminate.
Qed.

Lemma rstrip_empty_all_space (s : string) :
  Str.rstrip s = "" -> all_chars Str.is_space s = true.
Proof.
  induction s as [|c t IH]; simpl; [reflexivity|].
  destruct (Str.is_space c); simpl; [|discriminate].
  destruct (Str.is_empty (Str.rstrip t)) eqn:Et; [|discriminate].
  intros _. apply IH. now apply is_empty_true.
Qed.

(** A blank line is made of white space only. *)
Lemma blank_all_space (s : string) :
  Spec.blank s -> all_chars Str.is_space s = true.
Proof.
  unfold Spec.blank, Str.strip. intros H.
  apply lstrip_empty_all_space, all_space_rstrip_empty in H.
  now apply rstrip_empty_all_space.
Qed.

Lemma all_space_rstrip_nl (s : string) :
  all_chars Str.is_space s = true ->
  all_chars Str.is_space (Str.rstrip_nl s) = true.
Proof.
  induction s as [|c t IH]; simpl; [reflexivity|].
  intros H. apply andb_true_iff in H. destruct H as [Hc Ht].
  destruct (Ascii.eqb c "010" && Str.is_empty (Str.rstrip_nl t)); simpl;
    [reflexivity|].
  rewrite Hc. simpl. auto.
Qed.

Lemma In_all_ascii (c : ascii) : In c all_ascii.
Proof.
  unfold all_ascii. rewrite <- (ascii_nat_embedding c).
  apply in_map, in_seq. pose proof (nat_ascii_bounded c). lia.
Qed.

(** A match on a text of characters of [q] passes the test. *)
Lemma matches_within (q : ascii -> bool) (r : Re.regex) (s s' : Re.mstate) :
  ReSem.matches r s s' ->
  exists w, Re.rest s = w ++ Re.rest s' /\
            (all_chars q w = true -> can_match_within q r = true).
Proof.
  induction 1; cbn [can_match_within].
  - exists ""; auto.
  - exists (String c ""). split; [assumption|].
    cbn [all_chars]. rewrite andb_true_r. intros Hq.
    apply existsb_exists. exists c. split; [apply In_all_ascii|].
    now rewrite H0, Hq.
  - destruct IHmatches1 as (w1 & E1 & L1), IHmatches2 as (w2 & E2 & L2).
    exists (w1 ++ w2). rewrite E1, E2, append_assoc. split; [reflexivity|].
    rewrite all_chars_append. intros Hq. apply andb_true_iff in Hq.
    destruct Hq. rewrite L1, L2; auto.
  - destruct IHmatches as (w & E & L). exists w. split; [assumption|].
    intros Hq. rewrite L; auto.
  - destruct IHmatches as (w & E & L). exists w. split; [assumption|].
    intros Hq. rewrite L; auto. apply orb_true_r.
  - exists ""; auto.
  - destruct IHmatches1 as (w1 & E1 & L1), IHmatches2 as (w2 & E2 & L2).
    exists (w1 ++ w2). rewrite E1, E2, append_assoc. auto.
  - destruct IHmatches as (w & E & L). exists w. auto.
  - exists ""; auto.
  - exists ""; auto.
  - exists ""; auto.
Qed.

(** A pattern that needs a character outside [q] matches no text made of
    characters of [q]. *)
Lemma no_match_within (q : ascii -> bool) (r : Re.regex) (line : string) :
  can_match_within q r = false -> all_chars q line = true ->
  Re.re_match r line = None.
Proof.
  intros Hr Hl. destruct (Re.re_match r line) as [m|] eqn:E; [|reflexivity].
  unfold Re.re_match in E. apply ReFacts.run_sound in E.
  destruct E as (s' & Hm & _).
  destruct (matches_within q r _ _ Hm) as (w & Ew & L).
  simpl in Ew. rewrite Ew, all_chars_append in Hl.
  apply andb_true_iff in Hl. destruct Hl as [Hw _].
  rewrite (L Hw) in Hr. discriminate.
Qed.

(** The syslog pattern and the Zabbix pattern need a character that is
    not white space. *)
Lemma syslog_needs_text :
  can_match_within Str.is_space parser_linux.SYSLOG_REGEX = false.
Proof. vm_compute. reflexivity. Qed.

Lemma zabbix_needs_text :
  can_match_within Str.is_space parser_zabbix_server.ZBX_SERVER_REGEX = false.
Proof. vm_compute. reflexivity. Qed.

(** The syslog parser declines a blank line. *)
Lemma parse_syslog_blank (line : string) (year : option N) (now : Dt.datetime) :
  Spec.blank line ->
  parser_linux.parse_syslog_line (Str.rstrip_nl line) year now = Ok None.
Proof.
  intros H. unfold parser_linux.parse_syslog_line.
  rewrite (no_match_within Str.is_space); [reflexivity | exact syslog_needs_text |].
  now apply all_space_rstrip_nl, blank_all_space.
Qed.

(** The Zabbix server parser turns a blank line into a raw record with an
    empty message. *)
Lemma parse_zabbix_server_blank (line host : string) (now : Dt.datetime) :
  Spec.blank line ->
  parser_zabbix_server.parse_zabbix_server_line line host now =
  Ok (Some (Parsed (Dt.isoformat now) "zabbix_server_raw" "INFO" host "")).
Proof.
  intros H. rewrite zbx_server_raw.
  - rewrite H. reflexivity.
  - apply (no_match_within Str.is_space); [exact zabbix_needs_text|].
    now apply all_space_rstrip_nl, blank_all_space.
Qed.

(* ================================================================== *)
(** ** Blank lines at the ingestion entry points *)
(* ================================================================== *)

(** [ingest_syslog] skips a blank line. *)
Lemma ingest_syslog_blank (line : string) (clock : nat -> Dt.datetime) (d : db) :
  Spec.blank line ->
  ingest.ingest_syslog (Some [line]) clock d = (Ok 0, d).
Proof.
  intros H. unfold ingest.ingest_syslog. simpl.
  now rewrite parse_syslog_blank.
Qed.

(** [ingest_plaintext_log] skips a blank item. *)
Lemma ingest_plaintext_blank (decode : list Byte.byte -> string)
    (raw : models.data) (source default_host : string)
    (clock : nat -> Dt.datetime) (d : db) :
  upload_line decode raw = "" ->
  models.ingest_plaintext_log decode [raw] source default_host clock d = d.
Proof.
  intros H. unfold models.ingest_plaintext_log. simpl.
  rewrite upload_line_unfold. cbv zeta. now rewrite H.
Qed.

(** C1 fails on the code for the Zabbix-server path: for every blank line
    [ingest_zabbix_server] writes one record, with an empty message and
    no error, while the syslog path and the upload path write nothing;
    the two ingestion functions of the command line skip an empty line
    only and store a line of blanks. *)
Theorem C1_zabbix_server_stores_blank_lines (line host : string)
    (clock : nat -> Dt.datetime) (d : db) :
  Spec.blank line ->
  ingest.ingest_zabbix_server (Some [line]) host clock d =
    (Ok 1, (d ++ [mkLog (Dt.isoformat (clock 0)) "zabbix_server_raw" "INFO"
                        host "" None None None])%list) /\
  ingest.ingest_syslog (Some [line]) clock d = (Ok 0, d) /\
  (forall decode source,
     models.ingest_plaintext_log decode [models.Text line] source host clock d = d) /\
  cli.ingest_zabbix_server_log (Some ["   "]) host clock d =
    (Ok 1, (d ++ [mkLog (Dt.strftime (clock 0)) "zabbix_server_raw" "INFO"
                        host "   " None None None])%list) /\
  cli.ingest_syslog_file (Some ["   "]) host clock d =
    (Ok 1, (d ++ [mkLog (Dt.strftime (clock 0)) "syslog" "INFO"
                        host "   " None None None])%list).
Proof.
  intros H. split; [|split; [|split; [|split]]].
  - unfold ingest.ingest_zabbix_server. simpl.
    rewrite parse_zabbix_server_blank
      by (unfold Spec.blank; rewrite strip_rstrip_nl; exact H).
    reflexivity.
  - now apply ingest_syslog_blank.
  - intros. apply ingest_plaintext_blank. exact H.
  - reflexivity.
  - reflexivity.
Qed.

Lemma C1_zabbix_server_stores_blank_lines_witness :
  Spec.blank "   " /\
  ingest.ingest_zabbix_server (Some ["   "]) "zbx01" (fun _ => Samples.instant) [] =
    (Ok 1, [mkLog "2025-11-27 15:30:45.000250" "zabbix_server_raw" "INFO"
                  "zbx01" "" None None None]).
Proof.
  assert (H : Spec.blank "   ") by reflexivity.
  split; [exact H|].
  exact (proj1 (C1_zabbix_server_stores_blank_lines "   " "zbx01"
                  (fun _ => Samples.instant) [] H)).
Defined.

(* ================================================================== *)
(** ** The invariant of persisted records *)
(* ================================================================== *)

Lemma strftime_not_empty (dt : Dt.datetime) : Dt.strftime dt <> "".
Proof. unfold Dt.strftime. apply append_not_empty_r. discriminate. Qed.

Lemma isoformat_not_empty (dt : Dt.datetime) : Dt.isoformat dt <> "".
Proof. unfold Dt.isoformat. apply append_not_empty_l, strftime_not_empty. Qed.

Lemma syslog_guess_level_not_empty (msg : string) :
  parser_linux.guess_level msg <> "".
Proof.
  unfold parser_linux.guess_level.
  repeat match goal with |- context [if ?b then _ else _] => destruct b end;
    discriminate.
Qed.

Lemma zabbix_guess_level_not_empty (msg : string) :
  parser_zabbix_server.guess_level msg <> "".
Proof.
  unfold parser_zabbix_server.guess_level.
  repeat match goal with |- context [if ?b then _ else _] => destruct b end;
    discriminate.
Qed.

Lemma cli_guess_level_not_empty (line : string) :
  cli._guess_level_from_line line <> "".
Proof.
  unfold cli._guess_level_from_line.
  repeat match goal with |- context [if ?b then _ else _] => destruct b end;
    discriminate.
Qed.

Lemma classify_not_empty (line : string) :
  models.classify models.level_patterns "INFO" line <> "".
Proof.
  rewrite classify_order.
  repeat match goal with |- context [if ?b then _ else _] => destruct b end;
    discriminate.
Qed.

(** What the syslog parser returns has a timestamp, a level and a host. *)
Lemma parse_syslog_line_fields (line : string) (year : option N)
    (now : Dt.datetime) (p : parsed) :
  parser_linux.parse_syslog_line line year now = Ok (Some p) ->
  p_timestamp p <> "" /\ p_level p <> "" /\ p_host p <> "".
Proof.
  unfold parser_linux.parse_syslog_line.
  destruct (Re.re_match _ line) as [m|] eqn:Em; [|discriminate].
  destruct (Dt.strptime _ _) as [dt|]; [|discriminate].
  intros H; injection H as <-. cbn [p_timestamp p_level p_host].
  split; [apply isoformat_not_empty|].
  split; [apply syslog_guess_level_not_empty|].
  eapply ReFacts.group_not_empty; [exact Em | reflexivity].
Qed.

(** What the Zabbix server parser returns has a timestamp and a level, and
    the host alias of the caller. *)
Lemma parse_zabbix_server_line_fields (line host : string)
    (now : Dt.datetime) (p : parsed) :
  parser_zabbix_server.parse_zabbix_server_line line host now = Ok (Some p) ->
  p_timestamp p <> "" /\ p_level p <> "" /\ p_host p = host.
Proof.
  unfold parser_zabbix_server.parse_zabbix_server_line.
  destruct (Re.re_match _ _) as [m|].
  - destruct (Dt.make _ _ _ _ _ _) as [dt|]; [|discriminate].
    intros H; injection H as <-. cbn [p_timestamp p_level p_host].
    split; [apply isoformat_not_empty|].
    split; [apply zabbix_guess_level_not_empty | reflexivity].
  - intros H; injection H as <-. cbn [p_timestamp p_level p_host].
    split; [apply isoformat_not_empty|].
    split; [apply zabbix_guess_level_not_empty | reflexivity].
Qed.

(** What the PHP parser returns has a timestamp, a level and the three
    cause fields. *)
Lemma parse_php_error_line_fields (line : string) (now : Dt.datetime)
    (p : models.php_parsed) :
  models.parse_php_error_line line now = Some p ->
  models.php_timestamp p <> "" /\ models.php_level p <> "" /\
  models.php_cause_group p <> None /\ models.php_cause_reason p <> None /\
  models.php_cause_action p <> None.
Proof.
  unfold models.parse_php_error_line.
  destruct (Re.re_match _ line) as [m|]; [|discriminate].
  cbv zeta.
  assert (Ht : match Dt.strptime (Re.group m models.g_ts) "%d-%b-%Y %H:%M:%S" with
               | Ok dt => Dt.strftime dt
               | Raise _ => models.datetime_utc_now now
               end <> "").
  { destruct (Dt.strptime _ _); apply strftime_not_empty. }
  assert (Hl : (if Str.contains "fatal" (Str.lower (Re.group m models.g_php_level))
                   || Str.contains "error" (Str.lower (Re.group m models.g_php_level))
                then "ERROR"
                else if Str.contains "warning" (Str.lower (Re.group m models.g_php_level))
                then "WARNING"
                else if Str.contains "notice" (Str.lower (Re.group m models.g_php_level))
                then "WARNING" else "INFO") <> "").
  { repeat match goal with |- context [if ?b then _ else _] => destruct b end;
      discriminate. }
  destruct (Str.contains "curl error" _ || Re.found _);
    [destruct (truthy _ && truthy _)|];
    intros H; injection H as <-;
    cbn [models.php_timestamp models.php_level models.php_cause_group
         models.php_cause_reason models.php_cause_action];
    repeat split; try assumption; discriminate.
Qed.

Lemma persists_refl (P : LogRecord -> Prop) (d : db) : persists P d d.
Proof. exists []. split; [now rewrite app_nil_r | constructor]. Qed.

Lemma persists_step (P : LogRecord -> Prop) (d d' : db) (r : LogRecord) :
  P r -> persists P (d ++ [r])%list d' -> persists P d d'.
Proof.
  intros Hr (added & E & Ha). exists (r :: added). split.
  - rewrite E, <- app_assoc. reflexivity.
  - now constructor.
Qed.

Lemma ingest_syslog_loop_persists (lines : list string)
    (clock : nat -> Dt.datetime) :
  forall i count d,
    persists Spec.record_invariant_but_message d
      (snd (ingest.ingest_syslog_loop lines i count clock d)).
Proof.
  induction lines as [|line t IH]; intros i count d; simpl.
  - apply persists_refl.
  - destruct (parser_linux.parse_syslog_line _ _ _) as [[p|]|e] eqn:E; simpl.
    + apply parse_syslog_line_fields in E. destruct E as (Ht & Hl & Hh).
      eapply persists_step; [|apply IH].
      repeat split; try assumption. left. repeat split.
    + apply IH.
    + apply persists_refl.
Qed.

Lemma ingest_zabbix_server_loop_persists (lines : list string) (host : string)
    (clock : nat -> Dt.datetime) :
  host <> "" ->
  forall i count d,
    persists Spec.record_invariant_but_message d
      (snd (ingest.ingest_zabbix_server_loop lines host i count clock d)).
Proof.
  intros Hhost.
  induction lines as [|line t IH]; intros i count d; simpl.
  - apply persists_refl.
  - destruct (parser_zabbix_server.parse_zabbix_server_line _ _ _) as [[p|]|e] eqn:E;
      simpl.
    + apply parse_zabbix_server_line_fields in E. destruct E as (Ht & Hl & Hh).
      eapply persists_step; [|apply IH].
      repeat split; try assumption; [now rewrite Hh | left; repeat split].
    + apply IH.
    + apply persists_refl.
Qed.

Lemma ingest_plaintext_line_persists (decode : list Byte.byte -> string)
    (raw : models.data) (source default_host : string) (now : Dt.datetime)
    (d : db) :
  default_host <> "" ->
  persists Spec.record_invariant_but_message d
    (models.ingest_plaintext_line decode raw source default_host now d).
Proof.
  intros Hhost. rewrite upload_line_unfold. cbv zeta.
  destruct (Str.is_empty _); [apply persists_refl|].
  destruct (models.parse_php_error_line _ _) as [php|] eqn:E.
  - apply parse_php_error_line_fields in E.
    destruct E as (Ht & Hl & Hg & Hr & Ha).
    eapply persists_step; [|apply persists_refl].
    repeat split; try assumption. right. repeat split; assumption.
  - eapply persists_step; [|apply persists_refl].
    split; [|split; [apply classify_not_empty|split; [assumption|]]].
    + cbn [timestamp].
      destruct (Re.re_match models.ts_regex _) as [m|] eqn:Em.
      * eapply ReFacts.group_not_empty; [exact Em | reflexivity].
      * apply strftime_not_empty.
    + left. repeat split.
Qed.

Lemma persists_trans (P : LogRecord -> Prop) (d1 d2 d3 : db) :
  persists P d1 d2 -> persists P d2 d3 -> persists P d1 d3.
Proof.
  intros (a & Ea & Ha) (b & Eb & Hb). exists (a ++ b)%list. split.
  - rewrite Eb, Ea, app_assoc. reflexivity.
  - apply Forall_app. now split.
Qed.

Lemma ingest_plaintext_loop_persists (decode : list Byte.byte -> string)
    (raws : list models.data) (source default_host : string)
    (clock : nat -> Dt.datetime) :
  default_host <> "" ->
  forall i d,
    persists Spec.record_invariant_but_message d
      (models.ingest_plaintext_loop decode raws i source default_host clock d).
Proof.
  intros Hhost.
  induction raws as [|raw t IH]; intros i d; simpl.
  - apply persists_refl.
  - eapply persists_trans; [|apply IH].
    now apply ingest_plaintext_line_persists.
Qed.

Lemma cli_syslog_loop_persists (lines : list string) (default_host : string)
    (clock : nat -> Dt.datetime) :
  default_host <> "" ->
  forall i count d,
    persists Spec.record_invariant d
      (snd (cli.ingest_syslog_file_loop lines default_host i count clock d)).
Proof.
  intros Hhost.
  induction lines as [|line t IH]; intros i count d; simpl.
  - apply persists_refl.
  - destruct (Str.is_empty (Str.rstrip_nl line)) eqn:E; [apply IH|].
    eapply persists_step; [|apply IH].
    apply is_empty_false in E.
    repeat split; try assumption; try discriminate;
      [apply strftime_not_empty | left; repeat split].
Qed.

Lemma cli_zabbix_loop_persists (lines : list string) (host_alias : string)
    (clock : nat -> Dt.datetime) :
  host_alias <> "" ->
  forall i count d,
    persists Spec.record_invariant d
      (snd (cli.ingest_zabbix_server_log_loop lines host_alias i count clock d)).
Proof.
  intros Hhost.
  induction lines as [|line t IH]; intros i count d; simpl.
  - apply persists_refl.
  - destruct (Str.is_empty (Str.rstrip_nl line)) eqn:E; [apply IH|].
    eapply persists_step; [|apply IH].
    apply is_empty_false in E.
    repeat split; try assumption;
      [apply strftime_not_empty | apply cli_guess_level_not_empty
      | left; repeat split].
Qed.

(** C2, as stated, fails: a line that ends after its structural fields is
    stored with an empty message (here the upload path stores the line
    "2024-01-01 10:00:00"), and the host of a record is the alias of the
    caller, empty when the caller gives an empty one. *)
Lemma C2_message_may_be_empty :
  ~ (forall r,
       In r (models.ingest_plaintext_log Samples.decode_ascii
               [models.Text "2024-01-01 10:00:00"] "upload:app.log"
               "upload-host" (fun _ => Samples.instant) []) ->
       Spec.record_invariant r) /\
  ~ (forall r,
       In r (snd (ingest.ingest_zabbix_server
                    (Some ["  1376:20241127:153045.123: server started"]) ""
                    (fun _ => Samples.instant) [])) ->
       Spec.record_invariant r).
Proof.
  split; intros H.
  - assert (E : models.ingest_plaintext_log Samples.decode_ascii
                 [models.Text "2024-01-01 10:00:00"] "upload:app.log"
                 "upload-host" (fun _ => Samples.instant) [] =
                [mkLog "2024-01-01 10:00:00" "upload:app.log" "INFO"
                       "upload-host" "" None None None])
      by (vm_compute; reflexivity).
    rewrite E in H.
    destruct (H _ (or_introl eq_refl)) as (_ & _ & _ & Hm & _).
    now apply Hm.
  - assert (E : snd (ingest.ingest_zabbix_server
                    (Some ["  1376:20241127:153045.123: server started"]) ""
                    (fun _ => Samples.instant) []) =
                [mkLog "2024-11-27 15:30:45" "zabbix_server" "INFO" ""
                       "server started" None None None])
      by (vm_compute; reflexivity).
    rewrite E in H.
    destruct (H _ (or_introl eq_refl)) as (_ & _ & Hh & _).
    now apply Hh.
Qed.

(** C2 (amended). Every record an ingestion path persists has a non-empty
    timestamp and a non-empty level, has a non-empty host when the host
    alias the caller gives is not empty (the host token of a syslog line
    never is), and has its three cause fields all present or all absent;
    the message is the stripped remainder of the line and may be empty,
    except on the two ingestion functions of the command line, which
    store the whole non-empty line. *)
Theorem C2_persisted_record_invariant (host : string) (d : db) :
  host <> "" ->
  (forall f clock,
     persists Spec.record_invariant_but_message d
       (snd (ingest.ingest_syslog f clock d))) /\
  (forall f clock,
     persists Spec.record_invariant_but_message d
       (snd (ingest.ingest_zabbix_server f host clock d))) /\
  (forall decode raws source clock,
     persists Spec.record_invariant_but_message d
       (models.ingest_plaintext_log decode raws source host clock d)) /\
  (forall f clock,
     persists Spec.record_invariant d
       (snd (cli.ingest_syslog_file f host clock d))) /\
  (forall f clock,
     persists Spec.record_invariant d
       (snd (cli.ingest_zabbix_server_log f host clock d))).
Proof.
  intros Hhost. split; [|split; [|split; [|split]]].
  - intros [lines|] clock; simpl;
      [apply ingest_syslog_loop_persists | apply persists_refl].
  - intros [lines|] clock; simpl;
      [now apply ingest_zabbix_server_loop_persists | apply persists_refl].
  - intros. now apply ingest_plaintext_loop_persists.
  - intros [lines|] clock; unfold cli.ingest_syslog_file;
      [|apply persists_refl].
    pose proof (cli_syslog_loop_persists lines host clock Hhost 0 0 d) as H.
    destruct (cli.ingest_syslog_file_loop _ _ _ _ _ _). exact H.
  - intros [lines|] clock; unfold cli.ingest_zabbix_server_log;
      [|apply persists_refl].
    pose proof (cli_zabbix_loop_persists lines host clock Hhost 0 0 d) as H.
    destruct (cli.ingest_zabbix_server_log_loop _ _ _ _ _ _). exact H.
Qed.

Lemma C2_persisted_record_invariant_witness :
  "upload-host" <> "" /\
  persists Spec.record_invariant_but_message []
    (models.ingest_plaintext_log Samples.decode_ascii
       [models.Text "2024-01-01 10:00:00"; models.Text Samples.curl_line]
       "upload:app.log" "upload-host" (fun _ => Samples.instant) []).
Proof.
  assert (H : "upload-host" <> "") by discriminate.
  split; [exact H|].
  exact (proj1 (proj2 (proj2 (C2_persisted_record_invariant "upload-host" [] H)))
           Samples.decode_ascii
           [models.Text "2024-01-01 10:00:00"; models.Text Samples.curl_line]
           "upload:app.log" (fun _ => Samples.instant)).
Defined.

(* ================================================================== *)
(** * Further properties of the code *)
(* ================================================================== *)

(** ** Order on text, sorting *)

Lemma ascii_compare_refl (a : ascii) : Ascii.compare a a = Eq.
Proof. unfold Ascii.compare. apply N.compare_refl. Qed.

Lemma ascii_compare_lt_trans (a b c : ascii) :
  Ascii.compare a b = Lt -> Ascii.compare b c = Lt -> Ascii.compare a c = Lt.
Proof.
  unfold Ascii.compare. rewrite !N.compare_lt_iff. apply N.lt_trans.
Qed.

Lemma string_compare_refl (s : string) : String.compare s s = Eq.
Proof.
  induction s as [|c s IH]; simpl; [reflexivity|].
  now rewrite ascii_compare_refl.
Qed.

Lemma string_compare_lt_trans (a : string) :
  forall b c, String.compare a b = Lt -> String.compare b c = Lt ->
              String.compare a c = Lt.
Proof.
  induction a as [|x a IH]; intros [|y b] [|z c]; simpl; try discriminate; auto.
  destruct (Ascii.compare x y) eqn:Exy; try discriminate;
    destruct (Ascii.compare y z) eqn:Eyz; try discriminate; intros H1 H2.
  - apply Ascii.compare_eq_iff in Exy, Eyz. subst.
    rewrite ascii_compare_refl. eauto.
  - apply Ascii.compare_eq_iff in Exy. subst. now rewrite Eyz.
  - apply Ascii.compare_eq_iff in Eyz. subst. now rewrite Exy.
  - now rewrite (ascii_compare_lt_trans x y z).
Qed.

Lemma string_leb_cases (a b : string) :
  String.leb a b = true <-> String.compare a b = Lt \/ a = b.
Proof.
  unfold String.leb. split.
  - destruct (String.compare a b) eqn:E; try discriminate; intros _.
    + right. now apply String.compare_eq_iff.
    + now left.
  - intros [H | ->]; [now rewrite H | now rewrite string_compare_refl].
Qed.

Lemma string_leb_trans (a b c : string) :
  String.leb a b = true -> String.leb b c = true -> String.leb a c = true.
Proof.
  rewrite !string_leb_cases. intros [H1 | ->] [H2 | ->]; auto.
  left. eapply string_compare_lt_trans; eauto.
Qed.

Section SortFacts.
Context {A : Type}.
Variable le : A -> A -> bool.
Hypothesis le_total : forall x y, le x y = true \/ le y x = true.
Hypothesis le_trans : forall x y z, le x y = true -> le y z = true -> le x z = true.

Lemma insert_sorted_perm (x : A) (l : list A) :
  Permutation (analyzer.insert_sorted le x l) (x :: l).
Proof.
  induction l as [|y t IH]; simpl; [reflexivity|].
  destruct (le x y); [reflexivity|].
  rewrite IH. apply perm_swap.
Qed.

Lemma order_by_perm (l : list A) : Permutation (analyzer.order_by le l) l.
Proof.
  induction l as [|x t IH]; simpl; [reflexivity|].
  unfold analyzer.order_by in *. simpl.
  rewrite insert_sorted_perm. now constructor.
Qed.

Lemma insert_sorted_sorted (x : A) (l : list A) :
  StronglySorted (fun a b => le a b = true) l ->
  StronglySorted (fun a b => le a b = true) (analyzer.insert_sorted le x l).
Proof.
  induction 1 as [|y t Hs IH Hy]; simpl.
  - constructor; constructor.
  - destruct (le x y) eqn:E.
    + constructor; [constructor; assumption|].
      constructor; [assumption|].
      eapply Forall_impl; [|exact Hy]. intros z Hz. eauto.
    + constructor; [assumption|].
      assert (Hyx : le y x = true) by (destruct (le_total x y); congruence).
      eapply Permutation_Forall; [symmetry; apply insert_sorted_perm|].
      constructor; assumption.
Qed.

Lemma order_by_sorted (l : list A) :
  StronglySorted (fun a b => le a b = true) (analyzer.order_by le l).
Proof.
  induction l as [|x t IH]; [constructor|].
  unfold analyzer.order_by in *. simpl. now apply insert_sorted_sorted.
Qed.
End SortFacts.

Lemma in_firstn {A : Type} (n : nat) (l : list A) (x : A) :
  In x (firstn n l) -> In x l.
Proof.
  intros H. rewrite <- (firstn_skipn n l). apply in_or_app. now left.
Qed.

Lemma in_skipn {A : Type} (n : nat) (l : list A) (x : A) :
  In x (skipn n l) -> In x l.
Proof.
  intros H. rewrite <- (firstn_skipn n l). apply in_or_app. now right.
Qed.

Lemma limit_rows_length {A : Type} (n : Z) (l : list A) :
  (0 <= n)%Z -> List.length (analyzer.limit_rows n l) <= Z.to_nat n.
Proof.
  intros H. unfold analyzer.limit_rows.
  destruct (n <? 0)%Z eqn:E; [apply Z.ltb_lt in E; lia|].
  rewrite length_firstn. lia.
Qed.

Lemma limit_rows_incl {A : Type} (n : Z) (l : list A) (x : A) :
  In x (analyzer.limit_rows n l) -> In x l.
Proof.
  unfold analyzer.limit_rows. destruct (n <? 0)%Z; [auto|].
  apply in_firstn.
Qed.

Lemma limit_rows_sorted {A : Type} (R : A -> A -> Prop) (n : Z) (l : list A) :
  StronglySorted R l -> StronglySorted R (analyzer.limit_rows n l).
Proof.
  unfold analyzer.limit_rows. destruct (n <? 0)%Z; [auto|].
  generalize (Z.to_nat n). intros k H. revert k.
  induction H as [|x t Hs IH Hx]; intros [|k]; simpl; try constructor.
  - apply IH.
  - apply Forall_forall. intros y Hy. apply in_firstn in Hy.
    rewrite Forall_forall in Hx. auto.
Qed.

Lemma limit_rows_all {A : Type} (n : Z) (l : list A) :
  (n < 0 \/ Z.of_nat (List.length l) <= n)%Z -> analyzer.limit_rows n l = l.
Proof.
  unfold analyzer.limit_rows. intros H.
  destruct (n <? 0)%Z eqn:E; [reflexivity|].
  apply Z.ltb_ge in E. apply firstn_all2. lia.
Qed.

(* ================================================================== *)
(** ** [_build_where]: what the built condition selects *)
(* ================================================================== *)

Lemma add_clause_shape (o : option string) (clause : string)
    (value : string -> string) (w p : list string) :
  analyzer.add_clause o clause value (w, p) =
  ((w ++ clause_of o clause)%list, (p ++ param_of o value)%list).
Proof.
  unfold analyzer.add_clause, clause_of, param_of.
  destruct o as [v|]; simpl; [|now rewrite !app_nil_r].
  destruct (negb (Str.is_empty v)); simpl; [reflexivity | now rewrite !app_nil_r].
Qed.

Lemma build_where_shape (lv ct ho so si un : option string) :
  analyzer._build_where lv ct ho so si un =
  (analyzer.join " AND "
     ("1=1" :: clause_of lv "level = ?" ++ clause_of ct "message LIKE ?" ++
      clause_of ho "host = ?" ++ clause_of so "source = ?" ++
      clause_of si "timestamp >= ?" ++ clause_of un "timestamp <= ?")%list,
   (param_of lv (fun v => v) ++ param_of ct (fun v => ("%" ++ v ++ "%")%string) ++
    param_of ho (fun v => v) ++ param_of so (fun v => v) ++
    param_of si (fun v => v) ++ param_of un (fun v => v))%list).
Proof.
  unfold analyzer._build_where. cbv zeta.
  rewrite !add_clause_shape. cbn [fst snd].
  rewrite <- !app_assoc. reflexivity.
Qed.

(** Cutting the text of a condition at its [" AND "] gives back the
    clauses it was joined from. *)
Lemma split_join_clauses (b1 b2 b3 b4 b5 b6 : bool) :
  let l := ("1=1" :: (if b1 then ["level = ?"] else []) ++
            (if b2 then ["message LIKE ?"] else []) ++
            (if b3 then ["host = ?"] else []) ++
            (if b4 then ["source = ?"] else []) ++
            (if b5 then ["timestamp >= ?"] else []) ++
            (if b6 then ["timestamp <= ?"] else []))%list in
  analyzer.split_and 0 "" (analyzer.join " AND " l) = l.
Proof.
  destruct b1, b2, b3, b4, b5, b6; vm_compute; reflexivity.
Qed.

Lemma eval_level_clause (o : option string) (cs ps : list string) (r : LogRecord) :
  analyzer.eval_conjuncts (clause_of o "level = ?" ++ cs)%list
    (param_of o (fun v => v) ++ ps)%list r =
  option_map (andb (criterion o (fun v => String.eqb (level r) v)))
    (analyzer.eval_conjuncts cs ps r).
Proof.
  unfold clause_of, param_of, criterion, truthy.
  destruct o as [v|]; [destruct (Str.is_empty v)|];
    cbn [negb app analyzer.eval_conjuncts];
    unfold analyzer.eval_conjunct; cbn [String.eqb Ascii.eqb Bool.eqb];
    destruct (analyzer.eval_conjuncts cs ps r); reflexivity.
Qed.

Lemma eval_like_clause (o : option string) (cs ps : list string) (r : LogRecord) :
  analyzer.eval_conjuncts (clause_of o "message LIKE ?" ++ cs)%list
    (param_of o (fun v => ("%" ++ v ++ "%")%string) ++ ps)%list r =
  option_map
    (andb (criterion o (fun v => analyzer.like ("%" ++ v ++ "%") (message r))))
    (analyzer.eval_conjuncts cs ps r).
Proof.
  unfold clause_of, param_of, criterion, truthy.
  destruct o as [v|]; [destruct (Str.is_empty v)|];
    cbn [negb app analyzer.eval_conjuncts];
    unfold analyzer.eval_conjunct; cbn [String.eqb Ascii.eqb Bool.eqb];
    destruct (analyzer.eval_conjuncts cs ps r); reflexivity.
Qed.

Lemma eval_host_clause (o : option string) (cs ps : list string) (r : LogRecord) :
  analyzer.eval_conjuncts (clause_of o "host = ?" ++ cs)%list
    (param_of o (fun v => v) ++ ps)%list r =
  option_map (andb (criterion o (fun v => String.eqb (host r) v)))
    (analyzer.eval_conjuncts cs ps r).
Proof.
  unfold clause_of, param_of, criterion, truthy.
  destruct o as [v|]; [destruct (Str.is_empty v)|];
    cbn [negb app analyzer.eval_conjuncts];
    unfold analyzer.eval_conjunct; cbn [String.eqb Ascii.eqb Bool.eqb];
    destruct (analyzer.eval_conjuncts cs ps r); reflexivity.
Qed.

Lemma eval_source_clause (o : option string) (cs ps : list string) (r : LogRecord) :
  analyzer.eval_conjuncts (clause_of o "source = ?" ++ cs)%list
    (param_of o (fun v => v) ++ ps)%list r =
  option_map (andb (criterion o (fun v => String.eqb (source r) v)))
    (analyzer.eval_conjuncts cs ps r).
Proof.
  unfold clause_of, param_of, criterion, truthy.
  destruct o as [v|]; [destruct (Str.is_empty v)|];
    cbn [negb app analyzer.eval_conjuncts];
    unfold analyzer.eval_conjunct; cbn [String.eqb Ascii.eqb Bool.eqb];
    destruct (analyzer.eval_conjuncts cs ps r); reflexivity.
Qed.

Lemma eval_since_clause (o : option string) (cs ps : list string) (r : LogRecord) :
  analyzer.eval_conjuncts (clause_of o "timestamp >= ?" ++ cs)%list
    (param_of o (fun v => v) ++ ps)%list r =
  option_map (andb (criterion o (fun v => String.leb v (timestamp r))))
    (analyzer.eval_conjuncts cs ps r).
Proof.
  unfold clause_of, param_of, criterion, truthy.
  destruct o as [v|]; [destruct (Str.is_empty v)|];
    cbn [negb app analyzer.eval_conjuncts];
    unfold analyzer.eval_conjunct; cbn [String.eqb Ascii.eqb Bool.eqb];
    destruct (analyzer.eval_conjuncts cs ps r); reflexivity.
Qed.

Lemma eval_until_clause (o : option string) (cs ps : list string) (r : LogRecord) :
  analyzer.eval_conjuncts (clause_of o "timestamp <= ?" ++ cs)%list
    (param_of o (fun v => v) ++ ps)%list r =
  option_map (andb (criterion o (fun v => String.leb (timestamp r) v)))
    (analyzer.eval_conjuncts cs ps r).
Proof.
  unfold clause_of, param_of, criterion, truthy.
  destruct o as [v|]; [destruct (Str.is_empty v)|];
    cbn [negb app analyzer.eval_conjuncts];
    unfold analyzer.eval_conjunct; cbn [String.eqb Ascii.eqb Bool.eqb];
    destruct (analyzer.eval_conjuncts cs ps r); reflexivity.
Qed.

Lemma build_where_eval (lv ct ho so si un : option string) (r : LogRecord) :
  let w := analyzer._build_where lv ct ho so si un in
  analyzer.eval_where (fst w) (snd w) r = Some (meets lv ct ho so si un r).
Proof.
  cbv zeta. rewrite build_where_shape. cbn [fst snd].
  unfold analyzer.eval_where.
  unfold clause_of at 1 2 3 4 5 6.
  rewrite (split_join_clauses (truthy lv) (truthy ct) (truthy ho) (truthy so)
             (truthy si) (truthy un)).
  fold (clause_of lv "level = ?") (clause_of ct "message LIKE ?")
       (clause_of ho "host = ?") (clause_of so "source = ?")
       (clause_of si "timestamp >= ?") (clause_of un "timestamp <= ?").
  change (analyzer.eval_conjuncts ("1=1" :: ?c) ?p r)
    with (match analyzer.eval_conjuncts c p r with
          | None => None | Some b' => Some (true && b') end).
  rewrite eval_level_clause, eval_like_clause, eval_host_clause,
    eval_source_clause, eval_since_clause.
  rewrite <- (app_nil_r (clause_of un "timestamp <= ?")).
  rewrite <- (app_nil_r (param_of un (fun v => v))).
  rewrite eval_until_clause. reflexivity.
Qed.

Lemma select_meets (lv ct ho so si un : option string) (d : db) :
  analyzer.select (fst (analyzer._build_where lv ct ho so si un))
                  (snd (analyzer._build_where lv ct ho so si un)) d =
  filter (meets lv ct ho so si un) d.
Proof.
  unfold analyzer.select. apply filter_ext. intros r.
  pose proof (build_where_eval lv ct ho so si un r) as H. cbv zeta in H.
  now rewrite H.
Qed.


(* ================================================================== *)
(** ** Aggregation: [GROUP BY] with counts *)
(* ================================================================== *)

Lemma bump_lookup (k k' : string) (g : list (string * nat)) :
  cli.dict_lookup (analyzer.bump k g) k' =
  if String.eqb k k' then Some (S (count_of g k')) else cli.dict_lookup g k'.
Proof.
  unfold count_of. induction g as [|[a n] t IH]; simpl.
  - reflexivity.
  - destruct (String.eqb k a) eqn:Eka; simpl.
    + apply String.eqb_eq in Eka. subst a.
      destruct (String.eqb k k'); reflexivity.
    + rewrite IH. destruct (String.eqb a k') eqn:Eak.
      * apply String.eqb_eq in Eak. subst a. now rewrite Eka.
      * reflexivity.
Qed.

Lemma bump_keys (k x : string) (g : list (string * nat)) :
  In x (List.map fst (analyzer.bump k g)) -> x = k \/ In x (List.map fst g).
Proof.
  induction g as [|[a n] t IH]; simpl.
  - intros [H | []]; auto.
  - destruct (String.eqb k a); simpl; intros [H | H]; auto.
    destruct (IH H); auto.
Qed.

Lemma bump_nodup (k : string) (g : list (string * nat)) :
  NoDup (List.map fst g) -> NoDup (List.map fst (analyzer.bump k g)).
Proof.
  induction g as [|[a n] t IH]; simpl; intros H.
  - constructor; [intros [] | constructor].
  - inversion H as [|? ? Hn Ht]; subst.
    destruct (String.eqb k a) eqn:E; simpl.
    + now constructor.
    + constructor; [|auto].
      intros Hin. apply bump_keys in Hin. destruct Hin as [-> | Hin]; auto.
      now rewrite String.eqb_refl in E.
Qed.

Lemma bump_positive (k : string) (g : list (string * nat)) :
  Forall (fun kv => 1 <= snd kv) g ->
  Forall (fun kv => 1 <= snd kv) (analyzer.bump k g).
Proof.
  induction 1 as [|[a n] t Ha Ht IH]; simpl.
  - constructor; [simpl; lia | constructor].
  - destruct (String.eqb k a); constructor; simpl in *; auto; lia.
Qed.

Lemma fold_bump_facts (key : LogRecord -> string) (d : db) :
  forall g,
    NoDup (List.map fst g) -> Forall (fun kv => 1 <= snd kv) g ->
    let g' := fold_left (fun g r => analyzer.bump (key r) g) d g in
    NoDup (List.map fst g') /\ Forall (fun kv => 1 <= snd kv) g' /\
    forall k, count_of g' k = count_of g k + rows_with key k d.
Proof.
  unfold rows_with.
  induction d as [|r t IH]; simpl; intros g Hn Hp.
  - repeat split; auto.
  - destruct (IH (analyzer.bump (key r) g)) as (Hn' & Hp' & Hc).
    + now apply bump_nodup.
    + now apply bump_positive.
    + repeat split; auto. intros k. rewrite Hc.
      unfold count_of at 1. rewrite bump_lookup.
      destruct (String.eqb (key r) k); simpl; [lia | reflexivity].
Qed.

Lemma lookup_in (g : list (string * nat)) (k : string) (n : nat) :
  NoDup (List.map fst g) -> In (k, n) g -> cli.dict_lookup g k = Some n.
Proof.
  induction g as [|[a m] t IH]; simpl; intros Hn H; [contradiction|].
  destruct H as [H | H].
  - injection H as -> ->. now rewrite String.eqb_refl.
  - inversion Hn as [|? ? Ha Ht]; subst.
    destruct (String.eqb a k) eqn:E; [|auto].
    apply String.eqb_eq in E. subst a. exfalso. apply Ha.
    change k with (fst (k, n)). now apply in_map.
Qed.

Lemma in_lookup (g : list (string * nat)) (k : string) (n : nat) :
  cli.dict_lookup g k = Some n -> In (k, n) g.
Proof.
  induction g as [|[a m] t IH]; simpl; [discriminate|].
  destruct (String.eqb a k) eqn:E.
  - apply String.eqb_eq in E. subst a. intros H; injection H as ->. now left.
  - auto.
Qed.

(** The aggregation lists each key once, with the exact number of its
    rows, and lists no key without rows. *)
Lemma group_count_exact (key : LogRecord -> string) (d : db) :
  NoDup (List.map fst (analyzer.group_count key d)) /\
  forall k n, In (k, n) (analyzer.group_count key d) <->
              (n = rows_with key k d /\ 1 <= n).
Proof.
  destruct (fold_bump_facts key d [] (NoDup_nil _) (Forall_nil _))
    as (Hn & Hp & Hc).
  fold (analyzer.group_count key d) in Hn, Hp, Hc. cbv zeta in Hc.
  split; [exact Hn|]. intros k n. split.
  - intros Hin. split.
    + specialize (Hc k). unfold count_of in Hc at 1.
      rewrite (lookup_in _ _ _ Hn Hin) in Hc. exact Hc.
    + rewrite Forall_forall in Hp. exact (Hp _ Hin).
  - intros [-> Hpos]. apply in_lookup.
    specialize (Hc k). unfold count_of in Hc. simpl in Hc.
    destruct (cli.dict_lookup (analyzer.group_count key d) k) as [m|];
      [now subst | lia].
Qed.

Lemma sum_counts_perm (g g' : list (string * nat)) :
  Permutation g g' -> sum_counts g = sum_counts g'.
Proof.
  unfold sum_counts. induction 1; simpl; lia.
Qed.

Lemma bump_sum (k : string) (g : list (string * nat)) :
  sum_counts (analyzer.bump k g) = S (sum_counts g).
Proof.
  unfold sum_counts. induction g as [|[a n] t IH]; simpl; [reflexivity|].
  destruct (String.eqb k a); simpl; [reflexivity | rewrite IH; lia].
Qed.

Lemma group_count_sum (key : LogRecord -> string) (d : db) :
  sum_counts (analyzer.group_count key d) = List.length d.
Proof.
  unfold analyzer.group_count.
  assert (H : forall g, sum_counts (fold_left (fun g r => analyzer.bump (key r) g) d g)
                        = sum_counts g + List.length d).
  { induction d as [|r t IH]; simpl; intros g; [lia|].
    rewrite IH, bump_sum. lia. }
  now rewrite H.
Qed.

Lemma by_count_desc_total (x y : string * nat) :
  analyzer.by_count_desc x y = true \/ analyzer.by_count_desc y x = true.
Proof.
  unfold analyzer.by_count_desc.
  destruct (Nat.leb_spec (snd y) (snd x)); [now left|].
  right. apply Nat.leb_le. lia.
Qed.

Lemma by_count_desc_trans (x y z : string * nat) :
  analyzer.by_count_desc x y = true -> analyzer.by_count_desc y z = true ->
  analyzer.by_count_desc x z = true.
Proof.
  unfold analyzer.by_count_desc. rewrite !Nat.leb_le. lia.
Qed.

Lemma count_sorted (l : list (string * nat)) :
  StronglySorted (fun a b => analyzer.by_count_desc a b = true) l ->
  StronglySorted (fun a b => snd b <= snd a) l.
Proof.
  induction 1 as [|x t Hs IH Hx]; constructor; auto.
  eapply Forall_impl; [|exact Hx]. intros y Hy.
  unfold analyzer.by_count_desc in Hy. now apply Nat.leb_le.
Qed.

(** The ranking of an aggregation: the groups of [d] by [key], the largest
    first, cut at [limit]. *)
Lemma ranking_facts (key : LogRecord -> string) (limit : Z) (d : db) :
  let res := analyzer.limit_rows limit
               (analyzer.order_by analyzer.by_count_desc
                  (analyzer.group_count key d)) in
  (forall k n, In (k, n) res -> n = rows_with key k d /\ 1 <= n) /\
  NoDup (List.map fst res) /\
  StronglySorted (fun a b => snd b <= snd a) res /\
  ((0 <= limit)%Z -> List.length res <= Z.to_nat limit) /\
  ((limit < 0)%Z ->
     sum_counts res = List.length d /\
     forall k, 1 <= rows_with key k d -> In (k, rows_with key k d) res) /\
  (forall k n rest, res = (k, n) :: rest -> forall k', rows_with key k' d <= n).
Proof.
  cbv zeta.
  destruct (group_count_exact key d) as (Hn & Hex).
  pose proof (order_by_perm analyzer.by_count_desc (analyzer.group_count key d)) as Hperm.
  pose proof (order_by_sorted analyzer.by_count_desc by_count_desc_total
                by_count_desc_trans (analyzer.group_count key d)) as Hsort.
  set (sorted := analyzer.order_by analyzer.by_count_desc
                   (analyzer.group_count key d)) in *.
  assert (Hsort' : StronglySorted (fun a b => snd b <= snd a) sorted).
  { clear -Hsort. induction Hsort as [|x t Hs IH Hx]; constructor; auto.
    eapply Forall_impl; [|exact Hx]. intros y Hy.
    unfold analyzer.by_count_desc in Hy. now apply Nat.leb_le. }
  assert (Hin : forall kv, In kv sorted <-> In kv (analyzer.group_count key d)).
  { intros kv. split; apply Permutation_in; [exact Hperm | now symmetry]. }
  split; [|split; [|split; [|split; [|split]]]].
  - intros k n H. apply limit_rows_incl in H. apply Hin in H. now apply Hex.
  - assert (Hnd : NoDup (List.map fst sorted)).
    { eapply Permutation_NoDup; [|exact Hn].
      apply Permutation_map. now symmetry. }
    unfold analyzer.limit_rows. destruct (limit <? 0)%Z; [exact Hnd|].
    rewrite <- firstn_map.
    rewrite <- (firstn_skipn (Z.to_nat limit) (List.map fst sorted)) in Hnd.
    now apply NoDup_app_remove_r in Hnd.
  - now apply limit_rows_sorted.
  - apply limit_rows_length.
  - intros Hl. rewrite limit_rows_all by now left. split.
    + rewrite (sum_counts_perm _ _ Hperm). apply group_count_sum.
    + intros k Hk. apply Hin. apply Hex. auto.
  - intros k n rest E k'.
    assert (Hhead : exists rest', sorted = (k, n) :: rest').
    { unfold analyzer.limit_rows in E. destruct (limit <? 0)%Z; [eauto|].
      destruct sorted as [|x t]; [now rewrite firstn_nil in E|].
      destruct (Z.to_nat limit); [discriminate|].
      simpl in E. injection E as -> _. eauto. }
    destruct Hhead as (rest' & Es).
    destruct (rows_with key k' d) as [|c] eqn:Ec; [lia|].
    assert (Hk' : In (k', S c) sorted).
    { apply Hin, Hex. split; [now rewrite Ec | lia]. }
    rewrite Es in Hk', Hsort'. inversion Hsort' as [|? ? _ Hall]; subst.
    destruct Hk' as [H | H].
    + injection H as _ <-. lia.
    + rewrite Forall_forall in Hall. apply (Hall _ H).
Qed.

(* ================================================================== *)
(** ** The queries of [analyzer.py] *)
(* ================================================================== *)

Lemma strongly_sorted_map {A B : Type} (f : A -> B) (R : B -> B -> Prop)
    (l : list A) :
  StronglySorted (fun a b => R (f a) (f b)) l -> StronglySorted R (List.map f l).
Proof.
  induction 1 as [|x t Hs IH Hx]; simpl; constructor; auto.
  apply Forall_forall. intros y Hy. apply in_map_iff in Hy.
  destruct Hy as (z & <- & Hz). rewrite Forall_forall in Hx. auto.
Qed.

Lemma filter_logs_unfold (lv ct ho so si un : option string) (asc : bool)
    (limit : Z) (d : db) :
  analyzer.filter_logs lv ct ho so si un asc limit d =
  List.map analyzer.columns5
    (analyzer.limit_rows limit
       (analyzer.order_by
          (if asc
           then fun x y => String.leb (analyzer.row_timestamp x) (analyzer.row_timestamp y)
           else fun x y => String.leb (analyzer.row_timestamp y) (analyzer.row_timestamp x))
          (filter (meets lv ct ho so si un) d))).
Proof.
  unfold analyzer.filter_logs.
  rewrite <- select_meets.
  destruct (analyzer._build_where lv ct ho so si un). reflexivity.
Qed.

(** X2. [filter_logs] returns rows of the table that meet all the criteria
    (and only their five columns), ordered by timestamp in the direction
    asked, at most [limit] of them; with a negative limit, or one that the
    matching rows do not exceed, it returns every matching row. *)
Theorem X2_filter_logs_result (lv ct ho so si un : option string) (asc : bool)
    (limit : Z) (d : db) :
  let res := analyzer.filter_logs lv ct ho so si un asc limit d in
  (forall p, In p res ->
     exists r, In r d /\ meets lv ct ho so si un r = true /\
               p = analyzer.columns5 r) /\
  StronglySorted (in_order asc) res /\
  ((0 <= limit)%Z -> List.length res <= Z.to_nat limit) /\
  ((limit < 0 \/
    Z.of_nat (List.length (filter (meets lv ct ho so si un) d)) <= limit)%Z ->
   Permutation res
     (List.map analyzer.columns5 (filter (meets lv ct ho so si un) d))).
Proof.
  cbv zeta. rewrite filter_logs_unfold.
  set (le := if asc
             then fun x y => String.leb (analyzer.row_timestamp x) (analyzer.row_timestamp y)
             else fun x y => String.leb (analyzer.row_timestamp y) (analyzer.row_timestamp x)).
  set (sel := filter (meets lv ct ho so si un) d).
  pose proof (order_by_perm le sel) as Hperm.
  assert (Htot : forall x y, le x y = true \/ le y x = true).
  { intros x y. unfold le. destruct asc; apply String.leb_total. }
  assert (Htr : forall x y z, le x y = true -> le y z = true -> le x z = true).
  { intros x y z. unfold le. destruct asc; intros H1 H2;
      eapply string_leb_trans; eauto. }
  pose proof (order_by_sorted le Htot Htr sel) as Hsort.
  split; [|split; [|split]].
  - intros p Hp. apply in_map_iff in Hp. destruct Hp as (r & <- & Hr).
    apply limit_rows_incl in Hr.
    apply (Permutation_in _ Hperm) in Hr. unfold sel in Hr.
    apply filter_In in Hr. destruct Hr as [Hd Hm]. eauto.
  - apply strongly_sorted_map. apply limit_rows_sorted.
    clear -Hsort. unfold le in Hsort. unfold in_order.
    destruct asc; exact Hsort.
  - intros Hl. rewrite length_map. now apply limit_rows_length.
  - intros Hl. rewrite limit_rows_all.
    + now apply Permutation_map.
    + destruct Hl as [Hl | Hl]; [now left|]. right.
      now rewrite (Permutation_length Hperm).
Qed.

(** X3. [filter_hosts] lists each host at most once, with the exact number
    of the matching rows of that host (never 0), the largest count first,
    at most [limit] hosts; without a limit the counts add up to the number
    of matching rows and every host of a matching row is listed. *)
Theorem X3_filter_hosts_counts (lv ct ho so si un : option string)
    (limit : Z) (d : db) :
  let sel := filter (meets lv ct ho so si un) d in
  let res := analyzer.filter_hosts lv ct ho so si un limit d in
  (forall h n, In (h, n) res -> n = rows_with analyzer.row_host h sel /\ 1 <= n) /\
  NoDup (List.map fst res) /\
  StronglySorted (fun a b => snd b <= snd a) res /\
  ((0 <= limit)%Z -> List.length res <= Z.to_nat limit) /\
  ((limit < 0)%Z ->
     sum_counts res = List.length sel /\
     forall r, In r sel -> In (host r, rows_with analyzer.row_host (host r) sel) res).
Proof.
  cbv zeta. unfold analyzer.filter_hosts.
  rewrite <- select_meets.
  destruct (analyzer._build_where lv ct ho so si un) as [w ps]. cbn [fst snd].
  set (sel := analyzer.select w ps d).
  destruct (ranking_facts analyzer.row_host limit sel)
    as (H1 & H2 & H3 & H4 & H5 & _).
  repeat split; try assumption.
  - now apply H1.
  - now apply H1 in H.
  - now apply H5.
  - intros r Hr. apply H5; [assumption|].
    unfold rows_with.
    assert (Hin : In r (filter (fun r0 => String.eqb (analyzer.row_host r0) (host r)) sel)).
    { apply filter_In. split; [assumption|]. apply String.eqb_refl. }
    destruct (filter _ sel); [contradiction | simpl; lia].
Qed.

Lemma map_swap_sorted (l : list (string * nat)) :
  StronglySorted (fun a b => snd b <= snd a) l ->
  StronglySorted (fun a b => fst b <= fst a)
    (List.map (fun kv : string * nat => (snd kv, fst kv)) l).
Proof. intros H. apply strongly_sorted_map. exact H. Qed.

(** X4. [top_errors] lists each message at most once, with the exact
    number of the matching rows that carry it, the most frequent first;
    the count of its first entry is the highest of all messages, so with
    limit 1 it returns the most frequent message of the matching rows. *)
Theorem X4_top_errors_ranking (lv ct ho so si un : option string)
    (limit : Z) (d : db) :
  let sel := filter (meets lv ct ho so si un) d in
  let res := analyzer.top_errors lv ct ho so si un limit d in
  (forall n m, In (n, m) res -> n = rows_with analyzer.row_message m sel /\ 1 <= n) /\
  NoDup (List.map snd res) /\
  StronglySorted (fun a b => fst b <= fst a) res /\
  ((0 <= limit)%Z -> List.length res <= Z.to_nat limit) /\
  (forall n m rest, res = (n, m) :: rest ->
     forall m', rows_with analyzer.row_message m' sel <= n) /\
  ((1 <= limit)%Z -> forall r, In r sel -> res <> []).
Proof.
  cbv zeta. unfold analyzer.top_errors.
  rewrite <- select_meets.
  destruct (analyzer._build_where lv ct ho so si un) as [w ps]. cbn [fst snd].
  set (sel := analyzer.select w ps d).
  destruct (ranking_facts analyzer.row_message limit sel)
    as (H1 & H2 & H3 & H4 & H5 & H6). cbv zeta in *.
  set (ranked := analyzer.limit_rows limit
                   (analyzer.order_by analyzer.by_count_desc
                      (analyzer.group_count analyzer.row_message sel))) in *.
  split; [|split; [|split; [|split; [|split]]]].
  - intros n m H. apply in_map_iff in H. destruct H as ([k c] & E & Hin).
    simpl in E. injection E as <- <-. now apply H1.
  - rewrite map_map. simpl. exact H2.
  - now apply map_swap_sorted.
  - intros Hl. rewrite length_map. auto.
  - intros n m rest E m'.
    destruct ranked as [|[k c] t] eqn:Er; [discriminate|].
    simpl in E. injection E as <- <- _.
    eapply H6. reflexivity.
  - intros Hl r Hr E. apply map_eq_nil in E.
    unfold ranked, analyzer.limit_rows in E.
    destruct (limit <? 0)%Z eqn:El; [apply Z.ltb_lt in El; lia|].
    assert (Hg : In (message r, rows_with analyzer.row_message (message r) sel)
                    (analyzer.group_count analyzer.row_message sel)).
    { apply group_count_exact. split; [reflexivity|].
      unfold rows_with.
      assert (Hin : In r (filter (fun r0 => String.eqb (analyzer.row_message r0) (message r)) sel)).
      { apply filter_In. split; [assumption | apply String.eqb_refl]. }
      destruct (filter _ sel); [contradiction | simpl; lia]. }
    apply (Permutation_in _ (Permutation_sym
             (order_by_perm analyzer.by_count_desc _))) in Hg.
    destruct (analyzer.order_by analyzer.by_count_desc _); [contradiction|].
    destruct (Z.to_nat limit) eqn:En; [lia | discriminate].
Qed.

Lemma filter_all {A : Type} (f : A -> bool) (l : list A) :
  (forall x, f x = true) -> filter f l = l.
Proof.
  intros H. induction l as [|x t IH]; simpl; [reflexivity|].
  now rewrite H, IH.
Qed.

(** X5. [last_logs(n)] is [filter_logs] without any criterion, newest
    first: it returns the five columns of rows of the table, ordered by
    timestamp from the latest on, at most [n] of them, and all of them
    when [n] is negative. *)
Theorem X5_last_logs_is_unfiltered (limit : Z) (d : db) :
  analyzer.last_logs limit d =
    analyzer.filter_logs None None None None None None false limit d /\
  StronglySorted (in_order false) (analyzer.last_logs limit d) /\
  (forall p, In p (analyzer.last_logs limit d) ->
     exists r, In r d /\ p = analyzer.columns5 r) /\
  ((0 <= limit)%Z -> List.length (analyzer.last_logs limit d) <= Z.to_nat limit) /\
  ((limit < 0)%Z ->
     Permutation (analyzer.last_logs limit d) (List.map analyzer.columns5 d)).
Proof.
  set (le := fun x y => String.leb (analyzer.row_timestamp y) (analyzer.row_timestamp x)).
  assert (Htot : forall x y, le x y = true \/ le y x = true)
    by (intros; apply String.leb_total).
  assert (Htr : forall x y z, le x y = true -> le y z = true -> le x z = true)
    by (intros x y z H1 H2; unfold le in *; eapply string_leb_trans; eauto).
  split; [|split; [|split; [|split]]].
  - rewrite filter_logs_unfold, filter_all by reflexivity. reflexivity.
  - unfold analyzer.last_logs. apply strongly_sorted_map, limit_rows_sorted.
    exact (order_by_sorted le Htot Htr d).
  - unfold analyzer.last_logs. intros p Hp.
    apply in_map_iff in Hp. destruct Hp as (r & <- & Hr).
    apply limit_rows_incl in Hr.
    apply (Permutation_in _ (order_by_perm _ d)) in Hr. eauto.
  - intros Hl. unfold analyzer.last_logs. rewrite length_map.
    now apply limit_rows_length.
  - intros Hl. unfold analyzer.last_logs.
    rewrite limit_rows_all by now left.
    apply Permutation_map, order_by_perm.
Qed.

(* ================================================================== *)
(** ** The summary of the dashboard *)
(* ================================================================== *)

Lemma min_text_facts (l : list string) :
  match dashboard.min_text l with
  | None => l = []
  | Some m => In m l /\ forall x, In x l -> String.leb m x = true
  end.
Proof.
  induction l as [|x t IH]; simpl; [reflexivity|].
  destruct (dashboard.min_text t) as [m|].
  - destruct IH as [Hin Hle]. destruct (String.leb x m) eqn:E.
    + split; [now left|]. intros y [<- | Hy].
      * rewrite string_leb_cases. now right.
      * eapply string_leb_trans; eauto.
    + split; [now right|]. intros y [<- | Hy]; [|auto].
      destruct (String.leb_total x m); congruence.
  - subst t. split; [now left|]. intros y [<- | []].
    rewrite string_leb_cases. now right.
Qed.

Lemma max_text_facts (l : list string) :
  match dashboard.max_text l with
  | None => l = []
  | Some m => In m l /\ forall x, In x l -> String.leb x m = true
  end.
Proof.
  induction l as [|x t IH]; simpl; [reflexivity|].
  destruct (dashboard.max_text t) as [m|].
  - destruct IH as [Hin Hle]. destruct (String.leb m x) eqn:E.
    + split; [now left|]. intros y [<- | Hy].
      * rewrite string_leb_cases. now right.
      * eapply string_leb_trans; eauto.
    + split; [now right|]. intros y [<- | Hy]; [|auto].
      destruct (String.leb_total m x); congruence.
  - subst t. split; [now left|]. intros y [<- | []].
    rewrite string_leb_cases. now right.
Qed.

Lemma count_level_app (lv : string) (a b : db) :
  dashboard.count_level lv (a ++ b)%list =
  dashboard.count_level lv a + dashboard.count_level lv b.
Proof.
  unfold dashboard.count_level. now rewrite filter_app, length_app.
Qed.

Lemma count_two_levels (a b : string) (d : db) :
  a <> b ->
  dashboard.count_level a d + dashboard.count_level b d <= List.length d.
Proof.
  intros Hab. unfold dashboard.count_level.
  induction d as [|r t IH]; simpl; [lia|].
  destruct (String.eqb (level r) a) eqn:Ea, (String.eqb (level r) b) eqn:Eb;
    simpl; try lia.
  apply String.eqb_eq in Ea, Eb. congruence.
Qed.

(** X6. [get_summary]: on an empty table the total is 0 and both
    timestamps are absent; otherwise [first_ts] and [last_ts] are
    timestamps of rows, the smallest and the largest in text order; the
    errors and the warnings together never exceed the total; and one
    [insert_log] raises the total by one and the errors by one exactly
    when the level written is "ERROR". *)
Theorem X6_get_summary_facts (d : db) :
  let s := dashboard.get_summary d in
  dashboard.total s = List.length d /\
  dashboard.errors s + dashboard.warnings s <= dashboard.total s /\
  (d = [] -> dashboard.first_ts s = None /\ dashboard.last_ts s = None) /\
  (d <> [] ->
     exists f l,
       dashboard.first_ts s = Some f /\ dashboard.last_ts s = Some l /\
       (exists r, In r d /\ timestamp r = f) /\
       (exists r, In r d /\ timestamp r = l) /\
       String.leb f l = true /\
       forall r, In r d ->
         String.leb f (timestamp r) = true /\ String.leb (timestamp r) l = true) /\
  (forall ts src lv ho msg cg cr ca,
     let s' := dashboard.get_summary
                 (models.insert_log ts src lv ho msg cg cr ca d) in
     dashboard.total s' = S (dashboard.total s) /\
     dashboard.errors s' =
       dashboard.errors s + (if String.eqb lv "ERROR" then 1 else 0) /\
     dashboard.warnings s' =
       dashboard.warnings s + (if String.eqb lv "WARNING" then 1 else 0)).
Proof.
  cbv zeta. cbn [dashboard.get_summary dashboard.total dashboard.errors
                 dashboard.warnings dashboard.first_ts dashboard.last_ts].
  split; [reflexivity|]. split; [apply count_two_levels; discriminate|].
  split; [intros ->; split; reflexivity|]. split.
  - intros Hne.
    pose proof (min_text_facts (List.map timestamp d)) as Hmin.
    pose proof (max_text_facts (List.map timestamp d)) as Hmax.
    destruct (dashboard.min_text _) as [f|];
      [|apply map_eq_nil in Hmin; contradiction].
    destruct (dashboard.max_text _) as [l|];
      [|apply map_eq_nil in Hmax; contradiction].
    destruct Hmin as [Hfin Hfle], Hmax as [Hlin Hlle].
    exists f, l. split; [reflexivity|]. split; [reflexivity|].
    split; [apply in_map_iff in Hfin; destruct Hfin as (r & E & Hr); eauto|].
    split; [apply in_map_iff in Hlin; destruct Hlin as (r & E & Hr); eauto|].
    split; [now apply Hfle|].
    intros r Hr. split; [apply Hfle | apply Hlle]; now apply in_map.
  - intros. unfold models.insert_log.
    rewrite length_app, !count_level_app. simpl.
    unfold dashboard.count_level. simpl.
    split; [lia|].
    split; [destruct (String.eqb lv "ERROR") | destruct (String.eqb lv "WARNING")];
      reflexivity.
Qed.

Lemma count_of_perm (g g' : list (string * nat)) (k : string) :
  NoDup (List.map fst g) -> Permutation g g' -> count_of g' k = count_of g k.
Proof.
  intros Hn Hp. unfold count_of.
  assert (Hn' : NoDup (List.map fst g')).
  { eapply Permutation_NoDup; [|exact Hn]. now apply Permutation_map. }
  destruct (cli.dict_lookup g k) as [n|] eqn:E.
  - apply in_lookup in E. apply (Permutation_in _ Hp) in E.
    now rewrite (lookup_in _ _ _ Hn' E).
  - destruct (cli.dict_lookup g' k) as [n|] eqn:E'; [|reflexivity].
    apply in_lookup in E'. apply (Permutation_in _ (Permutation_sym Hp)) in E'.
    rewrite (lookup_in _ _ _ Hn E') in E. discriminate.
Qed.

(** X7. [count_by_level] lists each level that occurs once, with the exact
    number of its rows, the largest count first; the counts add up to the
    total of [get_summary], and the counts it gives to "ERROR" and to
    "WARNING" are the errors and the warnings of [get_summary]. *)
Theorem X7_count_by_level_agrees_with_summary (d : db) :
  let res := analyzer.count_by_level d in
  let s := dashboard.get_summary d in
  (forall lv n, In (lv, n) res <-> (n = dashboard.count_level lv d /\ 1 <= n)) /\
  NoDup (List.map fst res) /\
  StronglySorted (fun a b => snd b <= snd a) res /\
  sum_counts res = dashboard.total s /\
  count_of res "ERROR" = dashboard.errors s /\
  count_of res "WARNING" = dashboard.warnings s.
Proof.
  cbv zeta. unfold analyzer.count_by_level.
  destruct (group_count_exact analyzer.row_level d) as (Hn & Hex).
  pose proof (order_by_perm analyzer.by_count_desc
                (analyzer.group_count analyzer.row_level d)) as Hperm.
  assert (Hcnt : forall k, count_of (analyzer.order_by analyzer.by_count_desc
                             (analyzer.group_count analyzer.row_level d)) k =
                           dashboard.count_level k d).
  { intros k. rewrite (count_of_perm _ _ k Hn (Permutation_sym Hperm)).
    destruct (fold_bump_facts analyzer.row_level d [] (NoDup_nil _) (Forall_nil _))
      as (_ & _ & Hc).
    exact (Hc k). }
  split; [|split; [|split; [|split; [|split]]]].
  - intros lv n. rewrite <- (Hex lv n). split; apply Permutation_in;
      [exact Hperm | now symmetry].
  - eapply Permutation_NoDup; [|exact Hn].
    apply Permutation_map. now symmetry.
  - apply count_sorted.
    exact (order_by_sorted analyzer.by_count_desc by_count_desc_total
             by_count_desc_trans (analyzer.group_count analyzer.row_level d)).
  - rewrite (sum_counts_perm _ _ Hperm). apply group_count_sum.
  - apply Hcnt.
  - apply Hcnt.
Qed.

(* ================================================================== *)
(** ** [get_latest_logs] and the pages of [/logs] *)
(* ================================================================== *)

Lemma combine_seq_in {A : Type} (l : list A) :
  forall a i x,
    In (i, x) (combine (seq a (List.length l)) l) <->
    (a <= i /\ nth_error l (i - a) = Some x).
Proof.
  induction l as [|y t IH]; intros a i x; simpl.
  - split; [intros [] | intros [_ H]]. now destruct (i - a).
  - rewrite IH. split.
    + intros [H | [Ha Hn]].
      * injection H as <- <-. rewrite Nat.sub_diag. auto.
      * split; [lia|]. replace (i - a) with (S (i - S a)) by lia. exact Hn.
    + intros [Ha Hn]. destruct (i - a) as [|k] eqn:E.
      * left. injection Hn as <-. f_equal. lia.
      * right. split; [lia|]. replace (i - S a) with k by lia. exact Hn.
Qed.

Lemma combine_seq_sorted {A : Type} (l : list A) :
  forall a, StronglySorted (fun x y : nat * A => fst x < fst y)
              (combine (seq a (List.length l)) l).
Proof.
  induction l as [|y t IH]; intros a; simpl; constructor; [apply IH|].
  apply Forall_forall. intros [i x] Hin. apply combine_seq_in in Hin. simpl. lia.
Qed.

Lemma strongly_sorted_filter {A : Type} (R : A -> A -> Prop) (f : A -> bool)
    (l : list A) :
  StronglySorted R l -> StronglySorted R (filter f l).
Proof.
  induction 1 as [|x t Hs IH Hx]; simpl; [constructor|].
  destruct (f x); [|exact IH]. constructor; [exact IH|].
  apply Forall_forall. intros y Hy. apply filter_In in Hy.
  rewrite Forall_forall in Hx. now apply Hx.
Qed.

Lemma strongly_sorted_snoc {A : Type} (R : A -> A -> Prop) (l : list A) (x : A) :
  StronglySorted R l -> Forall (fun y => R y x) l ->
  StronglySorted R (l ++ [x])%list.
Proof.
  induction 1 as [|y t Hs IH Hy]; simpl; intros Hall.
  - constructor; constructor.
  - inversion Hall; subst. constructor; [auto|].
    apply Forall_app. split; [exact Hy | constructor; [assumption | constructor]].
Qed.

Lemma strongly_sorted_rev {A : Type} (R : A -> A -> Prop) (l : list A) :
  StronglySorted R l -> StronglySorted (fun a b => R b a) (rev l).
Proof.
  induction 1 as [|x t Hs IH Hx]; simpl; [constructor|].
  apply strongly_sorted_snoc; [exact IH|].
  apply Forall_forall. intros y Hy. apply in_rev in Hy.
  rewrite Forall_forall in Hx. now apply Hx.
Qed.

Lemma strongly_sorted_skipn {A : Type} (R : A -> A -> Prop) (n : nat) (l : list A) :
  StronglySorted R l -> StronglySorted R (skipn n l).
Proof.
  intros H. revert n. induction H as [|x t Hs IH Hx]; intros [|n]; simpl;
    try constructor; auto.
Qed.

Lemma firstn_pages {A : Type} (a b : nat) (l : list A) :
  (firstn a l ++ firstn b (skipn a l))%list = firstn (a + b) l.
Proof.
  revert l. induction a as [|a IH]; intros [|x t]; simpl;
    try reflexivity; [now rewrite firstn_nil | now rewrite IH].
Qed.

(** The rows of [get_latest_logs], without the column names. *)
Lemma latest_rows (limit offset : Z) (lv : option string) (d : db) :
  snd (dashboard.get_latest_logs limit offset lv d) =
  analyzer.limit_rows limit
    (dashboard.offset_rows offset
       (rev (if truthy lv
             then filter (fun r => String.eqb (level (snd r))
                                     (match lv with Some v => v | None => "" end))
                         (dashboard.with_ids d)
             else dashboard.with_ids d))).
Proof.
  unfold dashboard.get_latest_logs. destruct lv as [v|]; simpl; [|reflexivity].
  destruct (negb (Str.is_empty v)); reflexivity.
Qed.

(** X8. [get_latest_logs] returns rows of the table with their ids (the
    row of id [i] is the [i]-th inserted), the highest id first, at most
    [limit] of them; with a non-empty level only rows of that level; and
    two consecutive pages put together are the page of the two limits
    added. *)
Theorem X8_get_latest_logs_pages (limit offset : Z) (lv : option string) (d : db) :
  let rows := snd (dashboard.get_latest_logs limit offset lv d) in
  (forall i r, In (i, r) rows -> 1 <= i /\ nth_error d (i - 1) = Some r) /\
  StronglySorted (fun a b => fst b < fst a) rows /\
  ((0 <= limit)%Z -> List.length rows <= Z.to_nat limit) /\
  (forall v i r, lv = Some v -> v <> "" -> In (i, r) rows -> level r = v) /\
  (forall limit', (0 <= limit)%Z -> (0 <= limit')%Z -> (0 <= offset)%Z ->
     (rows ++ snd (dashboard.get_latest_logs limit' (offset + limit) lv d))%list =
     snd (dashboard.get_latest_logs (limit + limit') offset lv d)).
Proof.
  cbv zeta. rewrite latest_rows.
  set (base := if truthy lv
               then filter (fun r => String.eqb (level (snd r))
                                       (match lv with Some v => v | None => "" end))
                           (dashboard.with_ids d)
               else dashboard.with_ids d).
  assert (Hbase : forall x, In x base -> In x (dashboard.with_ids d)).
  { intros x. unfold base. destruct (truthy lv); [|auto].
    intros H. apply filter_In in H. tauto. }
  assert (Hsorted : StronglySorted (fun a b : nat * LogRecord => fst a < fst b) base).
  { unfold base. destruct (truthy lv);
      [apply strongly_sorted_filter|]; apply combine_seq_sorted. }
  assert (Hin : forall x,
             In x (analyzer.limit_rows limit (dashboard.offset_rows offset (rev base))) ->
             In x base).
  { intros x H. apply limit_rows_incl in H. unfold dashboard.offset_rows in H.
    apply in_skipn in H. now apply in_rev in H. }
  split; [|split; [|split; [|split]]].
  - intros i r H. apply Hin, Hbase in H.
    unfold dashboard.with_ids in H. now apply combine_seq_in in H.
  - apply limit_rows_sorted. unfold dashboard.offset_rows.
    apply strongly_sorted_skipn. now apply strongly_sorted_rev.
  - apply limit_rows_length.
  - intros v i r -> Hv H. apply Hin in H. unfold base in H.
    assert (Ht : truthy (Some v) = true).
    { simpl. destruct v; [contradiction | reflexivity]. }
    rewrite Ht in H. apply filter_In in H. destruct H as [_ H].
    now apply String.eqb_eq in H.
  - intros limit' Hl Hl' Ho. rewrite !latest_rows. fold base.
    unfold analyzer.limit_rows, dashboard.offset_rows.
    replace (limit <? 0)%Z with false by (symmetry; apply Z.ltb_ge; lia).
    replace (limit' <? 0)%Z with false by (symmetry; apply Z.ltb_ge; lia).
    replace (limit + limit' <? 0)%Z with false by (symmetry; apply Z.ltb_ge; lia).
    rewrite !Z2Nat.inj_add by lia.
    rewrite (Nat.add_comm (Z.to_nat offset)), <- skipn_skipn.
    apply firstn_pages.
Qed.

Lemma logs_page_rows (page : Z) (d : db) :
  snd (fst (fst (web_app.logs_page page d))) =
  firstn 200 (skipn (Z.to_nat ((Z.max page 1 - 1) * 200))
                    (rev (dashboard.with_ids d))).
Proof.
  unfold web_app.logs_page. cbv zeta.
  pose proof (latest_rows web_app.per_page
                ((Z.max page 1 - 1) * web_app.per_page) None d) as H.
  destruct (dashboard.get_latest_logs _ _ _ _) as [c rows]. simpl in *.
  rewrite H. reflexivity.
Qed.

(** X9. The pages of the route [/logs]: a page below 1 is page 1; a page
    holds at most 200 rows; and the pages 1 to [k] put one after the other
    are the [200 * k] newest rows, newest first, so no row is listed
    twice and none is left out. *)
Theorem X9_logs_pages_partition (k : nat) (d : db) :
  concat (List.map (fun p => snd (fst (fst (web_app.logs_page (Z.of_nat p) d))))
                   (seq 1 k)) =
    firstn (200 * k) (rev (dashboard.with_ids d)) /\
  (forall page, (page <= 1)%Z ->
     web_app.logs_page page d = web_app.logs_page 1 d) /\
  (forall page,
     List.length (snd (fst (fst (web_app.logs_page page d)))) <= 200) /\
  (200 * k >= List.length d ->
   concat (List.map (fun p => snd (fst (fst (web_app.logs_page (Z.of_nat p) d))))
                    (seq 1 k)) = rev (dashboard.with_ids d)).
Proof.
  assert (Hpages :
    concat (List.map (fun p => snd (fst (fst (web_app.logs_page (Z.of_nat p) d))))
                     (seq 1 k)) =
    firstn (200 * k) (rev (dashboard.with_ids d))).
  { induction k as [|k IH]; [reflexivity|].
    rewrite seq_S, map_app, concat_app, IH. cbn [List.map concat].
    rewrite app_nil_r, logs_page_rows.
    replace (Z.to_nat ((Z.max (Z.of_nat (1 + k)) 1 - 1) * 200)) with (200 * k) by lia.
    rewrite firstn_pages. f_equal. lia. }
  split; [exact Hpages|]. split; [|split].
  - intros page Hp. unfold web_app.logs_page.
    replace (Z.max page 1) with 1%Z by lia. reflexivity.
  - intros page. rewrite logs_page_rows. apply firstn_le_length.
  - intros Hk. rewrite Hpages. apply firstn_all2.
    rewrite length_rev. unfold dashboard.with_ids.
    rewrite length_combine, length_seq. lia.
Qed.

(* ================================================================== *)
(** ** Accounting of the ingestion loops *)
(* ================================================================== *)

Lemma syslog_guess_level_range (msg : string) :
  In (parser_linux.guess_level msg) ["CRITICAL"; "ERROR"; "WARN"; "INFO"].
Proof.
  unfold parser_linux.guess_level.
  repeat match goal with |- context [if ?b then _ else _] => destruct b end;
    simpl; tauto.
Qed.

Lemma zabbix_guess_level_range (msg : string) :
  In (parser_zabbix_server.guess_level msg)
     ["CRITICAL"; "ERROR"; "WARN"; "DEBUG"; "INFO"].
Proof.
  unfold parser_zabbix_server.guess_level.
  repeat match goal with |- context [if ?b then _ else _] => destruct b end;
    simpl; tauto.
Qed.

Section SyslogLoop.
Variable P : LogRecord -> Prop.
Hypothesis parsed_ok : forall line year now p,
  parser_linux.parse_syslog_line line year now = Ok (Some p) -> P (row_of p).

Lemma ingest_syslog_loop_account (lines : list string)
    (clock : nat -> Dt.datetime) :
  forall i c d,
  exists added,
    snd (ingest.ingest_syslog_loop lines i c clock d) = (d ++ added)%list /\
    Forall P added /\ List.length added <= List.length lines /\
    forall n, fst (ingest.ingest_syslog_loop lines i c clock d) = Ok n ->
              n = c + List.length added.
Proof.
  induction lines as [|line t IH]; intros i c d; simpl.
  - exists []. rewrite app_nil_r. repeat split; auto.
    intros n H. injection H as <-. simpl. lia.
  - destruct (parser_linux.parse_syslog_line _ _ _) as [[p|]|e] eqn:E.
    + destruct (IH (S i) (S c) (models.insert_log (p_timestamp p) (p_source p)
                   (p_level p) (p_host p) (p_message p) None None None d))
        as (added & Hd & Hf & Hl & Hn).
      exists (row_of p :: added). unfold models.insert_log in *.
      rewrite Hd, <- app_assoc. repeat split; simpl; auto; [|lia|].
      * constructor; [eapply parsed_ok; eauto | assumption].
      * intros n H. apply Hn in H. lia.
    + destruct (IH (S i) c d) as (added & Hd & Hf & Hl & Hn).
      exists added. repeat split; auto.
    + exists []. simpl. rewrite app_nil_r. repeat split; auto; [lia|].
      intros n H. discriminate.
Qed.
End SyslogLoop.

Section ZabbixLoop.
Variable P : LogRecord -> Prop.
Variable host : string.
Hypothesis parsed_ok : forall line now p,
  parser_zabbix_server.parse_zabbix_server_line line host now = Ok (Some p) ->
  P (row_of p).

Lemma ingest_zabbix_loop_account (lines : list string)
    (clock : nat -> Dt.datetime) :
  forall i c d,
  exists added,
    snd (ingest.ingest_zabbix_server_loop lines host i c clock d) = (d ++ added)%list /\
    Forall P added /\
    forall n, fst (ingest.ingest_zabbix_server_loop lines host i c clock d) = Ok n ->
              n = c + List.length added /\ List.length added = List.length lines.
Proof.
  induction lines as [|line t IH]; intros i c d; simpl.
  - exists []. rewrite app_nil_r. repeat split; auto;
      injection H as <-; simpl; lia.
  - destruct (parser_zabbix_server.parse_zabbix_server_line _ _ _) as [[p|]|e] eqn:E.
    + destruct (IH (S i) (S c) (models.insert_log (p_timestamp p) (p_source p)
                   (p_level p) (p_host p) (p_message p) None None None d))
        as (added & Hd & Hf & Hn).
      exists (row_of p :: added). unfold models.insert_log in *.
      rewrite Hd, <- app_assoc. repeat split; simpl; auto.
      * constructor; [eapply parsed_ok; eauto | assumption].
      * apply Hn in H. lia.
      * apply Hn in H. lia.
    + now apply zbx_server_never_none in E.
    + exists []. simpl. rewrite app_nil_r. repeat split; auto; discriminate.
Qed.
End ZabbixLoop.

(** The rows the syslog path writes. *)
Lemma syslog_row_shape (line : string) (year : option N) (now : Dt.datetime)
    (p : parsed) :
  parser_linux.parse_syslog_line line year now = Ok (Some p) ->
  source (row_of p) = "syslog" /\
  In (level (row_of p)) ["CRITICAL"; "ERROR"; "WARN"; "INFO"] /\
  cause_group (row_of p) = None /\ cause_reason (row_of p) = None /\
  cause_action (row_of p) = None.
Proof.
  intros H. apply parse_syslog_line_level in H. destruct H as [Hs Hl].
  unfold row_of. simpl. rewrite Hs, Hl.
  repeat split; auto. apply syslog_guess_level_range.
Qed.

(** X10. [ingest_syslog]: a missing file raises [FileNotFoundError] and
    writes nothing; otherwise rows are only appended, and when the call
    returns a count, the count is the number of rows appended, which is
    at most the number of lines; every appended row has source "syslog",
    a level among CRITICAL, ERROR, WARN, INFO, and no cause field. *)
Theorem X10_ingest_syslog_accounting (f : ingest.file)
    (clock : nat -> Dt.datetime) (d : db) :
  (f = None -> ingest.ingest_syslog f clock d = (Raise FileNotFoundError, d)) /\
  (forall lines, f = Some lines ->
     fst (ingest.ingest_syslog f clock d) <> Raise FileNotFoundError /\
     exists added,
       snd (ingest.ingest_syslog f clock d) = (d ++ added)%list /\
       List.length added <= List.length lines /\
       (forall n, fst (ingest.ingest_syslog f clock d) = Ok n ->
                  n = List.length added) /\
       Forall (fun r => source r = "syslog" /\
                        In (level r) ["CRITICAL"; "ERROR"; "WARN"; "INFO"] /\
                        cause_group r = None /\ cause_reason r = None /\
                        cause_action r = None) added).
Proof.
  split; [intros ->; reflexivity|].
  intros lines ->. simpl. split.
  - assert (H : forall l i c d0,
               fst (ingest.ingest_syslog_loop l i c clock d0) <> Raise FileNotFoundError).
    { induction l as [|x t IH]; intros i c d0; simpl; [discriminate|].
      destruct (parser_linux.parse_syslog_line _ _ _) as [[p|]|e] eqn:E; auto.
      simpl. unfold parser_linux.parse_syslog_line in E.
      destruct (Re.re_match _ _); [|discriminate].
      unfold Dt.strptime in E.
      destruct (Re.re_match _ _); [|injection E as <-; discriminate].
      destruct (negb _); [injection E as <-; discriminate|].
      unfold Dt.make in E. destruct (Dt.valid _ _ _ _ _ _);
        [discriminate | injection E as <-; discriminate]. }
    apply H.
  - destruct (ingest_syslog_loop_account
                (fun r => source r = "syslog" /\
                          In (level r) ["CRITICAL"; "ERROR"; "WARN"; "INFO"] /\
                          cause_group r = None /\ cause_reason r = None /\
                          cause_action r = None)
                syslog_row_shape lines clock 0 0 d)
      as (added & Hd & Hf & Hl & Hn).
    exists added. repeat split; auto.
Qed.

Lemma ingest_syslog_loop_app (l1 l2 : list string) (clock : nat -> Dt.datetime) :
  forall i c d,
    ingest.ingest_syslog_loop (l1 ++ l2)%list i c clock d =
    match ingest.ingest_syslog_loop l1 i c clock d with
    | (Ok n, d1) => ingest.ingest_syslog_loop l2 (i + List.length l1) n clock d1
    | (Raise e, d1) => (Raise e, d1)
    end.
Proof.
  induction l1 as [|x t IH]; intros i c d; simpl.
  - now rewrite Nat.add_0_r.
  - destruct (parser_linux.parse_syslog_line _ _ _) as [[p|]|e];
      [rewrite IH | rewrite IH | reflexivity];
      replace (S i + List.length t) with (i + S (List.length t)) by lia;
      reflexivity.
Qed.

(** X11. [ingest_syslog] is not fail-soft on a line in syslog shape whose
    date [strptime] refuses: when the lines before it are ingested without
    error and the parser raises on that line, the call ends with that
    exception, the rows of the earlier lines stay in the table, and no
    later line is read. *)
Theorem X11_ingest_syslog_aborts_on_bad_date (l1 l2 : list string)
    (bad : string) (clock : nat -> Dt.datetime) (d : db) (n : nat) (e : exn) :
  fst (ingest.ingest_syslog (Some l1) clock d) = Ok n ->
  parser_linux.parse_syslog_line (Str.rstrip_nl bad) None
    (clock (List.length l1)) = Raise e ->
  ingest.ingest_syslog (Some (l1 ++ bad :: l2)%list) clock d =
    (Raise e, snd (ingest.ingest_syslog (Some l1) clock d)).
Proof.
  simpl. intros H1 Hbad. rewrite ingest_syslog_loop_app.
  destruct (ingest.ingest_syslog_loop l1 0 0 clock d) as [[m|e'] d1];
    [|discriminate].
  simpl. now rewrite Hbad.
Qed.

Lemma X11_ingest_syslog_aborts_on_bad_date_witness :
  (fst (ingest.ingest_syslog (Some [Samples.syslog_line])
          (fun _ => Samples.instant) []) = Ok 1 /\
   parser_linux.parse_syslog_line (Str.rstrip_nl february_30) None
     Samples.instant = Raise ValueError) /\
  ingest.ingest_syslog
    (Some [Samples.syslog_line; february_30; Samples.syslog_line])
    (fun _ => Samples.instant) [] =
  (Raise ValueError,
   [mkLog "2025-11-27 15:30:45" "syslog" "INFO" "host1" "something failed"
          None None None]).
Proof.
  assert (H1 : fst (ingest.ingest_syslog (Some [Samples.syslog_line])
                      (fun _ => Samples.instant) []) = Ok 1)
    by (vm_compute; reflexivity).
  assert (H2 : parser_linux.parse_syslog_line (Str.rstrip_nl february_30) None
                 Samples.instant = Raise ValueError)
    by (vm_compute; reflexivity).
  split; [split; assumption|].
  pose proof (X11_ingest_syslog_aborts_on_bad_date [Samples.syslog_line]
                [Samples.syslog_line] february_30 (fun _ => Samples.instant) []
                1 ValueError H1 H2) as H.
  cbn [app] in H. rewrite H. vm_compute. reflexivity.
Defined.

(** The rows the Zabbix-server path writes. *)
Lemma zabbix_row_shape (alias line : string) (now : Dt.datetime) (p : parsed) :
  parser_zabbix_server.parse_zabbix_server_line line alias now = Ok (Some p) ->
  host (row_of p) = alias /\
  In (source (row_of p)) ["zabbix_server"; "zabbix_server_raw"] /\
  level (row_of p) = parser_zabbix_server.guess_level (message (row_of p)) /\
  cause_group (row_of p) = None /\ cause_reason (row_of p) = None /\
  cause_action (row_of p) = None.
Proof.
  unfold parser_zabbix_server.parse_zabbix_server_line.
  destruct (Re.re_match _ _) as [m|].
  - destruct (Dt.make _ _ _ _ _ _); [|discriminate].
    intros H; injection H as <-. simpl. tauto.
  - intros H; injection H as <-. simpl. tauto.
Qed.

Lemma zabbix_loop_no_file_error (alias : string) (clock : nat -> Dt.datetime) :
  forall l i c d,
    fst (ingest.ingest_zabbix_server_loop l alias i c clock d)
    <> Raise FileNotFoundError.
Proof.
  induction l as [|x t IH]; intros i c d; simpl; [discriminate|].
  destruct (parser_zabbix_server.parse_zabbix_server_line _ _ _)
    as [[p|]|e] eqn:E; auto.
  simpl. unfold parser_zabbix_server.parse_zabbix_server_line in E.
  destruct (Re.re_match _ _); [|discriminate].
  unfold Dt.make in E. destruct (Dt.valid _ _ _ _ _ _);
    [discriminate | injection E as <-; discriminate].
Qed.

Lemma rstrip_nl_idem (s : string) :
  Str.rstrip_nl (Str.rstrip_nl s) = Str.rstrip_nl s.
Proof.
  induction s as [|c t IH]; simpl; [reflexivity|].
  destruct (Ascii.eqb c "010" && Str.is_empty (Str.rstrip_nl t)) eqn:E;
    [reflexivity|].
  simpl. rewrite IH, E. reflexivity.
Qed.

Lemma zabbix_loop_raw_lines (alias : string) (clock : nat -> Dt.datetime) :
  forall l i c d,
    Forall (fun x => Re.re_match parser_zabbix_server.ZBX_SERVER_REGEX
                       (Str.rstrip_nl x) = None) l ->
    fst (ingest.ingest_zabbix_server_loop l alias i c clock d)
    = Ok (c + List.length l).
Proof.
  induction l as [|x t IH]; intros i c d H; simpl.
  - now rewrite Nat.add_0_r.
  - inversion H as [|? ? Hx Ht]; subst.
    rewrite zbx_server_raw.
    + rewrite IH by assumption. f_equal. lia.
    + now rewrite rstrip_nl_idem.
Qed.

(** X12. [ingest_zabbix_server]: a missing file raises [FileNotFoundError]
    and writes nothing; otherwise rows are only appended, each with the
    host alias of the caller, source "zabbix_server" or
    "zabbix_server_raw", the level [guess_level] gives its message and no
    cause field; a returned count is the number of lines of the file, all
    of them stored; and a file none of whose lines has the structured
    shape is always ingested without error. *)
Theorem X12_ingest_zabbix_server_accounting (f : ingest.file) (alias : string)
    (clock : nat -> Dt.datetime) (d : db) :
  (f = None ->
   ingest.ingest_zabbix_server f alias clock d = (Raise FileNotFoundError, d)) /\
  (forall lines, f = Some lines ->
     fst (ingest.ingest_zabbix_server f alias clock d) <> Raise FileNotFoundError /\
     (Forall (fun x => Re.re_match parser_zabbix_server.ZBX_SERVER_REGEX
                         (Str.rstrip_nl x) = None) lines ->
      fst (ingest.ingest_zabbix_server f alias clock d) = Ok (List.length lines)) /\
     exists added,
       snd (ingest.ingest_zabbix_server f alias clock d) = (d ++ added)%list /\
       (forall n, fst (ingest.ingest_zabbix_server f alias clock d) = Ok n ->
                  n = List.length lines /\ List.length added = List.length lines) /\
       Forall (fun r => host r = alias /\
                        In (source r) ["zabbix_server"; "zabbix_server_raw"] /\
                        level r = parser_zabbix_server.guess_level (message r) /\
                        cause_group r = None /\ cause_reason r = None /\
                        cause_action r = None) added).
Proof.
  split; [intros ->; reflexivity|].
  intros lines ->. simpl. split; [apply zabbix_loop_no_file_error|].
  split; [intros H; now rewrite zabbix_loop_raw_lines|].
  destruct (ingest_zabbix_loop_account
              (fun r => host r = alias /\
                        In (source r) ["zabbix_server"; "zabbix_server_raw"] /\
                        level r = parser_zabbix_server.guess_level (message r) /\
                        cause_group r = None /\ cause_reason r = None /\
                        cause_action r = None)
              alias (zabbix_row_shape alias) lines clock 0 0 d)
    as (added & Hd & Hf & Hn).
  exists added. repeat split; auto; apply Hn in H; simpl in H; lia.
Qed.

(* ================================================================== *)
(** ** The ingestors of the command line *)
(* ================================================================== *)

Lemma cli_syslog_loop_account (default_host : string)
    (clock : nat -> Dt.datetime) (lines : list string) :
  forall i c d,
  exists added,
    cli.ingest_syslog_file_loop lines default_host i c clock d =
      (c + List.length added, (d ++ added)%list) /\
    List.map message added = kept_lines lines /\
    Forall (fun r => source r = "syslog" /\ level r = "INFO" /\
                     host r = default_host /\ timestamp r <> "" /\
                     cause_group r = None /\ cause_reason r = None /\
                     cause_action r = None) added.
Proof.
  unfold kept_lines.
  induction lines as [|line t IH]; intros i c d; simpl.
  - exists []. rewrite app_nil_r, Nat.add_0_r. auto.
  - destruct (Str.is_empty (Str.rstrip_nl line)) eqn:E; simpl.
    + apply IH.
    + destruct (IH (S i) (S c)
                  (cli._insert_log (cli._now_str (clock i)) "syslog" "INFO"
                     default_host (Str.rstrip_nl line) d))
        as (added & Hl & Hm & Hf).
      exists (mkLog (cli._now_str (clock i)) "syslog" "INFO" default_host
                    (Str.rstrip_nl line) None None None :: added).
      rewrite Hl. unfold cli._insert_log. rewrite <- app_assoc. simpl.
      split; [f_equal; lia|]. split; [now rewrite Hm|].
      constructor; [|assumption]. simpl. repeat split; auto.
      apply strftime_not_empty.
Qed.

Lemma cli_guess_level_range (line : string) :
  In (cli._guess_level_from_line line) ["CRITICAL"; "ERROR"; "INFO"].
Proof.
  unfold cli._guess_level_from_line.
  repeat match goal with |- context [if ?b then _ else _] => destruct b end;
    simpl; tauto.
Qed.

Lemma cli_zabbix_loop_account (host_alias : string)
    (clock : nat -> Dt.datetime) (lines : list string) :
  forall i c d,
  exists added,
    cli.ingest_zabbix_server_log_loop lines host_alias i c clock d =
      (c + List.length added, (d ++ added)%list) /\
    List.map message added = kept_lines lines /\
    Forall (fun r => source r = "zabbix_server_raw" /\
                     level r = cli._guess_level_from_line (message r) /\
                     host r = host_alias /\ timestamp r <> "" /\
                     cause_group r = None /\ cause_reason r = None /\
                     cause_action r = None) added.
Proof.
  unfold kept_lines.
  induction lines as [|line t IH]; intros i c d; simpl.
  - exists []. rewrite app_nil_r, Nat.add_0_r. auto.
  - destruct (Str.is_empty (Str.rstrip_nl line)) eqn:E; simpl.
    + apply IH.
    + destruct (IH (S i) (S c)
                  (cli._insert_log (cli._now_str (clock i)) "zabbix_server_raw"
                     (cli._guess_level_from_line (Str.rstrip_nl line))
                     host_alias (Str.rstrip_nl line) d))
        as (added & Hl & Hm & Hf).
      exists (mkLog (cli._now_str (clock i)) "zabbix_server_raw"
                    (cli._guess_level_from_line (Str.rstrip_nl line))
                    host_alias (Str.rstrip_nl line) None None None :: added).
      rewrite Hl. unfold cli._insert_log. rewrite <- app_assoc. simpl.
      split; [f_equal; lia|]. split; [now rewrite Hm|].
      constructor; [|assumption]. simpl. repeat split; auto.
      apply strftime_not_empty.
Qed.

(** X13. [cli.ingest_syslog_file] on an existing file never raises: it
    stores, in order, every line that is not empty once its final line
    feeds are removed, with that text unchanged as message, the level INFO,
    the source "syslog" and the default host, and returns their number; no
    line is parsed.  On a missing file it raises [FileNotFoundError] and
    writes nothing. *)
Theorem X13_cli_ingest_syslog_file (lines : list string)
    (default_host : string) (clock : nat -> Dt.datetime) (d : db) :
  cli.ingest_syslog_file None default_host clock d
    = (Raise FileNotFoundError, d) /\
  exists added,
    cli.ingest_syslog_file (Some lines) default_host clock d =
      (Ok (List.length (kept_lines lines)), (d ++ added)%list) /\
    List.map message added = kept_lines lines /\
    Forall (fun r => source r = "syslog" /\ level r = "INFO" /\
                     host r = default_host /\ timestamp r <> "" /\
                     cause_group r = None /\ cause_reason r = None /\
                     cause_action r = None) added.
Proof.
  split; [reflexivity|].
  destruct (cli_syslog_loop_account default_host clock lines 0 0 d)
    as (added & Hl & Hm & Hf).
  exists added. unfold cli.ingest_syslog_file. rewrite Hl.
  rewrite <- Hm, length_map. auto.
Qed.

(** X14. [cli.ingest_zabbix_server_log] on an existing file never raises:
    it stores, in order, every line that is not empty once its final line
    feeds are removed, the whole text as message, under the host alias and
    the source "zabbix_server_raw", with the level
    [_guess_level_from_line] gives the text, which is CRITICAL, ERROR or
    INFO, and returns their number.  On a missing file it raises
    [FileNotFoundError] and writes nothing. *)
Theorem X14_cli_ingest_zabbix_server_log (lines : list string)
    (host_alias : string) (clock : nat -> Dt.datetime) (d : db) :
  cli.ingest_zabbix_server_log None host_alias clock d
    = (Raise FileNotFoundError, d) /\
  exists added,
    cli.ingest_zabbix_server_log (Some lines) host_alias clock d =
      (Ok (List.length (kept_lines lines)), (d ++ added)%list) /\
    List.map message added = kept_lines lines /\
    Forall (fun r => source r = "zabbix_server_raw" /\
                     level r = cli._guess_level_from_line (message r) /\
                     In (level r) ["CRITICAL"; "ERROR"; "INFO"] /\
                     host r = host_alias /\ timestamp r <> "" /\
                     cause_group r = None /\ cause_reason r = None /\
                     cause_action r = None) added.
Proof.
  split; [reflexivity|].
  destruct (cli_zabbix_loop_account host_alias clock lines 0 0 d)
    as (added & Hl & Hm & Hf).
  exists added. unfold cli.ingest_zabbix_server_log. rewrite Hl.
  rewrite <- Hm, length_map. repeat split; auto.
  eapply Forall_impl; [|exact Hf]. simpl.
  intros r (Hs & Hlv & Hh & Ht & H1 & H2 & H3). repeat split; auto.
  rewrite Hlv. apply cli_guess_level_range.
Qed.

(* ================================================================== *)
(** ** The classifiers *)
(* ================================================================== *)

Lemma startswith_app_l (a b s : string) :
  Str.startswith (a ++ b) s = true -> Str.startswith a s = true.
Proof.
  revert s. induction a as [|c a IH]; intros s H; [destruct s; reflexivity|].
  destruct s as [|x s]; simpl in *; [discriminate|].
  apply andb_true_iff in H. destruct H as [-> H]. simpl. now apply IH.
Qed.

Lemma contains_app_l (a b s : string) :
  Str.contains (a ++ b) s = true -> Str.contains a s = true.
Proof.
  induction s as [|x s IH]; simpl; intros H.
  - rewrite orb_false_r in *. now apply startswith_app_l in H.
  - apply orb_true_iff in H. destruct H as [H | H].
    + apply startswith_app_l in H. now rewrite H.
    + rewrite (IH H). apply orb_true_r.
Qed.

Lemma contains_tail (c : ascii) (a s : string) :
  Str.contains (String c a) s = true -> Str.contains a s = true.
Proof.
  induction s as [|x s IH]; simpl; intros H; [discriminate|].
  apply orb_true_iff in H. destruct H as [H | H].
  - apply andb_true_iff in H. destruct H as [_ H].
    apply orb_true_iff. right. destruct s; simpl; now rewrite H.
  - rewrite (IH H). apply orb_true_r.
Qed.

(** X15. The classifier of the command line is subsumed by the one of
    the Zabbix parsers: a text it labels CRITICAL is labelled CRITICAL by
    [guess_level], a text it labels ERROR is labelled CRITICAL or ERROR;
    the server and the proxy parser classify alike; and in [guess_level]
    the test for "WARNING" adds nothing to the test for "WARN". *)
Theorem X15_classifiers_agree (line : string) :
  (cli._guess_level_from_line line = "CRITICAL" ->
   parser_zabbix_server.guess_level line = "CRITICAL") /\
  (cli._guess_level_from_line line = "ERROR" ->
   parser_zabbix_server.guess_level line = "CRITICAL" \/
   parser_zabbix_server.guess_level line = "ERROR") /\
  parser_zabbix_proxy.guess_level line = parser_zabbix_server.guess_level line /\
  (Str.contains "WARN" (Str.upper line) || Str.contains "WARNING" (Str.upper line)
   = Str.contains "WARN" (Str.upper line)).
Proof.
  unfold cli._guess_level_from_line, parser_zabbix_server.guess_level.
  cbv zeta. repeat split.
  - destruct (Str.contains " CRITICAL " (Str.upper line)) eqn:E.
    + apply contains_tail in E.
      apply (contains_app_l "CRITICAL" " ") in E. rewrite E.
      now rewrite orb_true_r.
    + destruct (Str.contains " ERROR " (Str.upper line)); discriminate.
  - destruct (Str.contains " CRITICAL " (Str.upper line)); [discriminate|].
    destruct (Str.contains " ERROR " (Str.upper line)) eqn:E; [|discriminate].
    intros _. apply contains_tail in E.
    apply (contains_app_l "ERROR" " ") in E. rewrite E. simpl.
    destruct (_ || _); auto.
  - destruct (Str.contains "WARNING" (Str.upper line)) eqn:E.
    + apply (contains_app_l "WARN" "ING") in E. now rewrite E.
    + apply orb_false_r.
Qed.

(* ================================================================== *)
(** ** Ingestion and the counters of the dashboard *)
(* ================================================================== *)

Lemma count_level_none (lv : string) (l : db) :
  Forall (fun r => level r <> lv) l -> dashboard.count_level lv l = 0.
Proof.
  unfold dashboard.count_level. induction 1 as [|r t Hr Ht IH]; simpl;
    [reflexivity|].
  destruct (String.eqb (level r) lv) eqn:E; [|exact IH].
  apply String.eqb_eq in E. contradiction.
Qed.

Lemma warnings_after (d added : db) :
  Forall (fun r => level r <> "WARNING") added ->
  dashboard.warnings (dashboard.get_summary (d ++ added)%list) =
  dashboard.warnings (dashboard.get_summary d).
Proof.
  intros H. unfold dashboard.get_summary. simpl.
  rewrite count_level_app, (count_level_none _ _ H). lia.
Qed.

(** X16. No row written by [ingest_syslog], [ingest_zabbix_server],
    [cli.ingest_syslog_file] or [cli.ingest_zabbix_server_log] has the
    level WARNING (their classifiers write WARN), so the counter
    [warnings] of [get_summary], which counts the level WARNING, is the
    same after any of these ingestions as before, also when the ingestion
    ends with an exception. *)
Theorem X16_ingestion_leaves_warnings_counter (f : ingest.file)
    (alias : string) (clock : nat -> Dt.datetime) (d : db) :
  let warnings t := dashboard.warnings (dashboard.get_summary t) in
  warnings (snd (ingest.ingest_syslog f clock d)) = warnings d /\
  warnings (snd (ingest.ingest_zabbix_server f alias clock d)) = warnings d /\
  warnings (snd (cli.ingest_syslog_file f alias clock d)) = warnings d /\
  warnings (snd (cli.ingest_zabbix_server_log f alias clock d)) = warnings d.
Proof.
  cbv zeta. destruct f as [lines|]; [|simpl; auto].
  repeat split.
  - destruct (ingest_syslog_loop_account
                (fun r => level r <> "WARNING")) with (lines := lines)
      (clock := clock) (i := 0) (c := 0) (d := d) as (added & Hd & Hf & _).
    + intros line year now p H. apply syslog_row_shape in H.
      destruct H as (_ & H & _).
      intros E. rewrite E in H. simpl in H.
      repeat (destruct H as [H | H]; [discriminate|]). contradiction.
    + simpl. rewrite Hd. now apply warnings_after.
  - destruct (ingest_zabbix_loop_account
                (fun r => level r <> "WARNING") alias) with (lines := lines)
      (clock := clock) (i := 0) (c := 0) (d := d) as (added & Hd & Hf & _).
    + intros line now p H. apply zabbix_row_shape in H.
      destruct H as (_ & _ & H & _). cbv beta. rewrite H.
      intros E. pose proof (zabbix_guess_level_range (message (row_of p))) as R.
      rewrite E in R. simpl in R.
      repeat (destruct R as [R | R]; [discriminate|]). contradiction.
    + simpl. rewrite Hd. now apply warnings_after.
  - destruct (cli_syslog_loop_account alias clock lines 0 0 d)
      as (added & Hl & _ & Hf).
    unfold cli.ingest_syslog_file. rewrite Hl. simpl.
    apply warnings_after. eapply Forall_impl; [|exact Hf]. simpl.
    intros r (_ & H & _). rewrite H. discriminate.
  - destruct (cli_zabbix_loop_account alias clock lines 0 0 d)
      as (added & Hl & _ & Hf).
    unfold cli.ingest_zabbix_server_log. rewrite Hl. simpl.
    apply warnings_after. eapply Forall_impl; [|exact Hf]. simpl.
    intros r (_ & H & _). rewrite H. intros E.
    pose proof (cli_guess_level_range (message r)) as R.
    rewrite E in R. simpl in R.
    repeat (destruct R as [R | R]; [discriminate|]). contradiction.
Qed.

(* ================================================================== *)
(** ** The format sniffer: its verdicts *)
(* ================================================================== *)

(** X17. A file name can only help [is_probably_log]: what is accepted
    without a name is accepted with any name, an empty name counts as no
    name, and a name turns a rejection into an acceptance only when, in
    lower case, it ends with ".log", ".txt", ".out" or ".err". *)
Theorem X17_sniffer_filename_only_helps (decode : list Byte.byte -> string)
    (st : models.stream) (filename : option string) (max_bytes : nat) :
  (fst (models.is_probably_log decode st None max_bytes) = true ->
   fst (models.is_probably_log decode st filename max_bytes) = true) /\
  fst (models.is_probably_log decode st (Some "") max_bytes) =
    fst (models.is_probably_log decode st None max_bytes) /\
  (fst (models.is_probably_log decode st filename max_bytes) = true ->
   fst (models.is_probably_log decode st None max_bytes) = false ->
   exists f, filename = Some f /\ f <> "" /\
             existsb (fun suf => Str.endswith suf (Str.lower f))
                     models.log_suffixes = true).
Proof.
  unfold models.is_probably_log.
  destruct (models.read max_bytes st) as [chunk st1]. cbn [fst].
  destruct (models.data_length chunk =? 0);
    [repeat split; auto; discriminate|].
  destruct (match chunk with
            | models.Bytes b =>
                if 3 * List.length b <? 20 * List.length (filter models.non_text_byte b)
                then None else Some (decode b)
            | models.Text s => Some s
            end) as [text|]; [|repeat split; auto; discriminate].
  destruct (List.length _ =? 0); [repeat split; auto; discriminate|].
  destruct (2 <=? _); [repeat split; auto; discriminate|].
  destruct (_ && _); [repeat split; auto; discriminate|].
  split; [discriminate|]. split; [reflexivity|].
  destruct filename as [f|]; [|discriminate].
  unfold truthy. destruct (Str.is_empty f) eqn:Ef; simpl; [discriminate|].
  intros H _. apply andb_true_iff in H. destruct H as [H _].
  exists f. repeat split; auto. intros ->. discriminate.
Qed.

Lemma short_lines_do_not_score (lines : list string) :
  Forall (fun ln => String.length (Str.strip ln) < 15) lines ->
  filter models.scores
    (firstn 20 (List.map Str.strip
                  (filter (fun ln => negb (Str.is_empty (Str.strip ln))) lines)))
  = [].
Proof.
  intros H.
  assert (A : forall x,
             In x (firstn 20 (List.map Str.strip
                    (filter (fun ln => negb (Str.is_empty (Str.strip ln))) lines))) ->
             models.scores x = false).
  { intros x Hx. apply in_firstn in Hx. apply in_map_iff in Hx.
    destruct Hx as (ln & <- & Hln). apply filter_In in Hln.
    destruct Hln as [Hln _]. rewrite Forall_forall in H. apply H in Hln.
    unfold models.scores. apply Nat.ltb_lt in Hln. now rewrite Hln. }
  induction (firstn 20 _) as [|x t IH]; simpl; [reflexivity|].
  rewrite (A x (or_introl eq_refl)). apply IH.
  intros y Hy. apply A. now right.
Qed.

(** X18. What [is_probably_log] always rejects, whatever the file name:
    a stream that yields nothing (so also a sample size of 0); a sample of
    bytes of which more than 15 per cent are control bytes 0 to 8 or bytes
    above 126; and a text none of whose lines has, once stripped, 15
    characters or more, whatever words and timestamps it holds. *)
Theorem X18_sniffer_rejections (decode : list Byte.byte -> string)
    (st : models.stream) (filename : option string) (max_bytes : nat) :
  let verdict := fst (models.is_probably_log decode st filename max_bytes) in
  let chunk := fst (models.read max_bytes st) in
  (models.data_length chunk = 0 -> verdict = false) /\
  (max_bytes = 0 -> verdict = false) /\
  (forall b, chunk = models.Bytes b ->
     3 * List.length b < 20 * List.length (filter models.non_text_byte b) ->
     verdict = false) /\
  (forall text,
     chunk = models.Text text \/
     (exists b, chunk = models.Bytes b /\ text = decode b) ->
     Forall (fun ln => String.length (Str.strip ln) < 15)
            (Str.splitlines text) ->
     verdict = false).
Proof.
  cbv zeta. unfold models.is_probably_log.
  assert (Z0 : max_bytes = 0 -> models.data_length (fst (models.read max_bytes st)) = 0).
  { intros ->. unfold models.read. simpl.
    destruct (models.content st) as [b|s]; simpl; [reflexivity|].
    destruct (Str.drop _ s); reflexivity. }
  destruct (models.read max_bytes st) as [chunk st1]. cbn [fst] in *.
  split; [intros H; rewrite H; reflexivity|].
  split; [intros H; rewrite (Z0 H); reflexivity|]. split.
  - intros b -> H. apply Nat.ltb_lt in H. rewrite H.
    destruct (_ =? 0); reflexivity.
  - intros text Hc Hs.
    destruct (models.data_length chunk =? 0); [reflexivity|].
    assert (T : match chunk with
                | models.Bytes b =>
                    if 3 * List.length b <? 20 * List.length (filter models.non_text_byte b)
                    then None else Some (decode b)
                | models.Text s => Some s
                end = None \/
                match chunk with
                | models.Bytes b =>
                    if 3 * List.length b <? 20 * List.length (filter models.non_text_byte b)
                    then None else Some (decode b)
                | models.Text s => Some s
                end = Some text).
    { destruct Hc as [-> | (b & -> & ->)]; [now right|].
      destruct (_ <? _); auto. }
    destruct T as [-> | ->]; [reflexivity|]. cbv zeta.
    rewrite (short_lines_do_not_score _ Hs). cbn [List.length].
    destruct (List.length _ =? 0) eqn:E; [reflexivity|].
    apply Nat.eqb_neq in E. rewrite Nat.mul_0_r.
    replace (2 <=? 0) with false by reflexivity.
    replace (1 <=? 0) with false by reflexivity.
    rewrite andb_false_r.
    match goal with |- context [3 * ?m <=? 0] =>
      assert (L : (3 * m <=? 0) = false)
        by (apply Nat.leb_gt; lia);
      rewrite L
    end.
    rewrite andb_false_r. destruct (truthy filename); reflexivity.
Qed.

(* ================================================================== *)
(** ** The PHP parser: the cause it assigns *)
(* ================================================================== *)

(** X19. A line the PHP parser accepts gets the level ERROR, WARNING or
    INFO and always a cause: the group is "network" exactly when its text
    holds "curl error" in any letter case or an address followed by
    "port" and a number, and "aplicacao" otherwise; in the second case the
    reason is the main message and the action is the fixed advice to
    inspect the stack trace. *)
Theorem X19_php_cause_classification (line : string) (now : Dt.datetime)
    (p : models.php_parsed) :
  models.parse_php_error_line line now = Some p ->
  In (models.php_level p) ["ERROR"; "WARNING"; "INFO"] /\
  (Str.contains "curl error" (Str.lower (models.php_message p))
   || Re.found (Re.re_search models.ip_port_pattern (models.php_message p))
   = true ->
   models.php_cause_group p = Some "network") /\
  (Str.contains "curl error" (Str.lower (models.php_message p))
   || Re.found (Re.re_search models.ip_port_pattern (models.php_message p))
   = false ->
   models.php_cause_group p = Some "aplicacao" /\
   models.php_cause_reason p =
     Some (models.msg_main_of (models.php_message p)) /\
   models.php_cause_action p =
     Some "Avaliar stack trace e corrigir causa raiz no código PHP").
Proof.
  unfold models.parse_php_error_line.
  destruct (Re.re_match _ line) as [m|]; [|discriminate].
  cbv zeta.
  set (rest := Str.strip (Re.group m models.g_rest)).
  destruct (Str.contains "curl error" (Str.lower rest)
            || Re.found (Re.re_search models.ip_port_pattern rest)) eqn:N.
  - destruct (truthy _ && truthy _); intros H; injection H as <-;
      cbn [models.php_level models.php_message models.php_cause_group];
      fold rest; rewrite N;
      (split; [|split; [reflexivity | discriminate]]);
      repeat match goal with |- context [if ?b then _ else _] => destruct b end;
      simpl; tauto.
  - intros H; injection H as <-.
    cbn [models.php_level models.php_message models.php_cause_group
         models.php_cause_reason models.php_cause_action];
      fold rest; rewrite N.
    split; [|split; [discriminate | auto]].
    repeat match goal with |- context [if ?b then _ else _] => destruct b end;
      simpl; tauto.
Qed.

Lemma X19_php_cause_classification_witness :
  models.parse_php_error_line Samples.php_upper_in_line Samples.instant =
    Some (models.PhpParsed "2025-10-02 15:59:40" "WARNING"
            "Division BY ZERO IN calc in /x.php" (Some "aplicacao")
            (Some "Division BY ZERO")
            (Some "Avaliar stack trace e corrigir causa raiz no código PHP")) /\
  In "WARNING" ["ERROR"; "WARNING"; "INFO"].
Proof.
  assert (H : models.parse_php_error_line Samples.php_upper_in_line
                Samples.instant =
              Some (models.PhpParsed "2025-10-02 15:59:40" "WARNING"
                      "Division BY ZERO IN calc in /x.php" (Some "aplicacao")
                      (Some "Division BY ZERO")
                      (Some "Avaliar stack trace e corrigir causa raiz no código PHP")))
    by (vm_compute; reflexivity).
  split; [exact H|].
  exact (proj1 (X19_php_cause_classification _ _ _ H)).
Defined.

(* ================================================================== *)
(** ** The upload path: one row per non-blank item *)
(* ================================================================== *)

Lemma classify_range (items : list (string * Re.regex)) (dflt line : string) :
  models.classify items dflt line = dflt \/
  In (models.classify items dflt line)
     (List.map (fun kv => Str.upper (fst kv)) items).
Proof.
  induction items as [|[lvl patt] t IH]; simpl; [now left|].
  destruct (Re.found _); [right; now left|].
  destruct IH as [IH | IH]; [now left | right; now right].
Qed.

Lemma php_level_and_group (line : string) (now : Dt.datetime)
    (p : models.php_parsed) :
  models.parse_php_error_line line now = Some p ->
  In (models.php_level p) ["ERROR"; "WARNING"; "INFO"] /\
  (models.php_cause_group p = Some "network" \/
   models.php_cause_group p = Some "aplicacao").
Proof.
  unfold models.parse_php_error_line.
  destruct (Re.re_match _ line) as [m|]; [|discriminate].
  cbv zeta.
  destruct (Str.contains "curl error" _ || Re.found _);
    [destruct (truthy _ && truthy _)|];
    intros H; injection H as <-;
    cbn [models.php_level models.php_cause_group];
    (split; [|auto]);
    repeat match goal with |- context [if ?b then _ else _] => destruct b end;
    simpl; tauto.
Qed.

Lemma ingest_plaintext_line_account (decode : list Byte.byte -> string)
    (raw : models.data) (src dflt : string) (now : Dt.datetime) (d : db) :
  exists added,
    models.ingest_plaintext_line decode raw src dflt now d = (d ++ added)%list /\
    List.length added =
      (if Str.is_empty (upload_line decode raw) then 0 else 1) /\
    Forall (fun r =>
              source r = src /\ host r = dflt /\
              In (level r) ["ERROR"; "WARNING"; "INFO"; "CRITICAL"; "NOTICE"] /\
              (cause_group r = None /\ cause_reason r = None /\
               cause_action r = None \/
               cause_group r = Some "network" \/
               cause_group r = Some "aplicacao")) added.
Proof.
  rewrite upload_line_unfold. cbv zeta.
  destruct (Str.is_empty _).
  - exists []. rewrite app_nil_r. auto.
  - destruct (models.parse_php_error_line _ _) as [php|] eqn:E.
    + eexists. split; [reflexivity|]. split; [reflexivity|].
      constructor; [|constructor]. simpl.
      pose proof (php_level_and_group _ _ _ E) as (Hl & Hg).
      repeat split; auto.
      simpl in Hl. simpl. tauto.
    + eexists. split; [reflexivity|]. split; [reflexivity|].
      constructor; [|constructor].
      cbn [source host level cause_group cause_reason cause_action].
      repeat split; auto.
      destruct (classify_range models.level_patterns "INFO"
                  (upload_line decode raw)) as [-> | H]; [simpl; tauto|].
      exact H.
Qed.

Lemma ingest_plaintext_loop_account (decode : list Byte.byte -> string)
    (src dflt : string) (clock : nat -> Dt.datetime) (raws : list models.data) :
  forall i d,
  exists added,
    models.ingest_plaintext_loop decode raws i src dflt clock d
      = (d ++ added)%list /\
    List.length added =
      List.length (filter (fun raw => negb (Str.is_empty (upload_line decode raw)))
                          raws) /\
    Forall (fun r =>
              source r = src /\ host r = dflt /\
              In (level r) ["ERROR"; "WARNING"; "INFO"; "CRITICAL"; "NOTICE"] /\
              (cause_group r = None /\ cause_reason r = None /\
               cause_action r = None \/
               cause_group r = Some "network" \/
               cause_group r = Some "aplicacao")) added.
Proof.
  induction raws as [|raw t IH]; intros i d; simpl.
  - exists []. rewrite app_nil_r. auto.
  - destruct (ingest_plaintext_line_account decode raw src dflt (clock i) d)
      as (a1 & E1 & L1 & F1).
    rewrite E1.
    destruct (IH (S i) (d ++ a1)%list) as (a2 & E2 & L2 & F2).
    exists (a1 ++ a2)%list. rewrite E2, app_assoc. split; [reflexivity|].
    split; [|apply Forall_app; now split].
    rewrite length_app, L1, L2.
    destruct (Str.is_empty (upload_line decode raw)); reflexivity.
Qed.

Lemma ingest_plaintext_loop_app (decode : list Byte.byte -> string)
    (src dflt : string) (clock : nat -> Dt.datetime) (a b : list models.data) :
  forall i d,
    models.ingest_plaintext_loop decode (a ++ b)%list i src dflt clock d =
    models.ingest_plaintext_loop decode b (i + List.length a) src dflt clock
      (models.ingest_plaintext_loop decode a i src dflt clock d).
Proof.
  induction a as [|x t IH]; intros i d; simpl.
  - now rewrite Nat.add_0_r.
  - rewrite IH. now replace (S i + List.length t) with (i + S (List.length t)) by lia.
Qed.

(** X20. [ingest_plaintext_log] only appends rows, exactly one for every
    item of the stream that is not blank once decoded and stripped; each
    row carries the source and the default host of the call, a level among
    ERROR, WARNING, INFO, CRITICAL, NOTICE, and either no cause field or
    the cause group "network" or "aplicacao"; and ingesting a stream is
    ingesting its first part and then the rest, with the clock moved on. *)
Theorem X20_ingest_plaintext_accounting (decode : list Byte.byte -> string)
    (raws more : list models.data) (src dflt : string)
    (clock : nat -> Dt.datetime) (d : db) :
  (exists added,
     models.ingest_plaintext_log decode raws src dflt clock d
       = (d ++ added)%list /\
     List.length added =
       List.length (filter (fun raw => negb (Str.is_empty (upload_line decode raw)))
                           raws) /\
     Forall (fun r =>
               source r = src /\ host r = dflt /\
               In (level r) ["ERROR"; "WARNING"; "INFO"; "CRITICAL"; "NOTICE"] /\
               (cause_group r = None /\ cause_reason r = None /\
                cause_action r = None \/
                cause_group r = Some "network" \/
                cause_group r = Some "aplicacao")) added) /\
  models.ingest_plaintext_log decode (raws ++ more)%list src dflt clock d =
    models.ingest_plaintext_log decode more src dflt
      (fun i => clock (List.length raws + i))
      (models.ingest_plaintext_log decode raws src dflt clock d).
Proof.
  split; [apply ingest_plaintext_loop_account|].
  unfold models.ingest_plaintext_log. rewrite ingest_plaintext_loop_app.
  simpl. generalize (models.ingest_plaintext_loop decode raws 0 src dflt clock d).
  generalize (List.length raws). intros n.
  assert (G : forall l i d0,
             models.ingest_plaintext_loop decode l (n + i) src dflt clock d0 =
             models.ingest_plaintext_loop decode l i src dflt
               (fun k => clock (n + k)) d0).
  { induction l as [|x t IH]; intros i d0; simpl; [reflexivity|].
    replace (S (n + i)) with (n + S i) by lia. now rewrite (IH (S i)). }
  intros d0. rewrite <- (G more 0 d0). now rewrite Nat.add_0_r.
Qed.

(* ================================================================== *)
(** ** Insertion and the latest rows *)
(* ================================================================== *)

Lemma with_ids_snoc (d : db) (r : LogRecord) :
  dashboard.with_ids (d ++ [r])%list =
  (dashboard.with_ids d ++ [(S (List.length d), r)])%list.
Proof.
  unfold dashboard.with_ids.
  assert (G : forall k,
             combine (seq k (List.length (d ++ [r])%list)) (d ++ [r])%list =
             (combine (seq k (List.length d)) d ++ [(k + List.length d, r)])%list).
  { induction d as [|x t IH]; intros k; simpl.
    - now rewrite Nat.add_0_r.
    - rewrite IH. now replace (S k + List.length t) with (k + S (List.length t)) by lia. }
  apply G.
Qed.

Lemma latest_after_insert (limit : Z) (lvq : option string) (r : LogRecord)
    (d : db) :
  (limit <> 0)%Z -> criterion lvq (String.eqb (level r)) = true ->
  hd_error (snd (dashboard.get_latest_logs limit 0 lvq (d ++ [r])%list)) =
  Some (S (List.length d), r).
Proof.
  intros Hl Hc. rewrite latest_rows, with_ids_snoc.
  assert (E : exists t,
             rev (if truthy lvq
                  then filter (fun x : nat * LogRecord =>
                                 String.eqb (level (snd x))
                                   (match lvq with Some v => v | None => "" end))
                              (dashboard.with_ids d ++ [(S (List.length d), r)])%list
                  else (dashboard.with_ids d ++ [(S (List.length d), r)])%list)
             = (S (List.length d), r) :: t).
  { destruct lvq as [v|]; simpl in *.
    - destruct (Str.is_empty v); simpl.
      + rewrite rev_app_distr. simpl. eauto.
      + rewrite filter_app. simpl. rewrite Hc, rev_app_distr. simpl. eauto.
    - rewrite rev_app_distr. simpl. eauto. }
  destruct E as (t & ->).
  unfold dashboard.offset_rows, analyzer.limit_rows. simpl.
  destruct (limit <? 0)%Z eqn:E; [reflexivity|].
  apply Z.ltb_ge in E.
  destruct (Z.to_nat limit) eqn:En; [lia | reflexivity].
Qed.

(** X21. After [insert_log] the new row is the first row of
    [get_latest_logs] with offset 0 and a limit other than 0, with the
    number of rows of the table as its id, when no level is asked for or
    the level asked for is its own; and when another level is asked for,
    every page is what it was before the insertion. *)
Theorem X21_inserted_row_is_latest
    (ts src lv h msg : string) (cg cr ca : option string)
    (limit offset : Z) (lvq : option string) (d : db) :
  let d' := models.insert_log ts src lv h msg cg cr ca d in
  ((limit <> 0)%Z -> criterion lvq (String.eqb lv) = true ->
   hd_error (snd (dashboard.get_latest_logs limit 0 lvq d')) =
   Some (List.length d', mkLog ts src lv h msg cg cr ca)) /\
  (criterion lvq (String.eqb lv) = false ->
   dashboard.get_latest_logs limit offset lvq d' =
   dashboard.get_latest_logs limit offset lvq d).
Proof.
  cbv zeta. unfold models.insert_log. split.
  - intros Hl Hc. rewrite latest_after_insert by assumption.
    rewrite length_app. simpl. do 2 f_equal. lia.
  - intros Hc. unfold dashboard.get_latest_logs.
    destruct lvq as [v|]; simpl in Hc; [|discriminate].
    unfold truthy. destruct (Str.is_empty v); [discriminate|]. simpl.
    rewrite with_ids_snoc, filter_app. simpl. unfold analyzer.row_level.
    simpl. rewrite Hc. now rewrite app_nil_r.
Qed.

(** X22. The three action routes write one row each, which the route [/]
    then shows first, under the id that is the new number of rows; the
    counter [total] of the summary grows by one, [errors] stays, and
    [warnings] grows by one for the disk cleanup only, the one action
    recorded with the level WARNING. *)
Theorem X22_actions_show_on_dashboard (now : Dt.datetime) (d : db) :
  let shown t := hd_error (snd (web_app.dashboard_view t)) in
  let summary t := fst (web_app.dashboard_view t) in
  (forall act,
     In act [web_app.action_execute_block; web_app.action_db_scale_out;
             web_app.action_disk_cleanup] ->
     exists r, act now d = (d ++ [r])%list /\
               shown (act now d) = Some (S (List.length d), r) /\
               timestamp r = models.datetime_utc_now now /\
               dashboard.total (summary (act now d)) = S (dashboard.total (summary d)) /\
               dashboard.errors (summary (act now d)) = dashboard.errors (summary d)) /\
  dashboard.warnings (summary (web_app.action_execute_block now d)) =
    dashboard.warnings (summary d) /\
  dashboard.warnings (summary (web_app.action_db_scale_out now d)) =
    dashboard.warnings (summary d) /\
  dashboard.warnings (summary (web_app.action_disk_cleanup now d)) =
    S (dashboard.warnings (summary d)).
Proof.
  cbv zeta. unfold web_app.dashboard_view. cbn [fst snd].
  split.
  - intros act Hact.
    assert (G : forall r, level r <> "ERROR" ->
              hd_error (snd (dashboard.get_latest_logs 50 0 None (d ++ [r])%list)) =
                Some (S (List.length d), r) /\
              dashboard.total (dashboard.get_summary (d ++ [r])%list) =
                S (dashboard.total (dashboard.get_summary d)) /\
              dashboard.errors (dashboard.get_summary (d ++ [r])%list) =
                dashboard.errors (dashboard.get_summary d)).
    { intros r Hr. split; [apply latest_after_insert; [lia | reflexivity]|].
      unfold dashboard.get_summary. simpl. rewrite length_app. simpl.
      split; [lia|]. rewrite count_level_app.
      rewrite (count_level_none "ERROR" [r]); [lia|].
      constructor; [assumption | constructor]. }
    simpl in Hact.
    destruct Hact as [<- | [<- | [<- | []]]];
      (eexists; split; [reflexivity|];
       match goal with |- _ /\ _ = models.datetime_utc_now now /\ _ =>
         split; [apply G; discriminate | split; [reflexivity | apply G; discriminate]]
       end).
  - unfold web_app.action_execute_block, web_app.action_db_scale_out,
      web_app.action_disk_cleanup, models.insert_log, dashboard.get_summary.
    simpl. rewrite !count_level_app. simpl.
    unfold dashboard.count_level. simpl. repeat split; lia.
Qed.

(* ================================================================== *)
(** ** The Zabbix parsers: which lines are structured *)
(* ================================================================== *)









(* ================================================================== *)
(** ** The Zabbix parsers: the time of a structured line *)
(* ================================================================== *)

Lemma reads_app (x y : list (ascii -> bool)) (w1 w2 : string) :
  reads x w1 = true -> reads y w2 = true -> reads (x ++ y)%list (w1 ++ w2) = true.
Proof.
  revert w1. induction x as [|p x IH]; intros [|c w1]; simpl;
    try discriminate; [auto|].
  intros H Hy. apply andb_true_iff in H. destruct H as [-> H]. simpl. auto.
Qed.

Lemma matches_fixed (r : Re.regex) (s s' : Re.mstate) :
  ReSem.matches r s s' -> forall ps, fixed_cls r = Some ps ->
  exists w, Re.rest s = w ++ Re.rest s' /\ reads ps w = true.
Proof.
  induction 1; simpl; intros ps Hps; try discriminate.
  - injection Hps as <-. exists "". auto.
  - injection Hps as <-. exists (String c ""). simpl. rewrite H, H0. auto.
  - destruct (fixed_cls a) as [x|]; [|discriminate].
    destruct (fixed_cls b) as [y|]; [|discriminate].
    injection Hps as <-.
    destruct (IHmatches1 x eq_refl) as (w1 & E1 & R1).
    destruct (IHmatches2 y eq_refl) as (w2 & E2 & R2).
    exists (w1 ++ w2). rewrite E1, E2, append_assoc.
    split; [reflexivity | now apply reads_app].
  - auto.
Qed.












(* ================================================================== *)
(** ** The upload route *)
(* ================================================================== *)


(* ================================================================== *)
(** ** The two Zabbix parsers side by side *)
(* ================================================================== *)

(** X26. The proxy parser is the server parser under other source names:
    on every line, host alias and clock it raises when the server parser
    raises, and otherwise returns the same timestamp, level, host and
    message, with the source "zabbix_proxy" for "zabbix_server" and
    "zabbix_proxy_raw" for "zabbix_server_raw". *)
Theorem X26_proxy_parser_mirrors_server (line alias : string)
    (now : Dt.datetime) :
  parser_zabbix_proxy.parse_zabbix_proxy_line line alias now =
  match parser_zabbix_server.parse_zabbix_server_line line alias now with
  | Ok (Some p) => Ok (Some (as_proxy p))
  | Ok None => Ok None
  | Raise e => Raise e
  end.
Proof.
  unfold parser_zabbix_proxy.parse_zabbix_proxy_line,
    parser_zabbix_server.parse_zabbix_server_line.
  rewrite zbx_patterns_equal. cbv zeta.
  destruct (Re.re_match _ _) as [m|].
  - change parser_zabbix_proxy.g_date with parser_zabbix_server.g_date.
    change parser_zabbix_proxy.g_time with parser_zabbix_server.g_time.
    change parser_zabbix_proxy.g_msg with parser_zabbix_server.g_msg.
    destruct (Dt.make _ _ _ _ _ _); [|reflexivity].
    now rewrite zbx_guess_level_equal.
  - now rewrite zbx_guess_level_equal.
Qed.

(* ================================================================== *)
(** ** The syslog parser: which lines it declines *)
(* ================================================================== *)






(* ================================================================== *)
(** ** The upload path: the timestamp of a generic line *)
(* ================================================================== *)

Lemma reads_len (ps : list (ascii -> bool)) (w : string) :
  reads ps w = true -> String.length w = List.length ps.
Proof.
  revert w. induction ps as [|p ps IH]; intros [|c w]; simpl;
    try discriminate; [reflexivity|].
  intros H. apply andb_true_iff in H. destruct H as [_ H]. f_equal. auto.
Qed.

Lemma substring_prefix (w r : string) :
  substring 0 (String.length w) (w ++ r) = w.
Proof.
  induction w as [|c w IH]; simpl; [destruct r; reflexivity | now rewrite IH].
Qed.

Lemma drop_prefix (w r : string) : Str.drop (String.length w) (w ++ r) = r.
Proof. induction w as [|c w IH]; simpl; [reflexivity | exact IH]. Qed.

Lemma ts_match_prefix (line : string) (m : Re.mstate) :
  Re.re_match models.ts_regex line = Some m ->
  exists w r, line = w ++ r /\ String.length w = 19 /\ Re.group m 1 = w.
Proof.
  unfold Re.re_match. intros H. apply ReFacts.run_sound in H.
  destruct H as (s' & Hm & E). injection E as ->.
  unfold models.ts_regex in Hm.
  inversion Hm as [| |a b s0 s1 s2 Hbol Hgrp| | | | | | | |]; subst.
  inversion Hbol; subst.
  inversion Hgrp as [| | | | | | |n a s0 s4 Hiso| | |]; subst.
  destruct (matches_fixed _ _ _ Hiso _ eq_refl) as (w & Ew & Rw).
  apply reads_len in Rw. simpl in Ew.
  exists w, (Re.rest s4). split; [exact Ew|]. split; [exact Rw|].
  unfold Re.group, Re.set_cap, Re.consumed. simpl.
  rewrite Ew. apply substring_0_append.
Qed.

(** X28. A non-blank line that the PHP parser declines is stored by the
    generic parser of the upload path with one of two timestamps: the
    current UTC time, the message being the whole stripped line; or, when
    the line opens in the shape of an ISO date and time, its first 19
    characters as they stand, the message being the stripped rest.  The
    date is not checked: "2025-99-99 99:99:99" is stored as a
    timestamp. *)
Theorem X28_generic_timestamp_verbatim (decode : list Byte.byte -> string)
    (raw : models.data) (src dflt : string) (now : Dt.datetime) (d : db) :
  upload_line decode raw <> "" ->
  models.parse_php_error_line (upload_line decode raw) now = None ->
  exists r,
    models.ingest_plaintext_line decode raw src dflt now d = (d ++ [r])%list /\
    (timestamp r = models.datetime_utc_now now /\
     message r = upload_line decode raw \/
     19 <= String.length (upload_line decode raw) /\
     timestamp r = substring 0 19 (upload_line decode raw) /\
     message r = Str.strip (Str.drop 19 (upload_line decode raw))).
Proof.
  intros Hne Hphp. rewrite upload_line_unfold. cbv zeta.
  rewrite (proj2 (is_empty_false _) Hne), Hphp.
  eexists. split; [reflexivity|]. cbn [timestamp message].
  destruct (Re.re_match models.ts_regex _) as [m|] eqn:E; [|now left].
  right. apply ts_match_prefix in E. destruct E as (w & r & El & Lw & Gw).
  rewrite Gw, Lw, El, length_append, Lw.
  split; [lia|]. rewrite <- Lw. now rewrite substring_prefix, drop_prefix.
Qed.

Lemma X28_generic_timestamp_verbatim_witness :
  (upload_line Samples.decode_ascii (models.Text bogus_time_line) <> "" /\
   models.parse_php_error_line
     (upload_line Samples.decode_ascii (models.Text bogus_time_line))
     Samples.instant = None) /\
  exists r,
    models.ingest_plaintext_line Samples.decode_ascii
      (models.Text bogus_time_line) "upload:app.log" "upload-host"
      Samples.instant [] = ([] ++ [r])%list /\
    r = mkLog "2025-99-99 99:99:99" "upload:app.log" "INFO" "upload-host"
              "INFO disk check" None None None.
Proof.
  assert (H1 : upload_line Samples.decode_ascii (models.Text bogus_time_line) <> "")
    by (vm_compute; discriminate).
  assert (H2 : models.parse_php_error_line
                 (upload_line Samples.decode_ascii (models.Text bogus_time_line))
                 Samples.instant = None) by (vm_compute; reflexivity).
  split; [split; assumption|].
  destruct (X28_generic_timestamp_verbatim Samples.decode_ascii
              (models.Text bogus_time_line) "upload:app.log" "upload-host"
              Samples.instant [] H1 H2) as (r & Hr & _).
  exists r. split; [exact Hr|].
  vm_compute in Hr. injection Hr as <-. reflexivity.
Defined.

(* ================================================================== *)
(** ** The Zabbix path: a date that is none *)
(* ================================================================== *)

Lemma ingest_zabbix_loop_app (alias : string) (l1 l2 : list string)
    (clock : nat -> Dt.datetime) :
  forall i c d,
    ingest.ingest_zabbix_server_loop (l1 ++ l2)%list alias i c clock d =
    match ingest.ingest_zabbix_server_loop l1 alias i c clock d with
    | (Ok n, d1) =>
        ingest.ingest_zabbix_server_loop l2 alias (i + List.length l1) n clock d1
    | (Raise e, d1) => (Raise e, d1)
    end.
Proof.
  induction l1 as [|x t IH]; intros i c d; simpl.
  - now rewrite Nat.add_0_r.
  - destruct (parser_zabbix_server.parse_zabbix_server_line _ _ _) as [[p|]|e];
      [rewrite IH | rewrite IH | reflexivity];
      replace (S i + List.length t) with (i + S (List.length t)) by lia;
      reflexivity.
Qed.

Lemma zbx_server_raises (line alias : string) (now : Dt.datetime) (e : exn) :
  parser_zabbix_server.parse_zabbix_server_line line alias now = Raise e ->
  e = ValueError /\
  exists m,
    Re.re_match parser_zabbix_server.ZBX_SERVER_REGEX (Str.rstrip_nl line) = Some m /\
    Dt.valid
      (Str.to_N (Str.slice 0 4 (Re.group m parser_zabbix_server.g_date)))
      (Str.to_N (Str.slice 4 6 (Re.group m parser_zabbix_server.g_date)))
      (Str.to_N (Str.slice 6 8 (Re.group m parser_zabbix_server.g_date)))
      (Str.to_N (Str.slice 0 2 (Re.group m parser_zabbix_server.g_time)))
      (Str.to_N (Str.slice 2 4 (Re.group m parser_zabbix_server.g_time)))
      (Str.to_N (Str.slice 4 6 (Re.group m parser_zabbix_server.g_time)))
    = false.
Proof.
  unfold parser_zabbix_server.parse_zabbix_server_line.
  destruct (Re.re_match _ _) as [m|] eqn:E; [|discriminate].
  cbv zeta. unfold Dt.make.
  destruct (Dt.valid _ _ _ _ _ _) eqn:V; [discriminate|].
  intros H. injection H as <-. split; [reflexivity|].
  exists m. split; [reflexivity | exact V].
Qed.

(** X29. The Zabbix server parser raises nothing but [ValueError], and
    only on a line in the structured shape whose date and time digits are
    no instant of the calendar (a month 13, a 30th of February, an hour
    24); [ingest_zabbix_server] then stops at that line: the call ends
    with [ValueError], the rows of the lines before it, one for each, stay
    in the table, and no later line is read. *)
Theorem X29_zabbix_bad_date_aborts (l1 l2 : list string) (bad alias : string)
    (clock : nat -> Dt.datetime) (d : db) (n : nat) (e : exn) :
  fst (ingest.ingest_zabbix_server (Some l1) alias clock d) = Ok n ->
  parser_zabbix_server.parse_zabbix_server_line (Str.rstrip_nl bad) alias
    (clock (List.length l1)) = Raise e ->
  e = ValueError /\
  (exists m,
     Re.re_match parser_zabbix_server.ZBX_SERVER_REGEX (Str.rstrip_nl bad) = Some m /\
     Dt.valid
       (Str.to_N (Str.slice 0 4 (Re.group m parser_zabbix_server.g_date)))
       (Str.to_N (Str.slice 4 6 (Re.group m parser_zabbix_server.g_date)))
       (Str.to_N (Str.slice 6 8 (Re.group m parser_zabbix_server.g_date)))
       (Str.to_N (Str.slice 0 2 (Re.group m parser_zabbix_server.g_time)))
       (Str.to_N (Str.slice 2 4 (Re.group m parser_zabbix_server.g_time)))
       (Str.to_N (Str.slice 4 6 (Re.group m parser_zabbix_server.g_time)))
     = false) /\
  ingest.ingest_zabbix_server (Some (l1 ++ bad :: l2)%list) alias clock d =
    (Raise ValueError,
     snd (ingest.ingest_zabbix_server (Some l1) alias clock d)) /\
  List.length (snd (ingest.ingest_zabbix_server (Some l1) alias clock d)) =
    List.length d + List.length l1.
Proof.
  intros H1 Hbad.
  destruct (zbx_server_raises _ _ _ _ Hbad) as (-> & m & Hm & Hv).
  rewrite rstrip_nl_idem in Hm.
  split; [reflexivity|]. split; [eauto|].
  simpl in *. split.
  - rewrite ingest_zabbix_loop_app.
    destruct (ingest.ingest_zabbix_server_loop l1 alias 0 0 clock d)
      as [[k|e'] d1]; [|discriminate].
    simpl. now rewrite Hbad.
  - destruct (ingest_zabbix_loop_account (fun _ => True) alias
                (fun _ _ _ _ => I) l1 clock 0 0 d) as (added & Hd & _ & Hn).
    rewrite Hd, length_app. apply Hn in H1. lia.
Qed.

Lemma X29_zabbix_bad_date_aborts_witness :
  (fst (ingest.ingest_zabbix_server (Some [banner_line; structured_line])
          "zbx01" (fun _ => Samples.instant) []) = Ok 2 /\
   parser_zabbix_server.parse_zabbix_server_line
     (Str.rstrip_nl february_30_zabbix) "zbx01" Samples.instant
   = Raise ValueError) /\
  ingest.ingest_zabbix_server
    (Some [banner_line; structured_line; february_30_zabbix; banner_line])
    "zbx01" (fun _ => Samples.instant) [] =
  (Raise ValueError,
   snd (ingest.ingest_zabbix_server (Some [banner_line; structured_line])
          "zbx01" (fun _ => Samples.instant) [])).
Proof.
  assert (H1 : fst (ingest.ingest_zabbix_server
                      (Some [banner_line; structured_line])
                      "zbx01" (fun _ => Samples.instant) []) = Ok 2)
    by (vm_compute; reflexivity).
  assert (H2 : parser_zabbix_server.parse_zabbix_server_line
                 (Str.rstrip_nl february_30_zabbix) "zbx01" Samples.instant
               = Raise ValueError) by (vm_compute; reflexivity).
  split; [split; assumption|].
  exact (proj1 (proj2 (proj2
    (X29_zabbix_bad_date_aborts [banner_line; structured_line] [banner_line]
       february_30_zabbix "zbx01" (fun _ => Samples.instant) [] 2 ValueError
       H1 H2)))).
Defined.

(* ================================================================== *)
(** ** The PHP parser: the level of each severity word *)
(* ================================================================== *)






